(** * Idle gateway detector: collection and analysis of CloudWatch samples

    Shallow embedding of [src/idle-gateways-detector/idle_gw.py]:
    the chunked metric fetch ([get_metric_data_chunked]), the collector
    ([collect_metrics]), the per-gateway analysis ([analyze_idle_time],
    [_nat_summary], [_igw_summary]), the naming of a gateway
    ([get_gateway_info]), the export ([export_excel]) and [main].

    Conventions of the embedding.
    - A [datetime] is the number of microseconds since the epoch, a [Z];
      a [timedelta] is a number of microseconds.  The calendar bounds of
      Python's [datetime] (years 1 to 9999) are not part of the model.
    - CloudWatch statistics are Python floats; they are modelled by exact
      rationals ([Q]), and [round(x, 2)] by rounding a rational to the
      nearest hundredth, ties to even.  The program rounds the binary
      value instead, which may lie on either side of a tie: what is
      stated of a rounded quotient does not depend on how a tie is
      broken.
    - A Python exception is a value of [exn]; code that can raise returns
      a sum [exn + A].
    - The CloudWatch client is a pair of response functions; the calls made
      to it are recorded, in order, in a log.
    - The workbook writer is known by whether its operations raise; the
      export is the sequence of its [to_excel] calls. *)

From Stdlib Require Import List String Ascii ZArith QArith Qround Qabs Lia Lqa Bool.
From Stdlib Require Import Permutation.
From Equations Require Import Equations.
Import ListNotations.

Local Open Scope string_scope.
Local Open Scope list_scope.
Local Open Scope Z_scope.

(** ** Constants of the module *)

Definition NAT_METRICS : list string :=
  [ "BytesInFromDestination";
    "BytesInFromSource";
    "BytesOutToDestination";
    "BytesOutToSource";
    "PacketsInFromDestination";
    "PacketsInFromSource";
    "PacketsOutToDestination";
    "PacketsOutToSource";
    "ConnectionAttemptCount";
    "ConnectionEstablishedCount";
    "ErrorPortAllocation";
    "IdleTimeoutCount";
    "ActiveConnectionCount";
    "ConnectionEstablishedRate" ].

Definition IGW_METRICS : list string :=
  [ "BytesInFromDestination";
    "BytesOutToDestination";
    "PacketsInFromDestination";
    "PacketsOutToDestination";
    "BytesDropCountBlackholeIPv4";
    "BytesDropCountNoRouteIPv4";
    "PacketsDropCountBlackholeIPv4";
    "PacketsDropCountNoRouteIPv4" ].

(** [PERIOD_SECONDS = 21600  # 6 hours] *)
Definition PERIOD_SECONDS : Z := 21600.

(** ** Time *)

Definition datetime := Z.
Definition timedelta := Z.

(** [datetime.timedelta(days=n)], in microseconds. *)
Definition timedelta_days (n : Z) : timedelta := n * 86400 * 1000000.

(** ** Exceptions and the two effect types *)

Inductive exn : Type :=
| ClientError (msg : string)
| KeyError (key : string)
| IndexError
| ZeroDivisionError.

(** Code that may raise. *)
Definition Py (A : Type) : Type := (exn + A)%type.

Definition py_ret {A} (a : A) : Py A := inr a.

Definition py_bind {A B} (m : Py A) (k : A -> Py B) : Py B :=
  match m with
  | inl e => inl e
  | inr a => k a
  end.

(** ** The CloudWatch client *)

(** One entry of a [Dimensions] argument: [{"Name": n, "Value": v}]. *)
Record Dimension := { dim_Name : string; dim_Value : string }.

(** A datapoint of a [get_metric_statistics] response.  ["Timestamp"] is
    always present; each statistic may be absent ([dp.get(k, 0)]). *)
Record Datapoint := {
  dp_Timestamp : datetime;
  dp_Sum : option Q;
  dp_Average : option Q;
  dp_Maximum : option Q;
  dp_Minimum : option Q
}.

(** An entry of the ["Metrics"] list of a [list_metrics] response. *)
Record MetricDescr := {
  md_Namespace : string;
  md_MetricName : string;
  md_Dimensions : list Dimension
}.

(** A call made to the client.  [get_metric_statistics] is always called
    with [Statistics=["Sum", "Average", "Maximum", "Minimum"]]. *)
Inductive Call : Type :=
| GetMetricStatistics
    (Namespace MetricName : string) (Dimensions : list Dimension)
    (StartTime EndTime : datetime) (Period : Z)
| ListMetrics
    (Namespace MetricName : string) (Dimensions : list Dimension).

Record CloudWatch := {
  get_metric_statistics :
    string -> string -> list Dimension -> datetime -> datetime -> Z ->
    Py (list Datapoint);
  list_metrics :
    string -> string -> list Dimension -> Py (list MetricDescr)
}.

(** Code that talks to CloudWatch: its outcome and the calls it made. *)
Definition Traced (A : Type) : Type := (Py A * list Call)%type.

Definition ret {A} (a : A) : Traced A := (inr a, []).

Definition bind {A B} (m : Traced A) (k : A -> Traced B) : Traced B :=
  match m with
  | (inl e, log) => (inl e, log)
  | (inr a, log) => let (r, log') := k a in (r, log ++ log')
  end.

(** Performing one call: the response, with the call logged. *)
Definition call {A} (c : Call) (response : Py A) : Traced A :=
  (response, [c]).

Notation "x <- m ;; k" := (bind m (fun x => k))
  (at level 61, m at next level, right associativity).

(** ** Metric collection *)

(** [chunk_size = datetime.timedelta(days=30)] *)
Definition chunk_size : timedelta := timedelta_days 30.

(** The [while chunk_start < end_time] loop of [get_metric_data_chunked],
    from the current [chunk_start] and [all_datapoints]. *)
Equations? get_metric_data_loop
    (cloudwatch : CloudWatch) (namespace metric_name : string)
    (dimensions : list Dimension) (end_time : datetime)
    (chunk_start : datetime) (all_datapoints : list Datapoint)
  : Traced (list Datapoint) by wf (Z.to_nat (end_time - chunk_start)) lt :=
get_metric_data_loop cloudwatch namespace metric_name dimensions end_time
                     chunk_start all_datapoints
  with Z_lt_dec chunk_start end_time => {
  | left _ =>
      let chunk_end := Z.min (chunk_start + chunk_size) end_time in
      bind
        (call
           (GetMetricStatistics namespace metric_name dimensions
                                chunk_start chunk_end PERIOD_SECONDS)
           (get_metric_statistics cloudwatch namespace metric_name dimensions
                                  chunk_start chunk_end PERIOD_SECONDS))
        (fun Datapoints =>
           get_metric_data_loop cloudwatch namespace metric_name dimensions
                                end_time chunk_end
                                (all_datapoints ++ Datapoints))
  | right _ => ret all_datapoints }.
Proof.
  subst chunk_end. unfold chunk_size, timedelta_days, datetime in *. lia.
Qed.

Definition get_metric_data_chunked
    (cloudwatch : CloudWatch) (namespace metric_name : string)
    (dimensions : list Dimension) (start_time end_time : datetime)
  : Traced (list Datapoint) :=
  get_metric_data_loop cloudwatch namespace metric_name dimensions end_time
                       start_time [].

(** ** The flat sample table *)

(** One row of the table built by [collect_metrics]: the keys of the dicts
    appended to [results].  [VPC_ID] and [VPC_Name] may be [None]. *)
Module Row.
Record t := mk {
  Account_ID : string;
  Region : string;
  Gateway_Type : string;
  Gateway_ID : string;
  Gateway_Name : string;
  VPC_ID : option string;
  VPC_Name : option string;
  Metric : string;
  Timestamp : datetime;
  Sum : Q;
  Average : Q;
  Maximum : Q;
  Minimum : Q
}.
End Row.

(** [pd.DataFrame(results)]: the rows in insertion order. *)
Definition DataFrame := list Row.t.

(** A gateway as enumerated by EC2, together with the
    [(name, vpc_id, vpc_name)] that [get_gateway_info] returns for it.
    [gateway_id] is [nat["NatGatewayId"]] or [igw["InternetGatewayId"]]. *)
Record Gateway := {
  gateway_id : string;
  gateway_name : string;
  vpc_id : option string;
  vpc_name : option string
}.

Record EC2 := {
  paginate_nat_gateways : list Gateway;
  paginate_internet_gateways : list Gateway
}.

(** [dp.get(key, 0)] *)
Definition get_or_0 (v : option Q) : Q :=
  match v with
  | Some q => q
  | None => 0%Q
  end.

(** The dict appended for a fetched datapoint. *)
Definition datapoint_row (account_id region gateway_type : string)
    (g : Gateway) (metric : string) (dp : Datapoint) : Row.t :=
  {| Row.Account_ID := account_id;
     Row.Region := region;
     Row.Gateway_Type := gateway_type;
     Row.Gateway_ID := gateway_id g;
     Row.Gateway_Name := gateway_name g;
     Row.VPC_ID := vpc_id g;
     Row.VPC_Name := vpc_name g;
     Row.Metric := metric;
     Row.Timestamp := dp_Timestamp dp;
     Row.Sum := get_or_0 (dp_Sum dp);
     Row.Average := get_or_0 (dp_Average dp);
     Row.Maximum := get_or_0 (dp_Maximum dp);
     Row.Minimum := get_or_0 (dp_Minimum dp) |}.

(** The dict appended for an Internet Gateway metric without datapoints. *)
Definition placeholder_row (account_id region : string)
    (igw : Gateway) (metric : string) (start_time : datetime) : Row.t :=
  {| Row.Account_ID := account_id;
     Row.Region := region;
     Row.Gateway_Type := "IGW";
     Row.Gateway_ID := gateway_id igw;
     Row.Gateway_Name := gateway_name igw;
     Row.VPC_ID := vpc_id igw;
     Row.VPC_Name := vpc_name igw;
     Row.Metric := metric;
     Row.Timestamp := start_time;
     Row.Sum := 0;
     Row.Average := 0;
     Row.Maximum := 0;
     Row.Minimum := 0 |}.

(** A [for] loop whose body updates a state and may call CloudWatch. *)
Fixpoint for_each {A S : Type} (l : list A) (body : A -> S -> Traced S)
    (s : S) : Traced S :=
  match l with
  | [] => ret s
  | a :: l' => s' <- body a s ;; for_each l' body s'
  end.

Definition nat_dimensions (nat_id : string) : list Dimension :=
  [ {| dim_Name := "NatGatewayId"; dim_Value := nat_id |} ].

Definition igw_dimensions (igw_id : string) : list Dimension :=
  [ {| dim_Name := "InternetGatewayId"; dim_Value := igw_id |} ].

(** Body of [for metric in NAT_METRICS]. *)
Definition collect_nat_metric (cloudwatch : CloudWatch)
    (account_id region : string) (start_time end_time : datetime)
    (nat : Gateway) (metric : string) (results : list Row.t)
  : Traced (list Row.t) :=
  datapoints <- get_metric_data_chunked cloudwatch "AWS/NATGateway" metric
                  (nat_dimensions (gateway_id nat)) start_time end_time ;;
  ret (results ++
       map (datapoint_row account_id region "NAT" nat metric) datapoints).

(** Body of [for metric in IGW_METRICS]. *)
Definition collect_igw_metric (cloudwatch : CloudWatch)
    (account_id region : string) (start_time end_time : datetime)
    (igw : Gateway) (metric : string) (results : list Row.t)
  : Traced (list Row.t) :=
  metric_exists <- call (ListMetrics "AWS/IGW" metric
                                     (igw_dimensions (gateway_id igw)))
                        (list_metrics cloudwatch "AWS/IGW" metric
                                      (igw_dimensions (gateway_id igw))) ;;
  datapoints <- match metric_exists with
                | _ :: _ =>
                    get_metric_data_chunked cloudwatch "AWS/IGW" metric
                      (igw_dimensions (gateway_id igw)) start_time end_time
                | [] => ret []
                end ;;
  let results :=
    match datapoints with
    | [] => results ++ [placeholder_row account_id region igw metric
                                        start_time]
    | _ :: _ => results
    end in
  ret (results ++
       map (datapoint_row account_id region "IGW" igw metric) datapoints).

(** [collect_metrics], given the instant [now] read from the clock.
    The two clients are those the session hands out. *)
Definition collect_metrics (cloudwatch : CloudWatch) (ec2 : EC2)
    (region account_id : string) (now : datetime) (days : Z)
  : Traced DataFrame :=
  let end_time := now in
  let start_time := end_time - timedelta_days days in
  results <- for_each (paginate_nat_gateways ec2)
               (fun nat results =>
                  for_each NAT_METRICS
                    (collect_nat_metric cloudwatch account_id region
                                        start_time end_time nat)
                    results)
               [] ;;
  for_each (paginate_internet_gateways ec2)
    (fun igw results =>
       for_each IGW_METRICS
         (collect_igw_metric cloudwatch account_id region
                             start_time end_time igw)
         results)
    results.

(** ** Analysis *)

(** One record of [idle_analysis]: the keys of [summary].  The keys set by
    [_nat_summary] or [_igw_summary] are in [of_kind]; those that only one
    of the two sets are in [specific]. *)
Module Summary.
Record nat_fields := {
  Total_Connection_Attempts : Q;
  Total_Connection_Timeouts : Q;
  Port_Allocation_Errors : Q;
  Max_Active_Connections : Q;
  Avg_Active_Connections : Q
}.

Record igw_fields := {
  Total_Blackhole_Drops_Bytes : Q;
  Total_NoRoute_Drops_Bytes : Q;
  Total_Blackhole_Drops_Packets : Q;
  Total_NoRoute_Drops_Packets : Q;
  Status : string
}.

Record kind := {
  Total_Bytes_In : Q;
  Total_Bytes_Out : Q;
  Total_Packets_In : Q;
  Total_Packets_Out : Q;
  specific : nat_fields + igw_fields
}.

Record t := {
  Account_ID : string;
  Region : string;
  VPC_ID : option string;
  VPC_Name : option string;
  Gateway_Type : string;
  Gateway_ID : string;
  Gateway_Name : string;
  Total_Periods : Z;
  Idle_Periods : Z;
  Idle_Percentage : Q;
  of_kind : kind;
  Total_Bytes : Q;
  Total_Packets : Q;
  Bytes_Per_Second_Avg : Q;
  Packets_Per_Second_Avg : Q
}.

(** [summary["Status"]], present for Internet Gateways only. *)
Definition status (s : t) : option string :=
  match specific (of_kind s) with
  | inr i => Some (Status i)
  | inl _ => None
  end.
End Summary.

Notation "x <-- m ;; k" := (py_bind m (fun x => k))
  (at level 61, m at next level, right associativity).

(** [needle in hay], on strings. *)
Fixpoint contains (needle hay : string) : bool :=
  if String.prefix needle hay then true
  else match hay with
       | EmptyString => false
       | String _ hay' => contains needle hay'
       end.

(** [Series.isin(values)], for one element. *)
Definition isin (x : string) (values : list string) : bool :=
  existsb (String.eqb x) values.

(** [Series.unique()]: the distinct values, in order of first appearance. *)
Fixpoint unique {A : Type} (eqb : A -> A -> bool) (l : list A) : list A :=
  match l with
  | [] => []
  | x :: l' => x :: filter (fun y => negb (eqb x y)) (unique eqb l')
  end.

(** [len], as a Python int. *)
Definition len {A : Type} (l : list A) : Z := Z.of_nat (List.length l).

(** [Series.sum()]; the sum of no value is 0. *)
Definition series_sum (l : list Q) : Q := fold_left Qplus l 0%Q.

(** [Series.max()] and [Series.mean()], used on non-empty series only. *)
Definition series_max (l : list Q) : Q :=
  match l with
  | [] => 0%Q
  | x :: l' => fold_left (fun a b => if Qle_bool a b then b else a) l' x
  end.

Definition series_mean (l : list Q) : Q :=
  (series_sum l / inject_Z (len l))%Q.

(** [a / b], which raises [ZeroDivisionError] when [b] is zero. *)
Definition div (a b : Q) : Py Q :=
  if Qeq_bool b 0 then inl ZeroDivisionError else inr (a / b)%Q.

(** The integer nearest to [q], ties going to the even one. *)
Definition round_half_even (q : Q) : Z :=
  let f := Qfloor q in
  match (q - inject_Z f ?= 1 # 2)%Q with
  | Lt => f
  | Gt => f + 1
  | Eq => if Z.even f then f else f + 1
  end.

(** [round(q, 2)] *)
Definition round2 (q : Q) : Q :=
  (inject_Z (round_half_even (q * 100)) / 100)%Q.

(** [gw.iloc[0]], which raises [IndexError] on an empty frame. *)
Definition iloc0 (gw : DataFrame) : Py Row.t :=
  match gw with
  | [] => inl IndexError
  | row0 :: _ => inr row0
  end.

(** [gw[gw["Metric"].isin(metrics)]["Sum"].sum()] and
    [gw[gw["Metric"] == metric]["Sum"].sum()]. *)
Definition sum_of_metrics (gw : DataFrame) (metrics : list string) : Q :=
  series_sum (map Row.Sum (filter (fun r => isin (Row.Metric r) metrics) gw)).

Definition sum_of_metric (gw : DataFrame) (metric : string) : Q :=
  series_sum (map Row.Sum (filter (fun r => String.eqb (Row.Metric r) metric) gw)).

Definition _nat_summary (gw : DataFrame) : Summary.kind :=
  let active :=
    filter (fun r => String.eqb (Row.Metric r) "ActiveConnectionCount") gw in
  let has_active :=
    existsb (String.eqb "ActiveConnectionCount") (map Row.Metric gw) in
  {| Summary.Total_Bytes_In :=
       sum_of_metrics gw ["BytesInFromSource"; "BytesInFromDestination"];
     Summary.Total_Bytes_Out :=
       sum_of_metrics gw ["BytesOutToSource"; "BytesOutToDestination"];
     Summary.Total_Packets_In :=
       sum_of_metrics gw ["PacketsInFromSource"; "PacketsInFromDestination"];
     Summary.Total_Packets_Out :=
       sum_of_metrics gw ["PacketsOutToSource"; "PacketsOutToDestination"];
     Summary.specific := inl
       {| Summary.Total_Connection_Attempts :=
            sum_of_metric gw "ConnectionAttemptCount";
          Summary.Total_Connection_Timeouts :=
            sum_of_metric gw "IdleTimeoutCount";
          Summary.Port_Allocation_Errors :=
            sum_of_metric gw "ErrorPortAllocation";
          Summary.Max_Active_Connections :=
            if has_active then series_max (map Row.Maximum active) else 0%Q;
          Summary.Avg_Active_Connections :=
            if has_active then series_mean (map Row.Average active) else 0%Q |} |}.

Definition _igw_summary (gw : DataFrame) : Summary.kind :=
  {| Summary.Total_Bytes_In := sum_of_metric gw "BytesInFromDestination";
     Summary.Total_Bytes_Out := sum_of_metric gw "BytesOutToDestination";
     Summary.Total_Packets_In := sum_of_metric gw "PacketsInFromDestination";
     Summary.Total_Packets_Out := sum_of_metric gw "PacketsOutToDestination";
     Summary.specific := inr
       {| Summary.Total_Blackhole_Drops_Bytes :=
            sum_of_metric gw "BytesDropCountBlackholeIPv4";
          Summary.Total_NoRoute_Drops_Bytes :=
            sum_of_metric gw "BytesDropCountNoRouteIPv4";
          Summary.Total_Blackhole_Drops_Packets :=
            sum_of_metric gw "PacketsDropCountBlackholeIPv4";
          Summary.Total_NoRoute_Drops_Packets :=
            sum_of_metric gw "PacketsDropCountNoRouteIPv4";
          Summary.Status :=
            if forallb (fun r => Qeq_bool (Row.Sum r) 0) gw
            then "Inactive" else "Active" |} |}.

(** [[m for m in metrics_list if "Bytes" in m or "Packets" in m]] *)
Definition traffic_metrics_of (metrics_list : list string) : list string :=
  filter (fun m => contains "Bytes" m || contains "Packets" m) metrics_list.

(** The rows of [gw] that count towards [idle_periods]:
    [gw[(gw["Metric"].isin(traffic_metrics)) & (gw["Sum"] == 0)]]. *)
Definition idle_rows (traffic_metrics : list string) (gw : DataFrame)
  : DataFrame :=
  filter (fun r => isin (Row.Metric r) traffic_metrics
                   && Qeq_bool (Row.Sum r) 0) gw.

(** The body of [for gateway_id in gateways], once [gw] and [row0] are
    known. *)
Definition summarize (account_id region gateway_type : string)
    (traffic_metrics : list string) (gateway_id : string)
    (gw : DataFrame) (row0 : Row.t) : Py Summary.t :=
  let total_periods := len (unique Z.eqb (map Row.Timestamp gw)) in
  let idle_periods :=
    len (unique Z.eqb (map Row.Timestamp (idle_rows traffic_metrics gw))) in
  idle_pct <-- (if 0 <? total_periods
                then q <-- div (inject_Z idle_periods)
                               (inject_Z total_periods) ;;
                     inr (q * 100)%Q
                else inr 0%Q) ;;
  let of_kind :=
    if String.eqb gateway_type "NAT" then _nat_summary gw
    else _igw_summary gw in
  let total_bytes :=
    (Summary.Total_Bytes_In of_kind + Summary.Total_Bytes_Out of_kind)%Q in
  let total_packets :=
    (Summary.Total_Packets_In of_kind
     + Summary.Total_Packets_Out of_kind)%Q in
  let secs := if 0 <? total_periods then total_periods * PERIOD_SECONDS
              else 1 in
  bytes_per_second <-- div total_bytes (inject_Z secs) ;;
  packets_per_second <-- div total_packets (inject_Z secs) ;;
  inr {| Summary.Account_ID := account_id;
         Summary.Region := region;
         Summary.VPC_ID := Row.VPC_ID row0;
         Summary.VPC_Name := Row.VPC_Name row0;
         Summary.Gateway_Type := gateway_type;
         Summary.Gateway_ID := gateway_id;
         Summary.Gateway_Name := Row.Gateway_Name row0;
         Summary.Total_Periods := total_periods;
         Summary.Idle_Periods := idle_periods;
         Summary.Idle_Percentage := round2 idle_pct;
         Summary.of_kind := of_kind;
         Summary.Total_Bytes := total_bytes;
         Summary.Total_Packets := total_packets;
         Summary.Bytes_Per_Second_Avg := round2 bytes_per_second;
         Summary.Packets_Per_Second_Avg := round2 packets_per_second |}.

(** The rows of one gateway:
    [df[(df["Gateway_Type"] == gateway_type) & (df["Gateway_ID"] == gateway_id)]] *)
Definition rows_of (df : DataFrame) (gateway_type gateway_id : string)
  : DataFrame :=
  filter (fun r => String.eqb (Row.Gateway_Type r) gateway_type
                   && String.eqb (Row.Gateway_ID r) gateway_id) df.

(** [df[df["Gateway_Type"] == gateway_type]["Gateway_ID"].unique()] *)
Definition gateways_of (df : DataFrame) (gateway_type : string)
  : list string :=
  unique String.eqb
    (map Row.Gateway_ID
         (filter (fun r => String.eqb (Row.Gateway_Type r) gateway_type) df)).

(** A [for] loop whose body updates a state and may raise. *)
Fixpoint py_for_each {A S : Type} (l : list A) (body : A -> S -> Py S)
    (s : S) : Py S :=
  match l with
  | [] => inr s
  | a :: l' => s' <-- body a s ;; py_for_each l' body s'
  end.

(** The body of [for gateway_id in gateways], up to its [summary]. *)
Definition gateway_summary (df : DataFrame)
    (account_id region gateway_type : string)
    (traffic_metrics : list string) (gateway_id : string) : Py Summary.t :=
  let gw := rows_of df gateway_type gateway_id in
  row0 <-- iloc0 gw ;;
  summarize account_id region gateway_type traffic_metrics gateway_id gw row0.

(** [analyze_idle_time].  A frame built from no row has no column, and
    [df["Gateway_Type"]] raises [KeyError] on it. *)
Definition analyze_idle_time (df : DataFrame) (account_id region : string)
  : Py (list Summary.t) :=
  match df with
  | [] => inl (KeyError "Gateway_Type")
  | _ :: _ =>
      py_for_each [("NAT", NAT_METRICS); ("IGW", IGW_METRICS)]
        (fun '(gateway_type, metrics_list) idle_analysis =>
           let traffic_metrics := traffic_metrics_of metrics_list in
           let gateways := gateways_of df gateway_type in
           py_for_each gateways
             (fun gateway_id idle_analysis =>
                summary <-- gateway_summary df account_id region gateway_type
                                            traffic_metrics gateway_id ;;
                inr (idle_analysis ++ [summary]))
             idle_analysis)
        []
  end.

(** ** Gateway discovery *)

(** A tag of a gateway or of a VPC: [{"Key": k, "Value": v}]. *)
Record Tag := { tag_Key : string; tag_Value : string }.

(** An entry of [gateway["Attachments"]]; its ["VpcId"] may be absent. *)
Record Attachment := { att_VpcId : option string }.

(** A gateway as [describe_nat_gateways] or [describe_internet_gateways]
    returns it.  A field is [None] when the dict has no such key. *)
Record GatewayDict := {
  NatGatewayId : option string;
  InternetGatewayId : option string;
  Tags : option (list Tag);
  VpcId : option string;
  Attachments : option (list Attachment)
}.

(** An entry of the ["Vpcs"] list of a [describe_vpcs] response. *)
Record Vpc := { vpc_Tags : option (list Tag) }.

(** The EC2 client: the pages of the two paginators, each with its list of
    gateways when the page has the key, and [describe_vpcs] for one id. *)
Record EC2Client := {
  describe_nat_gateways : list (option (list GatewayDict));
  describe_internet_gateways : list (option (list GatewayDict));
  describe_vpcs : string -> Py (list Vpc)
}.

(** [gateways.extend(page.get(key, []))] over the pages. *)
Definition paginate (pages : list (option (list GatewayDict)))
  : list GatewayDict :=
  fold_left (fun gateways page =>
               gateways ++ match page with
                           | Some l => l
                           | None => []
                           end) pages [].

(** [next((t["Value"] for t in tags if t["Key"] == "Name"), None)] *)
Definition name_tag_of (tags : list Tag) : option string :=
  option_map tag_Value (find (fun t => String.eqb (tag_Key t) "Name") tags).

(** Truth value of a [str | None]: neither [None] nor empty. *)
Definition truthy (s : option string) : bool :=
  match s with
  | Some (String _ _) => true
  | Some EmptyString => false
  | None => false
  end.

(** The [vpc_id] of [get_gateway_info]: [gateway["VpcId"]] when the key
    is there, else the ["VpcId"] of the first attachment, if any. *)
Definition gateway_vpc_id (gateway : GatewayDict) : option string :=
  match VpcId gateway with
  | Some v => Some v
  | None =>
      match Attachments gateway with
      | Some (a :: _) => att_VpcId a
      | Some [] => None
      | None => None
      end
  end.

(** The [vpc_name] of [get_gateway_info].  [if vpc_id] holds for a string
    that is neither [None] nor empty; whatever the lookup raises, a
    missing first VPC included, is caught, and the name is then
    [vpc_id]. *)
Definition lookup_vpc_name (ec2 : EC2Client) (vpc_id : option string)
  : option string :=
  match vpc_id with
  | Some (String c v) =>
      match describe_vpcs ec2 (String c v) with
      | inr (vpc :: _) =>
          match name_tag_of (match vpc_Tags vpc with
                             | Some tags => tags
                             | None => []
                             end) with
          | Some n => Some n
          | None => vpc_id
          end
      | inr [] => vpc_id
      | inl _ => vpc_id
      end
  | Some EmptyString => None
  | None => None
  end.

(** The name [get_gateway_info] settles on: the ["Name"] tag unless it is
    missing or empty, else the kind and the VPC name, else an
    identifier. *)
Definition gateway_name_of (gateway : GatewayDict)
    (name_tag vpc_name : option string) : string :=
  match name_tag with
  | Some (String c n) => String c n
  | Some EmptyString | None =>
      match vpc_name with
      | Some (String c n) =>
          match InternetGatewayId gateway with
          | Some _ => String.append "IGW-" (String c n)
          | None => String.append "NAT-" (String c n)
          end
      | Some EmptyString | None =>
          match NatGatewayId gateway with
          | Some id => id
          | None => match InternetGatewayId gateway with
                    | Some id => id
                    | None => "Unknown"
                    end
          end
      end
  end.

(** [get_gateway_info]: [(name, vpc_id, vpc_name)]. *)
Definition get_gateway_info (gateway : GatewayDict) (ec2 : EC2Client)
  : string * option string * option string :=
  let tags := match Tags gateway with Some tags => tags | None => [] end in
  let name_tag := name_tag_of tags in
  let vpc_id := gateway_vpc_id gateway in
  let vpc_name := lookup_vpc_name ec2 vpc_id in
  (gateway_name_of gateway name_tag vpc_name, vpc_id, vpc_name).

(** ** Export *)

(** What a [to_excel] call writes: the summary table, or the rows of one
    gateway.  [tz_localize(None)] leaves the instants, and so the rows of
    this model, as they are. *)
Inductive SheetData : Type :=
| SummaryData (idle_analysis : list Summary.t)
| GatewayData (gw_data : DataFrame).

(** A [to_excel] call on the writer: [sheet_name] and the frame. *)
Definition ToExcel : Type := string * SheetData.

(** An exception of the workbook library, such as the [ValueError] of
    openpyxl for a sheet title that it refuses, or an [OSError] for the
    file. *)
Inductive WriterError : Type :=
| writer_error (message : string).

(** The writer of [pd.ExcelWriter(output_path, engine="openpyxl")].  What
    it makes of the frames it is given is the library's and is not part
    of this model, which takes from it only whether an operation raises:
    entering the [with] block, a [to_excel] call (given the calls already
    made on the writer), and saving the workbook when the block is
    left. *)
Record ExcelWriter := {
  open_workbook : option WriterError;
  to_excel : list ToExcel -> ToExcel -> option WriterError;
  save_workbook : list ToExcel -> option WriterError
}.

(** A run of the export: the [to_excel] calls made, in order, and the
    exception that ended it, if any. *)
Definition Exported : Type := list ToExcel * option (exn + WriterError).

(** [for gateway_id in df["Gateway_ID"].unique()], after the calls
    [written]. *)
Fixpoint write_gateway_sheets (writer : ExcelWriter) (df : DataFrame)
    (gateway_ids : list string) (written : list ToExcel) : Exported :=
  match gateway_ids with
  | [] => (written, None)
  | gateway_id :: gateway_ids' =>
      let gw_data :=
        filter (fun r => String.eqb (Row.Gateway_ID r) gateway_id) df in
      match iloc0 gw_data with
      | inl e => (written, Some (inl e))
      | inr row0 =>
          let sheet_name := substring 0 31 (Row.Gateway_Name row0) in
          let sheet := (sheet_name, GatewayData gw_data) in
          match to_excel writer written sheet with
          | Some e => (written ++ [sheet], Some (inr e))
          | None =>
              write_gateway_sheets writer df gateway_ids' (written ++ [sheet])
          end
      end
  end.

(** [export_excel], as the sequence of its [to_excel] calls: the summary
    sheet, then a sheet per gateway.  A frame built from no row has no
    column, and [df["Gateway_ID"]] raises [KeyError] on it.  The last
    loop sets the width of each column, see [column_width]; it makes no
    [to_excel] call. *)
Definition export_excel (writer : ExcelWriter) (df : DataFrame)
    (idle_analysis : list Summary.t) : Exported :=
  match open_workbook writer with
  | Some e => ([], Some (inr e))
  | None =>
      let summary := ("Summary", SummaryData idle_analysis) in
      match to_excel writer [] summary with
      | Some e => ([summary], Some (inr e))
      | None =>
          match df with
          | [] => ([summary], Some (inl (KeyError "Gateway_ID")))
          | _ :: _ =>
              let gateway_ids := unique String.eqb (map Row.Gateway_ID df) in
              match write_gateway_sheets writer df gateway_ids [summary] with
              | (written, Some e) => (written, Some e)
              | (written, None) =>
                  match save_workbook writer written with
                  | Some e => (written, Some (inr e))
                  | None => (written, None)
                  end
              end
          end
      end
  end.

(** [max((len(str(cell.value)) for cell in col if cell.value is not None),
    default=0)], a cell being the text of its value. *)
Definition max_len (col : list (option string)) : Z :=
  fold_left (fun m cell =>
               match cell with
               | Some text => Z.max m (Z.of_nat (String.length text))
               | None => m
               end) col 0.

(** [min(max_len + 2, 50)], the width given to a column. *)
Definition column_width (col : list (option string)) : Z :=
  Z.min (max_len col + 2) 50.

(** ** The run *)

(** What [main] ends with when it raises nothing: the message that no
    data was found, or the table, its analysis and the [to_excel] calls
    of the export. *)
Inductive Outcome : Type :=
| NoData
| Report (df : DataFrame) (idle_analysis : list Summary.t)
         (written : list ToExcel).

(** [main] from [collect_metrics] to [export_excel], for the account and
    region already known and the instant [now]; as in [collect_metrics],
    the gateways are those already enumerated.  It catches nothing: an
    exception of the collector, of the analysis or of the export ends
    it. *)
Definition main (cloudwatch : CloudWatch) (ec2 : EC2) (writer : ExcelWriter)
    (region account_id : string) (now : datetime) (days : Z)
  : ((exn + WriterError) + Outcome) * list Call :=
  let (collected, log) :=
    collect_metrics cloudwatch ec2 region account_id now days in
  match collected with
  | inl e => (inl (inl e), log)
  | inr [] => (inr NoData, log)
  | inr ((_ :: _) as df) =>
      match analyze_idle_time df account_id region with
      | inl e => (inl (inl e), log)
      | inr idle_analysis =>
          match export_excel writer df idle_analysis with
          | (_, Some e) => (inl e, log)
          | (written, None) => (inr (Report df idle_analysis written), log)
          end
      end
  end.

(** ** Vocabulary of the statements *)

(** The sub-intervals requested from [get_metric_statistics], in call order. *)
Definition windows (log : list Call) : list (datetime * datetime) :=
  flat_map (fun c => match c with
                     | GetMetricStatistics _ _ _ s e _ => [(s, e)]
                     | ListMetrics _ _ _ => []
                     end) log.

(** The request of one chunk, and the datapoints its response holds. *)
Definition chunk_call (ns m : string) (d : list Dimension)
    (w : datetime * datetime) : Call :=
  GetMetricStatistics ns m d (fst w) (snd w) PERIOD_SECONDS.

Definition chunk_datapoints (cw : CloudWatch) (ns m : string)
    (d : list Dimension) (w : datetime * datetime) : list Datapoint :=
  match get_metric_statistics cw ns m d (fst w) (snd w) PERIOD_SECONDS with
  | inr dps => dps
  | inl _ => []
  end.

(** The iterations of the loop when no fetch raises: from [chunk_start],
    the windows taken until [end_time] is reached. *)
Inductive chunking (end_time : datetime)
  : datetime -> list (datetime * datetime) -> Prop :=
| chunking_done chunk_start :
    end_time <= chunk_start -> chunking end_time chunk_start []
| chunking_step chunk_start ws :
    chunk_start < end_time ->
    chunking end_time (Z.min (chunk_start + chunk_size) end_time) ws ->
    chunking end_time chunk_start
             ((chunk_start, Z.min (chunk_start + chunk_size) end_time) :: ws).

(** Consecutive windows share their boundary. *)
Definition contiguous (ws : list (datetime * datetime)) : Prop :=
  forall i w1 w2,
    nth_error ws i = Some w1 -> nth_error ws (S i) = Some w2 ->
    snd w1 = fst w2.

(** No fetch of this metric raises. *)
Definition fetch_succeeds (cw : CloudWatch) (ns m : string)
    (d : list Dimension) : Prop :=
  forall s e, exists dps,
    get_metric_statistics cw ns m d s e PERIOD_SECONDS = inr dps.

(** Every fetch of this metric returns no datapoint. *)
Definition no_datapoints (cw : CloudWatch) (ns m : string)
    (d : list Dimension) : Prop :=
  forall s e, get_metric_statistics cw ns m d s e PERIOD_SECONDS = inr [].

(** A client none of whose calls raises. *)
Definition never_raises (cw : CloudWatch) : Prop :=
  (forall ns m d s e p, exists dps,
      get_metric_statistics cw ns m d s e p = inr dps) /\
  (forall ns m d, exists mds, list_metrics cw ns m d = inr mds).

(** A window never starts before an earlier one has ended. *)
Definition non_overlapping (ws : list (datetime * datetime)) : Prop :=
  forall i j w1 w2,
    (i < j)%nat -> nth_error ws i = Some w1 -> nth_error ws j = Some w2 ->
    snd w1 <= fst w2.

(** What one call of a run of the collector can be: a fetch for a NAT
    Gateway, a probe for an Internet Gateway, or a fetch for an Internet
    Gateway metric that its probe found. *)
Definition collector_call (cw : CloudWatch) (c : Call) : Prop :=
  match c with
  | GetMetricStatistics ns m d _ _ _ =>
      ns = "AWS/NATGateway" \/
      (ns = "AWS/IGW" /\ list_metrics cw "AWS/IGW" m d <> inr [])
  | ListMetrics ns _ d => ns = "AWS/IGW" /\ exists id, d = igw_dimensions id
  end.

(** The rows appended for one metric of an Internet Gateway. *)
Definition igw_metric_rows (cw : CloudWatch) (account_id region : string)
    (start_time : datetime) (igw : Gateway) (metric : string)
    (rows : list Row.t) : Prop :=
  rows <> [] /\
  Forall (fun r => Row.Gateway_Type r = "IGW" /\
                   Row.Gateway_ID r = gateway_id igw /\
                   Row.Metric r = metric) rows /\
  (list_metrics cw "AWS/IGW" metric (igw_dimensions (gateway_id igw)) = inr []
   \/ no_datapoints cw "AWS/IGW" metric (igw_dimensions (gateway_id igw)) ->
   rows = [placeholder_row account_id region igw metric start_time]).

(** The rows appended for one Internet Gateway. *)
Definition igw_rows (cw : CloudWatch) (account_id region : string)
    (start_time : datetime) (igw : Gateway) (rows : list Row.t) : Prop :=
  exists rowss,
    rows = List.concat rowss /\
    Forall2 (igw_metric_rows cw account_id region start_time igw)
            IGW_METRICS rowss.

(** The rows appended for one metric of a NAT Gateway, and for the
    gateway. *)
Definition nat_metric_rows (cw : CloudWatch) (nat : Gateway)
    (metric : string) (rows : list Row.t) : Prop :=
  Forall (fun r => Row.Gateway_Type r = "NAT" /\
                   Row.Gateway_ID r = gateway_id nat /\
                   Row.Metric r = metric) rows /\
  (no_datapoints cw "AWS/NATGateway" metric
                 (nat_dimensions (gateway_id nat)) ->
   rows = []).

Definition nat_rows (cw : CloudWatch) (nat : Gateway) (rows : list Row.t)
  : Prop :=
  exists rowss,
    rows = List.concat rowss /\
    Forall2 (nat_metric_rows cw nat) NAT_METRICS rowss.

(** The rows of the table for one metric of one gateway. *)
Definition rows_of_metric (df : DataFrame)
    (gateway_type gateway_id metric : string) : DataFrame :=
  filter (fun r => String.eqb (Row.Gateway_Type r) gateway_type
                   && String.eqb (Row.Gateway_ID r) gateway_id
                   && String.eqb (Row.Metric r) metric) df.

(** A timestamp at which a sample of a traffic metric of the gateway has
    [Sum == 0]. *)
Definition idle_at (df : DataFrame) (gateway_type : string)
    (metrics_list : list string) (gateway_id : string) (t : datetime)
  : Prop :=
  exists r,
    In r df /\
    Row.Gateway_Type r = gateway_type /\ Row.Gateway_ID r = gateway_id /\
    In (Row.Metric r) metrics_list /\
    (contains "Bytes" (Row.Metric r) = true \/
     contains "Packets" (Row.Metric r) = true) /\
    (Row.Sum r == 0)%Q /\
    Row.Timestamp r = t.

(** The number of idle periods in the words of the specification: the
    distinct timestamps at which a traffic metric was observed and every
    traffic metric observed has [Sum == 0]. *)
Definition claimed_idle_periods (traffic_metrics : list string)
    (gw : DataFrame) : Z :=
  let traffic := filter (fun r => isin (Row.Metric r) traffic_metrics) gw in
  len (unique Z.eqb
         (filter (fun t =>
                    forallb (fun r => negb (Z.eqb (Row.Timestamp r) t)
                                      || Qeq_bool (Row.Sum r) 0) traffic)
                 (map Row.Timestamp traffic))).

(** What the summary of an Internet Gateway without any datapoint
    holds. *)
Definition idle_igw_summary (s : Summary.t) : Prop :=
  Summary.Total_Periods s = 1 /\
  Summary.Idle_Periods s = 1 /\
  (Summary.Idle_Percentage s == 100)%Q /\
  (Summary.Total_Bytes_In (Summary.of_kind s) == 0)%Q /\
  (Summary.Total_Bytes_Out (Summary.of_kind s) == 0)%Q /\
  (Summary.Total_Packets_In (Summary.of_kind s) == 0)%Q /\
  (Summary.Total_Packets_Out (Summary.of_kind s) == 0)%Q /\
  (exists i,
      Summary.specific (Summary.of_kind s) = inr i /\
      (Summary.Total_Blackhole_Drops_Bytes i == 0)%Q /\
      (Summary.Total_NoRoute_Drops_Bytes i == 0)%Q /\
      (Summary.Total_Blackhole_Drops_Packets i == 0)%Q /\
      (Summary.Total_NoRoute_Drops_Packets i == 0)%Q) /\
  (Summary.Total_Bytes s == 0)%Q /\
  (Summary.Total_Packets s == 0)%Q /\
  (Summary.Bytes_Per_Second_Avg s == 0)%Q /\
  (Summary.Packets_Per_Second_Avg s == 0)%Q /\
  Summary.status s = Some "Inactive".

(** [r] is [q] rounded to two decimals: a whole number of hundredths, at
    most half a hundredth away from [q].  Which hundredth is taken when
    [q] lies halfway between two is left open: the program rounds the
    binary quotient, which may lie on either side of such a [q]. *)
Definition rounded_to_2_decimals (q r : Q) : Prop :=
  (exists n : Z, r == inject_Z n / 100)%Q /\ (Qabs (r - q) <= 1 # 200)%Q.

(** Every window but the last lasts [chunk_size]. *)
Definition full_but_last (ws : list (datetime * datetime)) : Prop :=
  forall i w,
    nth_error ws i = Some w -> (S i < List.length ws)%nat ->
    snd w - fst w = chunk_size.

(** What the code relies on from [get_metric_statistics]: the datapoints
    of a response have distinct timestamps, from [StartTime] included to
    [EndTime] excluded. *)
Definition answers_within_window (cw : CloudWatch) (ns m : string)
    (d : list Dimension) : Prop :=
  forall s e dps,
    get_metric_statistics cw ns m d s e PERIOD_SECONDS = inr dps ->
    NoDup (map dp_Timestamp dps) /\
    Forall (fun dp => s <= dp_Timestamp dp < e) dps.

(** The client raises [e] when called as in [c]; it answers [c] when it
    raises nothing. *)
Definition raised (cw : CloudWatch) (c : Call) (e : exn) : Prop :=
  match c with
  | GetMetricStatistics ns m d s e' p =>
      get_metric_statistics cw ns m d s e' p = inl e
  | ListMetrics ns m d => list_metrics cw ns m d = inl e
  end.

Definition answered (cw : CloudWatch) (c : Call) : Prop :=
  forall e, ~ raised cw c e.

(** A run that raised did so at its last call, with the exception of that
    call, every earlier call having been answered; a run that returned
    had all its calls answered. *)
Definition stops_at_failure {A} (cw : CloudWatch) (run : Traced A) : Prop :=
  match fst run with
  | inl e =>
      exists before c,
        snd run = before ++ [c] /\
        Forall (answered cw) before /\ raised cw c e
  | inr _ => Forall (answered cw) (snd run)
  end.

(** A call for a listed gateway and a metric of its catalog, over a
    window of the range of at most 30 days. *)
Definition request_in_scope (ec2 : EC2) (start_time end_time : datetime)
    (c : Call) : Prop :=
  match c with
  | GetMetricStatistics ns m d s e p =>
      p = 21600 /\
      start_time <= s /\ s < e /\ e <= end_time /\
      e - s <= timedelta_days 30 /\
      ((ns = "AWS/NATGateway" /\ In m NAT_METRICS /\
        exists nat, In nat (paginate_nat_gateways ec2) /\
                    d = nat_dimensions (gateway_id nat)) \/
       (ns = "AWS/IGW" /\ In m IGW_METRICS /\
        exists igw, In igw (paginate_internet_gateways ec2) /\
                    d = igw_dimensions (gateway_id igw)))
  | ListMetrics ns m d =>
      ns = "AWS/IGW" /\ In m IGW_METRICS /\
      exists igw, In igw (paginate_internet_gateways ec2) /\
                  d = igw_dimensions (gateway_id igw)
  end.

(** The rows that a [to_excel] call writes for a gateway; the summary
    sheet holds none. *)
Definition rows_written (sheet : ToExcel) : DataFrame :=
  match snd sheet with
  | GatewayData gw_data => gw_data
  | SummaryData _ => []
  end.


(** The sheet of one gateway: its rows in the table, which are not none,
    under the name of the first of them cut to its first 31 characters. *)
Definition sheet_of_gateway (df : DataFrame) (gateway_id : string)
    (sheet : ToExcel) : Prop :=
  exists row0 rest,
    filter (fun r => String.eqb (Row.Gateway_ID r) gateway_id) df
    = row0 :: rest /\
    snd sheet = GatewayData (row0 :: rest) /\
    prefix (fst sheet) (Row.Gateway_Name row0) = true /\
    String.length (fst sheet)
    = Nat.min 31 (String.length (Row.Gateway_Name row0)).

(** How a run of the export that made the calls [written] ended, the
    calls left being [not_made]: without exception, all calls made; or
    with an exception of the writer, raised when it was opened, by the
    last call made, or when the workbook was saved. *)
Definition export_ended (writer : ExcelWriter)
    (written not_made : list ToExcel) (raised : option (exn + WriterError))
  : Prop :=
  match raised with
  | None => not_made = []
  | Some (inl _) => False
  | Some (inr e) =>
      (written = [] /\ open_workbook writer = Some e) \/
      (exists before sheet,
          written = before ++ [sheet] /\
          to_excel writer before sheet = Some e) \/
      (not_made = [] /\ save_workbook writer written = Some e)
  end.

(** A timestamp of a row of the gateway, whatever the metric. *)
Definition observed_at (df : DataFrame) (gateway_type gateway_id : string)
    (t : datetime) : Prop :=
  exists r,
    In r df /\
    Row.Gateway_Type r = gateway_type /\ Row.Gateway_ID r = gateway_id /\
    Row.Timestamp r = t.

(** The kind and identifier a summary is for. *)
Definition summary_key (s : Summary.t) : string * string :=
  (Summary.Gateway_Type s, Summary.Gateway_ID s).

(** A summary all of whose grouped sums, totals and rates are zero. *)
Definition no_traffic (s : Summary.t) : Prop :=
  (Summary.Total_Bytes_In (Summary.of_kind s) == 0)%Q /\
  (Summary.Total_Bytes_Out (Summary.of_kind s) == 0)%Q /\
  (Summary.Total_Packets_In (Summary.of_kind s) == 0)%Q /\
  (Summary.Total_Packets_Out (Summary.of_kind s) == 0)%Q /\
  (forall i,
      Summary.specific (Summary.of_kind s) = inr i ->
      (Summary.Total_Blackhole_Drops_Bytes i == 0)%Q /\
      (Summary.Total_NoRoute_Drops_Bytes i == 0)%Q /\
      (Summary.Total_Blackhole_Drops_Packets i == 0)%Q /\
      (Summary.Total_NoRoute_Drops_Packets i == 0)%Q) /\
  (Summary.Total_Bytes s == 0)%Q /\
  (Summary.Total_Packets s == 0)%Q /\
  (Summary.Bytes_Per_Second_Avg s == 0)%Q /\
  (Summary.Packets_Per_Second_Avg s == 0)%Q.

(** A row made for gateway [g] of the given kind: the account, region and
    gateway fields are those of the run and of [g]. *)
Definition row_of_gateway (account_id region gateway_type : string)
    (g : Gateway) (r : Row.t) : Prop :=
  Row.Account_ID r = account_id /\
  Row.Region r = region /\
  Row.Gateway_Type r = gateway_type /\
  Row.Gateway_ID r = gateway_id g /\
  Row.Gateway_Name r = gateway_name g /\
  Row.VPC_ID r = vpc_id g /\
  Row.VPC_Name r = vpc_name g.

(** What identifies a sample: kind, gateway, metric and timestamp. *)
Definition sample_key (r : Row.t) : string * string * string * datetime :=
  (Row.Gateway_Type r, Row.Gateway_ID r, Row.Metric r, Row.Timestamp r).

(** The rows appended by one iteration of a metric loop: rows of the
    gateway and of that metric, with distinct timestamps when the client
    answers within the window asked for. *)
Definition metric_block (cw : CloudWatch) (account_id region : string)
    (gateway_type namespace : string) (d : list Dimension) (g : Gateway)
    (metric : string) (rows : list Row.t) : Prop :=
  Forall (fun r => row_of_gateway account_id region gateway_type g r /\
                   Row.Metric r = metric) rows /\
  (answers_within_window cw namespace metric d ->
   NoDup (map Row.Timestamp rows)).

(** The rows appended for one gateway: a block per metric of the
    catalog. *)
Definition gateway_blocks (cw : CloudWatch) (account_id region : string)
    (gateway_type namespace : string) (dims : string -> list Dimension)
    (catalog : list string) (g : Gateway) (rows : list Row.t) : Prop :=
  exists rowss,
    rows = List.concat rowss /\
    Forall2 (metric_block cw account_id region gateway_type namespace
                          (dims (gateway_id g)) g)
            catalog rowss.

(** ** Example environments *)

(** A client that has no metric and no datapoint, and never raises. *)
Definition quiet_cloudwatch : CloudWatch :=
  {| get_metric_statistics := fun _ _ _ _ _ _ => inr [];
     list_metrics := fun _ _ _ => inr [] |}.

(** An account with one NAT Gateway and one Internet Gateway. *)
Definition nat_1 : Gateway :=
  {| gateway_id := "nat-1"; gateway_name := "NAT-vpc-1";
     vpc_id := Some "vpc-1"; vpc_name := Some "vpc-1" |}.

Definition igw_1 : Gateway :=
  {| gateway_id := "igw-1"; gateway_name := "IGW-vpc-1";
     vpc_id := Some "vpc-1"; vpc_name := Some "vpc-1" |}.

Definition example_ec2 : EC2 :=
  {| paginate_nat_gateways := [nat_1];
     paginate_internet_gateways := [igw_1] |}.

(** The instant of the example runs: 2025-11-04 00:00:00 UTC. *)
Definition example_now : datetime := 1762214400000000.

(** A row of an example table. *)
Definition sample (gateway_type gateway_id metric : string)
    (timestamp : datetime) (value : Q) : Row.t :=
  {| Row.Account_ID := "123456789012";
     Row.Region := "us-east-1";
     Row.Gateway_Type := gateway_type;
     Row.Gateway_ID := gateway_id;
     Row.Gateway_Name := gateway_id;
     Row.VPC_ID := Some "vpc-1";
     Row.VPC_Name := Some "vpc-1";
     Row.Metric := metric;
     Row.Timestamp := timestamp;
     Row.Sum := value;
     Row.Average := value;
     Row.Maximum := value;
     Row.Minimum := value |}.

(** Three periods of a NAT Gateway and two of an Internet Gateway.  In
    the first period the NAT Gateway receives 1000 bytes and sends none. *)
Definition example_table : DataFrame :=
  [ sample "NAT" "nat-1" "BytesInFromSource" 0 1000;
    sample "NAT" "nat-1" "BytesOutToSource" 0 0;
    sample "NAT" "nat-1" "BytesInFromSource" 21600000000 0;
    sample "NAT" "nat-1" "ActiveConnectionCount" 43200000000 5;
    sample "IGW" "igw-1" "BytesInFromDestination" 0 0;
    sample "IGW" "igw-1" "BytesOutToDestination" 21600000000 7 ].

(** A client that has every metric, with one datapoint of value 1 at the
    start of each window asked for. *)
Definition busy_cloudwatch : CloudWatch :=
  {| get_metric_statistics := fun _ _ _ s e _ =>
       inr (if s <? e
            then [ {| dp_Timestamp := s; dp_Sum := Some 1%Q;
                      dp_Average := Some 1%Q; dp_Maximum := Some 1%Q;
                      dp_Minimum := Some 1%Q |} ]
            else []);
     list_metrics := fun ns m d =>
       inr [ {| md_Namespace := ns; md_MetricName := m;
                md_Dimensions := d |} ] |}.

(** A client whose every fetch is refused. *)
Definition failing_cloudwatch : CloudWatch :=
  {| get_metric_statistics := fun _ _ _ _ _ _ =>
       inl (ClientError "Throttling");
     list_metrics := fun ns m d =>
       inr [ {| md_Namespace := ns; md_MetricName := m;
                md_Dimensions := d |} ] |}.

(** A writer that never raises, and one that refuses a sheet title with
    a slash, as openpyxl does. *)
Definition plain_writer : ExcelWriter :=
  {| open_workbook := None;
     to_excel := fun _ _ => None;
     save_workbook := fun _ => None |}.



(** Two periods of an Internet Gateway without traffic. *)
Definition idle_table : DataFrame :=
  [ sample "IGW" "igw-2" "BytesInFromDestination" 0 0;
    sample "IGW" "igw-2" "BytesOutToDestination" 21600000000 0 ].

(** The scenario of the specification, as the collector would tabulate
    it: three periods of NAT Gateway [nat-1] with a sample of each of its
    eight traffic metrics, all zero but 1000 bytes of [BytesInFromSource]
    in the second period; and three periods of Internet Gateway [igw-1],
    which receives 5000 bytes in each while its blackhole drop counter
    stays at zero. *)
Definition scenario_periods : list datetime :=
  [0; 21600000000; 43200000000].

Definition scenario_table : DataFrame :=
  flat_map (fun metric =>
              map (fun t =>
                     sample "NAT" "nat-1" metric t
                            (if String.eqb metric "BytesInFromSource"
                                && (t =? 21600000000)
                             then 1000 else 0))
                  scenario_periods)
           (traffic_metrics_of NAT_METRICS)
  ++ flat_map (fun t =>
                 [ sample "IGW" "igw-1" "BytesInFromDestination" t 5000;
                   sample "IGW" "igw-1" "BytesDropCountBlackholeIPv4" t 0 ])
              scenario_periods.

(** ** Results on the chunked fetch *)

Section Chunked.

Variable cw : CloudWatch.
Variables ns m : string.
Variable d : list Dimension.

Lemma get_metric_data_loop_eq end_time chunk_start all :
  get_metric_data_loop cw ns m d end_time chunk_start all =
  if Z_lt_dec chunk_start end_time then
    let chunk_end := Z.min (chunk_start + chunk_size) end_time in
    bind
      (call (GetMetricStatistics ns m d chunk_start chunk_end PERIOD_SECONDS)
            (get_metric_statistics cw ns m d chunk_start chunk_end
                                   PERIOD_SECONDS))
      (fun Datapoints =>
         get_metric_data_loop cw ns m d end_time chunk_end
                              (all ++ Datapoints))
  else ret all.
Proof.
  funelim (get_metric_data_loop cw ns m d end_time chunk_start all);
    rewrite Heq; reflexivity.
Qed.

(** When [end_time <= chunk_start] the loop body never runs. *)
Lemma get_metric_data_loop_stop end_time chunk_start all :
  end_time <= chunk_start ->
  get_metric_data_loop cw ns m d end_time chunk_start all = (inr all, []).
Proof.
  intros Hle. rewrite get_metric_data_loop_eq.
  destruct (Z_lt_dec chunk_start end_time); [lia | reflexivity].
Qed.

(** If no fetch raises, the loop returns, having requested exactly the
    windows of a [chunking], and its result is the accumulated datapoints
    followed by those of each window in order. *)
Lemma get_metric_data_loop_run end_time chunk_start all :
  fetch_succeeds cw ns m d ->
  exists ws,
    chunking end_time chunk_start ws /\
    get_metric_data_loop cw ns m d end_time chunk_start all =
    (inr (all ++ flat_map (chunk_datapoints cw ns m d) ws),
     map (chunk_call ns m d) ws).
Proof.
  intros Hok.
  funelim (get_metric_data_loop cw ns m d end_time chunk_start all).
  - destruct (Hok chunk_start (Z.min (chunk_start + chunk_size) end_time))
      as [dps Hdps].
    destruct (H dps Hok) as [ws [Hch Hrun]].
    exists ((chunk_start, Z.min (chunk_start + chunk_size) end_time) :: ws).
    split; [constructor; assumption |].
    unfold bind, call. rewrite Hdps, Hrun.
    cbn [flat_map map app].
    assert (Hd : chunk_datapoints cw ns m d
                   (chunk_start, Z.min (chunk_start + chunk_size) end_time)
                 = dps)
      by (unfold chunk_datapoints; cbn [fst snd]; rewrite Hdps; reflexivity).
    rewrite Hd, <- app_assoc. reflexivity.
  - exists []. split; [constructor; lia |].
    simpl. rewrite app_nil_r. reflexivity.
Qed.

End Chunked.

Lemma chunking_empty end_time chunk_start ws :
  chunking end_time chunk_start ws -> end_time <= chunk_start -> ws = [].
Proof. intros H Hle. inversion H; subst; [reflexivity | lia]. Qed.

Lemma chunking_durations end_time chunk_start ws :
  chunking end_time chunk_start ws ->
  Forall (fun w => fst w < snd w /\ snd w - fst w <= chunk_size) ws.
Proof.
  induction 1; constructor; auto.
  simpl. unfold chunk_size, timedelta_days in *. lia.
Qed.

Lemma chunking_first end_time chunk_start ws :
  chunking end_time chunk_start ws -> chunk_start < end_time ->
  exists w ws', ws = w :: ws' /\ fst w = chunk_start.
Proof.
  intros H Hlt. inversion H; subst; [lia |].
  eexists _, _. split; reflexivity.
Qed.

Lemma chunking_last end_time chunk_start ws :
  chunking end_time chunk_start ws -> chunk_start < end_time ->
  forall w0, snd (last ws w0) = end_time.
Proof.
  induction 1 as [cs Hle | cs ws Hlt Hch IH]; intros Hlt' w0; [lia |].
  destruct (Z_lt_dec (Z.min (cs + chunk_size) end_time) end_time) as [Hn | Hn].
  - specialize (IH Hn w0).
    destruct ws as [| w ws']; [inversion Hch; lia | exact IH].
  - apply chunking_empty in Hch; [| lia]. subst ws. simpl. lia.
Qed.

Lemma chunking_contiguous end_time chunk_start ws :
  chunking end_time chunk_start ws -> contiguous ws.
Proof.
  induction 1 as [cs Hle | cs ws Hlt Hch IH]; intros i w1 w2 H1 H2.
  - destruct i; discriminate.
  - destruct i as [| i].
    + simpl in H1, H2. injection H1 as <-. simpl.
      inversion Hch; subst; [discriminate |].
      simpl in H2. injection H2 as <-. reflexivity.
    + simpl in H1. exact (IH i w1 w2 H1 H2).
Qed.

Lemma chunking_det end_time chunk_start ws1 ws2 :
  chunking end_time chunk_start ws1 -> chunking end_time chunk_start ws2 ->
  ws1 = ws2.
Proof.
  intros H1. revert ws2.
  induction H1 as [cs Hle | cs ws Hlt Hch IH]; intros ws2 H2;
    inversion H2; subst; try lia; [reflexivity |].
  f_equal. apply IH. assumption.
Qed.

Lemma chunking_cons end_time chunk_start chunk_end ws :
  chunk_start < end_time ->
  chunk_end = Z.min (chunk_start + chunk_size) end_time ->
  chunking end_time chunk_end ws ->
  chunking end_time chunk_start ((chunk_start, chunk_end) :: ws).
Proof. intros Hlt -> Hch. constructor; assumption. Qed.

(** The three windows of a 65-day range. *)
Lemma chunking_65_days start_time :
  chunking (start_time + timedelta_days 65) start_time
    [ (start_time, start_time + timedelta_days 30);
      (start_time + timedelta_days 30, start_time + timedelta_days 60);
      (start_time + timedelta_days 60, start_time + timedelta_days 65) ].
Proof.
  repeat (apply chunking_cons;
          [unfold timedelta_days; lia
          | unfold chunk_size, timedelta_days; lia |]).
  constructor. lia.
Qed.

Lemma windows_chunk_calls ns m d ws :
  windows (map (chunk_call ns m d) ws) = ws.
Proof.
  induction ws as [| [s e] ws IH]; [reflexivity |].
  simpl. rewrite IH. reflexivity.
Qed.

Lemma chunking_lower end_time chunk_start ws :
  chunking end_time chunk_start ws ->
  Forall (fun w => chunk_start <= fst w) ws.
Proof.
  induction 1 as [cs Hle | cs ws Hlt Hch IH]; constructor; [simpl; lia |].
  eapply Forall_impl; [| exact IH].
  intros w Hw. simpl in Hw. unfold chunk_size, timedelta_days in *. lia.
Qed.

Lemma chunking_non_overlapping end_time chunk_start ws :
  chunking end_time chunk_start ws -> non_overlapping ws.
Proof.
  induction 1 as [cs Hle | cs ws Hlt Hch IH]; intros i j w1 w2 Hij H1 H2.
  - destruct i; discriminate.
  - destruct j as [| j]; [lia |]. simpl in H2.
    destruct i as [| i].
    + simpl in H1. injection H1 as <-. simpl.
      apply chunking_lower in Hch. rewrite Forall_forall in Hch.
      apply Hch. eapply nth_error_In; eassumption.
    + simpl in H1. apply (IH i j); [lia | assumption | assumption].
Qed.

(** C2. With [chunk_size] = 30 days and no fetch raising, the chunked fetch
    returns, and the sub-intervals it requested are contiguous and do not
    overlap, each of positive duration at most 30 days; when
    [start_time < end_time] the first starts at [start_time] and the last
    ends at [end_time]; when [start_time >= end_time] there is none; a
    65-day range gives three sub-intervals of 30, 30 and 5 days. *)
Theorem chunked_fetch_windows cw ns m d start_time end_time :
  fetch_succeeds cw ns m d ->
  exists datapoints log,
    get_metric_data_chunked cw ns m d start_time end_time
    = (inr datapoints, log) /\
    log = map (chunk_call ns m d) (windows log) /\
    contiguous (windows log) /\
    non_overlapping (windows log) /\
    Forall (fun w => fst w < snd w /\ snd w - fst w <= timedelta_days 30)
           (windows log) /\
    (start_time < end_time ->
     exists w ws, windows log = w :: ws /\ fst w = start_time /\
                  snd (last (w :: ws) w) = end_time) /\
    (start_time >= end_time -> windows log = []) /\
    (end_time = start_time + timedelta_days 65 ->
     windows log =
     [ (start_time, start_time + timedelta_days 30);
       (start_time + timedelta_days 30, start_time + timedelta_days 60);
       (start_time + timedelta_days 60, start_time + timedelta_days 65) ] /\
     map (fun w => snd w - fst w) (windows log) =
     [ timedelta_days 30; timedelta_days 30; timedelta_days 5 ]).
Proof.
  intros Hok. unfold get_metric_data_chunked.
  destruct (get_metric_data_loop_run cw ns m d end_time start_time [] Hok)
    as [ws [Hch Hrun]].
  exists (flat_map (chunk_datapoints cw ns m d) ws), (map (chunk_call ns m d) ws).
  rewrite windows_chunk_calls.
  split; [exact Hrun |].
  split; [reflexivity |].
  split; [eapply chunking_contiguous; eassumption |].
  split; [eapply chunking_non_overlapping; eassumption |].
  split; [exact (chunking_durations _ _ _ Hch) |].
  split; [| split].
  - intros Hlt.
    destruct (chunking_first _ _ _ Hch Hlt) as [w [ws' [-> Hw]]].
    exists w, ws'. split; [reflexivity |]. split; [exact Hw |].
    exact (chunking_last _ _ _ Hch Hlt w).
  - intros Hge. eapply chunking_empty; [eassumption | lia].
  - intros ->.
    rewrite (chunking_det _ _ _ _ Hch (chunking_65_days start_time)).
    split; [reflexivity |].
    cbn [map fst snd]. unfold timedelta_days.
    f_equal; [lia | f_equal; [lia | f_equal; lia]].
Qed.

Lemma quiet_cloudwatch_no_datapoints ns m d :
  no_datapoints quiet_cloudwatch ns m d.
Proof. intros s e. reflexivity. Qed.

Lemma no_datapoints_fetch_succeeds cw ns m d :
  no_datapoints cw ns m d -> fetch_succeeds cw ns m d.
Proof. intros H s e. exists []. apply H. Qed.

Lemma chunked_fetch_windows_witness :
  fetch_succeeds quiet_cloudwatch "AWS/NATGateway" "BytesInFromSource"
                 (nat_dimensions "nat-1") /\
  exists datapoints log,
    get_metric_data_chunked quiet_cloudwatch "AWS/NATGateway"
      "BytesInFromSource" (nat_dimensions "nat-1") 0 (timedelta_days 65)
    = (inr datapoints, log) /\
    windows log =
    [ (0, timedelta_days 30);
      (timedelta_days 30, timedelta_days 60);
      (timedelta_days 60, timedelta_days 65) ].
Proof.
  assert (Hok : fetch_succeeds quiet_cloudwatch "AWS/NATGateway"
                  "BytesInFromSource" (nat_dimensions "nat-1"))
    by (intros s e; exists []; reflexivity).
  split; [exact Hok |].
  destruct (chunked_fetch_windows quiet_cloudwatch "AWS/NATGateway"
              "BytesInFromSource" (nat_dimensions "nat-1")
              0 (timedelta_days 65) Hok)
    as [dps [log [Hrun [_ [_ [_ [_ [_ [_ H65]]]]]]]]].
  exists dps, log. split; [exact Hrun |].
  exact (proj1 (H65 eq_refl)).
Defined.

(** A reversed range is not rejected: the fetch returns normally. *)
Lemma chunked_fetch_reversed_not_rejected :
  ~ exists e,
      fst (get_metric_data_chunked quiet_cloudwatch "AWS/NATGateway"
             "BytesInFromSource" (nat_dimensions "nat-1")
             (timedelta_days 1) 0)
      = inl e.
Proof.
  intros [e He]. unfold get_metric_data_chunked in He.
  rewrite get_metric_data_loop_stop in He; [discriminate |].
  unfold timedelta_days. lia.
Qed.

(** C6, as the code has it.  With [end_time < start_time] the chunked fetch
    raises nothing: it calls CloudWatch not at all and returns the empty
    list of datapoints, as for an empty range. *)
Theorem chunked_fetch_reversed_is_empty cw ns m d start_time end_time :
  end_time < start_time ->
  get_metric_data_chunked cw ns m d start_time end_time = (inr [], []).
Proof.
  intros Hlt. unfold get_metric_data_chunked.
  apply get_metric_data_loop_stop. lia.
Qed.

Lemma chunked_fetch_reversed_is_empty_witness :
  0 < timedelta_days 1 /\
  get_metric_data_chunked quiet_cloudwatch "AWS/IGW" "BytesInFromDestination"
    (igw_dimensions "igw-1") (timedelta_days 1) 0
  = (inr [], []).
Proof.
  split.
  - reflexivity.
  - apply (chunked_fetch_reversed_is_empty quiet_cloudwatch "AWS/IGW"
             "BytesInFromDestination" (igw_dimensions "igw-1")
             (timedelta_days 1) 0).
    reflexivity.
Defined.

(** ** Results on the effect types *)

Lemma bind_inr {A B} (m : Traced A) (k : A -> Traced B) b log :
  bind m k = (inr b, log) ->
  exists a l1 l2, m = (inr a, l1) /\ k a = (inr b, l2) /\ log = l1 ++ l2.
Proof.
  destruct m as [[e | a] l1]; simpl; [discriminate |].
  destruct (k a) as [r l2] eqn:Hk. intros H. injection H as -> <-.
  exists a, l1, l2. auto.
Qed.

Lemma bind_log {A B} (m : Traced A) (k : A -> Traced B) :
  snd (bind m k) =
  snd m ++ match fst m with
           | inr a => snd (k a)
           | inl _ => []
           end.
Proof.
  destruct m as [[e | a] l1]; simpl.
  - rewrite app_nil_r. reflexivity.
  - destruct (k a); reflexivity.
Qed.

(** Every call of a loop is a call of one of its iterations. *)
Lemma for_each_log {A S} (Q : Call -> Prop) (l : list A)
    (body : A -> S -> Traced S) :
  (forall a s, In a l -> Forall Q (snd (body a s))) ->
  forall s, Forall Q (snd (for_each l body s)).
Proof.
  induction l as [| a l IH]; intros Hbody s; simpl; [constructor |].
  rewrite bind_log. apply Forall_app. split.
  - apply Hbody. left. reflexivity.
  - destruct (fst (body a s)); [constructor |].
    apply IH. intros a' s' Ha'. apply Hbody. right. assumption.
Qed.

(** A loop that returned ran each of its iterations to its end, and its
    log holds the calls of each. *)
Lemma for_each_inr {A S} (l : list A) (body : A -> S -> Traced S) :
  forall s out log,
    for_each l body s = (inr out, log) ->
    forall a, In a l ->
      exists s1 s2 lg, body a s1 = (inr s2, lg) /\ incl lg log.
Proof.
  induction l as [| a l IH]; intros s out log Hrun a' Ha'; [destruct Ha' |].
  simpl in Hrun. apply bind_inr in Hrun.
  destruct Hrun as [s' [l1 [l2 [Hb [Hrest ->]]]]].
  destruct Ha' as [<- | Ha'].
  - exists s, s', l1. split; [assumption |]. apply incl_appl, incl_refl.
  - destruct (IH _ _ _ Hrest a' Ha') as [s1 [s2 [lg [Hb' Hincl]]]].
    exists s1, s2, lg. split; [assumption |]. apply incl_appr. assumption.
Qed.

(** A loop whose iterations only append rows appends, in order, the rows
    of each iteration. *)
Lemma for_each_appends {A R} (P : A -> list R -> Prop) (l : list A)
    (body : A -> list R -> Traced (list R)) :
  (forall a s s' lg, In a l -> body a s = (inr s', lg) ->
                     exists rows, s' = s ++ rows /\ P a rows) ->
  forall s out log,
    for_each l body s = (inr out, log) ->
    exists rowss, out = s ++ List.concat rowss /\ Forall2 P l rowss.
Proof.
  induction l as [| a l IH]; intros Hbody s out log Hrun; simpl in Hrun.
  - injection Hrun as <- <-. exists []. simpl. rewrite app_nil_r. auto.
  - apply bind_inr in Hrun.
    destruct Hrun as [s' [l1 [l2 [Hb [Hrest _]]]]].
    destruct (Hbody a s s' l1 (or_introl eq_refl) Hb) as [rows [-> HP]].
    destruct (IH (fun a0 s0 s0' lg0 H0 => Hbody a0 s0 s0' lg0 (or_intror H0))
                 _ _ _ Hrest) as [rowss [-> HF]].
    exists (rows :: rowss). simpl. rewrite app_assoc. auto.
Qed.

(** ** Results on the collector *)

(** The chunked fetch calls nothing but [get_metric_statistics], for the
    metric it was given, whether or not a fetch raises. *)
Lemma get_metric_data_loop_calls cw ns m d end_time chunk_start all :
  Forall (fun c => exists s e, c = GetMetricStatistics ns m d s e PERIOD_SECONDS)
         (snd (get_metric_data_loop cw ns m d end_time chunk_start all)).
Proof.
  funelim (get_metric_data_loop cw ns m d end_time chunk_start all).
  - rewrite bind_log. apply Forall_app. split.
    + constructor; [| constructor]. eexists _, _. reflexivity.
    + cbn [call fst].
      destruct (get_metric_statistics _ _ _ _ _ _ _);
        [constructor | apply H].
  - constructor.
Qed.

Lemma get_metric_data_chunked_no_datapoints cw ns m d start_time end_time :
  no_datapoints cw ns m d ->
  exists log,
    get_metric_data_chunked cw ns m d start_time end_time = (inr [], log).
Proof.
  intros Hno. unfold get_metric_data_chunked.
  destruct (get_metric_data_loop_run cw ns m d end_time start_time []
              (no_datapoints_fetch_succeeds _ _ _ _ Hno)) as [ws [_ Hrun]].
  exists (map (chunk_call ns m d) ws). rewrite Hrun. do 2 f_equal.
  simpl. clear Hrun. induction ws as [| w ws IH]; [reflexivity |].
  simpl. rewrite IH. unfold chunk_datapoints. rewrite Hno. reflexivity.
Qed.

Section Collector.

Variable cw : CloudWatch.
Variables account_id region : string.
Variables start_time end_time : datetime.

(** What the rows appended for one NAT metric look like: there is none
    when no fetch of the metric returns a datapoint. *)
Lemma collect_nat_metric_appends nat metric results results' log :
  collect_nat_metric cw account_id region start_time end_time nat metric
                     results = (inr results', log) ->
  exists rows,
    results' = results ++ rows /\ nat_metric_rows cw nat metric rows.
Proof.
  unfold collect_nat_metric. intros Hrun. apply bind_inr in Hrun.
  destruct Hrun as [dps [l1 [l2 [Hfetch [Hret _]]]]]. injection Hret as <- _.
  eexists. split; [reflexivity |]. split.
  - apply Forall_forall. intros r Hr. apply in_map_iff in Hr.
    destruct Hr as [dp [<- _]]. auto.
  - intros Hno.
    destruct (get_metric_data_chunked_no_datapoints _ _ _ _
                start_time end_time Hno) as [lg Hlg].
    rewrite Hlg in Hfetch. injection Hfetch as <- _. reflexivity.
Qed.

(** When the probe finds nothing, one iteration for an Internet Gateway
    metric makes the probe call only and appends the placeholder. *)
Lemma collect_igw_metric_absent igw metric results :
  list_metrics cw "AWS/IGW" metric (igw_dimensions (gateway_id igw)) = inr [] ->
  collect_igw_metric cw account_id region start_time end_time igw metric
                     results
  = (inr (results ++
          [placeholder_row account_id region igw metric start_time]),
     [ListMetrics "AWS/IGW" metric (igw_dimensions (gateway_id igw))]).
Proof.
  intros Hprobe. unfold collect_igw_metric, call. rewrite Hprobe.
  simpl. rewrite app_nil_r. reflexivity.
Qed.

(** What the rows appended for one Internet Gateway metric look like:
    there is at least one, and it is the placeholder alone when the probe
    finds nothing or no fetch of the metric returns a datapoint. *)
Lemma collect_igw_metric_appends igw metric results results' log :
  collect_igw_metric cw account_id region start_time end_time igw metric
                     results = (inr results', log) ->
  exists rows,
    results' = results ++ rows /\
    igw_metric_rows cw account_id region start_time igw metric rows.
Proof.
  unfold collect_igw_metric, igw_metric_rows. intros Hrun.
  apply bind_inr in Hrun.
  destruct Hrun as [probe [l1 [l2 [Hprobe [Hrun _]]]]].
  injection Hprobe as Hprobe _.
  apply bind_inr in Hrun.
  destruct Hrun as [dps [l3 [l4 [Hfetch [Hret _]]]]].
  injection Hret as <- _.
  assert (Hrows :
    Forall (fun r => Row.Gateway_Type r = "IGW" /\
                     Row.Gateway_ID r = gateway_id igw /\
                     Row.Metric r = metric)
           (map (datapoint_row account_id region "IGW" igw metric) dps)).
  { apply Forall_forall. intros r Hr. apply in_map_iff in Hr.
    destruct Hr as [dp [<- _]]. auto. }
  destruct dps as [| dp dps].
  - exists [placeholder_row account_id region igw metric start_time].
    simpl. rewrite app_nil_r.
    split; [reflexivity |]. split; [discriminate |].
    split; [constructor; auto | reflexivity].
  - eexists. split; [reflexivity |]. split; [discriminate |].
    split; [exact Hrows |].
    intros Hno. exfalso. destruct probe as [| md probe].
    + injection Hfetch as Hdps _. discriminate.
    + destruct Hno as [Hno | Hno]; [congruence |].
      destruct (get_metric_data_chunked_no_datapoints _ _ _ _
                  start_time end_time Hno) as [lg Hlg].
      rewrite Hlg in Hfetch. discriminate.
Qed.

Lemma collect_nat_metric_calls nat metric results :
  Forall (collector_call cw)
         (snd (collect_nat_metric cw account_id region start_time end_time
                                  nat metric results)).
Proof.
  unfold collect_nat_metric. rewrite bind_log. apply Forall_app. split.
  - eapply Forall_impl; [| apply get_metric_data_loop_calls].
    intros c [s [e ->]]. left. reflexivity.
  - destruct (fst _); constructor.
Qed.

Lemma collect_igw_metric_calls igw metric results :
  Forall (collector_call cw)
         (snd (collect_igw_metric cw account_id region start_time end_time
                                  igw metric results)).
Proof.
  unfold collect_igw_metric. rewrite bind_log. apply Forall_app. split.
  - constructor; [| constructor].
    split; [reflexivity |]. eexists. reflexivity.
  - cbn [call fst].
    destruct (list_metrics cw "AWS/IGW" metric _) as [e | probe] eqn:Hprobe;
      [constructor |].
    rewrite bind_log. apply Forall_app. split.
    + destruct probe; [constructor |].
      eapply Forall_impl; [| apply get_metric_data_loop_calls].
      intros c [s [e ->]]. right. split; [reflexivity |].
      rewrite Hprobe. discriminate.
    + destruct (fst _); constructor.
Qed.

End Collector.

Lemma Forall2_concat_Forall {A R} (Q : R -> Prop) (P : A -> list R -> Prop)
    (l : list A) (rowss : list (list R)) :
  (forall a rows, In a l -> P a rows -> Forall Q rows) ->
  Forall2 P l rowss -> Forall Q (List.concat rowss).
Proof.
  intros HPQ HF. induction HF as [| a rows l rowss HP HF IH]; simpl.
  - constructor.
  - apply Forall_app. split.
    + apply (HPQ a rows); [left; reflexivity | assumption].
    + apply IH. intros a' rows' Ha'. apply HPQ. right. assumption.
Qed.

Lemma collect_metrics_calls cw ec2 region account_id now days :
  Forall (collector_call cw)
         (snd (collect_metrics cw ec2 region account_id now days)).
Proof.
  unfold collect_metrics. cbv zeta. rewrite bind_log. apply Forall_app. split.
  - apply for_each_log. intros nat results _.
    apply for_each_log. intros metric results' _.
    apply collect_nat_metric_calls.
  - destruct (fst _); [constructor |].
    apply for_each_log. intros igw results _.
    apply for_each_log. intros metric results' _.
    apply collect_igw_metric_calls.
Qed.

(** The table of a run that returned: the rows of each NAT Gateway in
    turn, then those of each Internet Gateway in turn. *)
Lemma collect_metrics_rows cw ec2 region account_id now days df log :
  collect_metrics cw ec2 region account_id now days = (inr df, log) ->
  exists nat_rowss igw_rowss,
    df = List.concat nat_rowss ++ List.concat igw_rowss /\
    Forall2 (nat_rows cw) (paginate_nat_gateways ec2) nat_rowss /\
    Forall2 (igw_rows cw account_id region (now - timedelta_days days))
            (paginate_internet_gateways ec2) igw_rowss.
Proof.
  unfold collect_metrics. cbv zeta. intros Hrun. apply bind_inr in Hrun.
  destruct Hrun as [results [l1 [l2 [Hnat [Higw _]]]]].
  apply (for_each_appends (nat_rows cw)) in Hnat.
  - destruct Hnat as [nat_rowss [-> HFnat]]. cbn [app] in Higw.
    apply (for_each_appends
             (igw_rows cw account_id region (now - timedelta_days days)))
      in Higw.
    + destruct Higw as [igw_rowss [-> HFigw]].
      exists nat_rowss, igw_rowss. auto.
    + intros igw s s' lg _ Hbody.
      apply (for_each_appends
               (igw_metric_rows cw account_id region
                                (now - timedelta_days days) igw)) in Hbody.
      * destruct Hbody as [rowss [-> HF]].
        eexists. split; [reflexivity |]. exists rowss. auto.
      * intros metric s0 s0' lg0 _ Hb.
        eapply collect_igw_metric_appends. eassumption.
  - intros nat s s' lg _ Hbody.
    apply (for_each_appends (nat_metric_rows cw nat)) in Hbody.
    + destruct Hbody as [rowss [-> HF]].
      eexists. split; [reflexivity |]. exists rowss. auto.
    + intros metric s0 s0' lg0 _ Hb.
      eapply collect_nat_metric_appends. eassumption.
Qed.

Lemma filter_concat_none {A R} (P : A -> list R -> Prop) (f : R -> bool)
    (l : list A) (rowss : list (list R)) :
  Forall2 P l rowss ->
  (forall a rows, In a l -> P a rows -> filter f rows = []) ->
  filter f (List.concat rowss) = [].
Proof.
  intros HF. induction HF as [| a rows l rowss HP HF IH]; intros Hnone.
  - reflexivity.
  - simpl. rewrite filter_app, (Hnone a rows (or_introl eq_refl) HP), IH.
    + reflexivity.
    + intros a' rows' Ha'. apply Hnone. right. assumption.
Qed.

(** Filtering the rows of a loop for what only one iteration appends. *)
Lemma filter_concat_one {A K R} (key : A -> K) (P : A -> list R -> Prop)
    (f : R -> bool) (a : A) (x : list R)
    (l : list A) (rowss : list (list R)) :
  Forall2 P l rowss -> NoDup (map key l) -> In a l ->
  (forall rows, P a rows -> filter f rows = x) ->
  (forall a' rows, In a' l -> key a' <> key a -> P a' rows ->
                   filter f rows = []) ->
  filter f (List.concat rowss) = x.
Proof.
  intros HF. induction HF as [| a0 rows l rowss HP HF IH];
    intros Hnd Hin Hone Hother; [destruct Hin |].
  simpl in Hnd. inversion Hnd as [| k ks Hnotin Hnd']; subst.
  simpl. rewrite filter_app. destruct Hin as [-> | Hin].
  - rewrite (Hone rows HP).
    rewrite (filter_concat_none P f l rowss HF); [apply app_nil_r |].
    intros a' rows' Ha' HP'. apply (Hother a' rows'); [right | | ]; auto.
    intros Hk. apply Hnotin. rewrite <- Hk. apply in_map. assumption.
  - rewrite (Hother a0 rows (or_introl eq_refl)); [| | assumption].
    + simpl. apply IH; auto.
      intros a' rows' Ha'. apply Hother. right. assumption.
    + intros Hk. apply Hnotin. rewrite Hk. apply in_map. assumption.
Qed.

Lemma filter_none {R} (f : R -> bool) (Q : R -> Prop) (rows : list R) :
  Forall Q rows -> (forall r, Q r -> f r = false) -> filter f rows = [].
Proof.
  intros HQ Hf. induction HQ as [| r rows Hr HQ IH]; [reflexivity |].
  simpl. rewrite (Hf r Hr). exact IH.
Qed.

Lemma filter_all {R} (f : R -> bool) (Q : R -> Prop) (rows : list R) :
  Forall Q rows -> (forall r, Q r -> f r = true) -> filter f rows = rows.
Proof.
  intros HQ Hf. induction HQ as [| r rows Hr HQ IH]; [reflexivity |].
  simpl. rewrite (Hf r Hr), IH. reflexivity.
Qed.

Lemma nat_rows_type cw nat rows :
  nat_rows cw nat rows -> Forall (fun r => Row.Gateway_Type r = "NAT") rows.
Proof.
  intros [rowss [-> HF]]. eapply Forall2_concat_Forall; [| exact HF].
  intros metric rows _ [Hrows _].
  eapply Forall_impl; [| exact Hrows]. intros r [Ht _]. exact Ht.
Qed.

Lemma igw_rows_type cw account_id region start_time igw rows :
  igw_rows cw account_id region start_time igw rows ->
  Forall (fun r => Row.Gateway_Type r = "IGW" /\
                   Row.Gateway_ID r = gateway_id igw) rows.
Proof.
  intros [rowss [-> HF]]. eapply Forall2_concat_Forall; [| exact HF].
  intros metric rows _ [_ [Hrows _]].
  eapply Forall_impl; [| exact Hrows]. intros r [Ht [Hid _]]. auto.
Qed.

Lemma IGW_METRICS_NoDup : NoDup IGW_METRICS.
Proof.
  unfold IGW_METRICS.
  repeat (constructor;
          [simpl; intros H;
           repeat (destruct H as [H | H]; [discriminate H |]); exact H |]).
  constructor.
Qed.

(** In a run that returned, the rows of one metric of an Internet Gateway
    listed once are the placeholder alone, when its probe found nothing or
    no fetch of it returns a datapoint. *)
Lemma collect_metrics_placeholder cw ec2 region account_id now days df log
    igw metric :
  collect_metrics cw ec2 region account_id now days = (inr df, log) ->
  NoDup (map gateway_id (paginate_internet_gateways ec2)) ->
  In igw (paginate_internet_gateways ec2) ->
  In metric IGW_METRICS ->
  list_metrics cw "AWS/IGW" metric (igw_dimensions (gateway_id igw)) = inr []
  \/ no_datapoints cw "AWS/IGW" metric (igw_dimensions (gateway_id igw)) ->
  rows_of_metric df "IGW" (gateway_id igw) metric
  = [placeholder_row account_id region igw metric
                     (now - timedelta_days days)].
Proof.
  intros Hrun Hnd Higw Hmetric Hno.
  destruct (collect_metrics_rows _ _ _ _ _ _ _ _ Hrun)
    as [nat_rowss [igw_rowss [-> [HFnat HFigw]]]].
  unfold rows_of_metric. rewrite filter_app.
  rewrite (filter_concat_none _ _ _ _ HFnat).
  2:{ intros nat rows _ Hrows. eapply filter_none;
        [exact (nat_rows_type _ _ _ Hrows) |].
      intros r Ht. rewrite Ht. reflexivity. }
  simpl.
  apply (filter_concat_one gateway_id _ _ igw _ _ _ HFigw Hnd Higw).
  - intros rows [rowss [-> HF]].
    apply (filter_concat_one (fun m : string => m) _ _ metric _ _ _ HF);
      [rewrite map_id; apply IGW_METRICS_NoDup | assumption | |].
    + intros rows [_ [_ Hrows]]. rewrite (Hrows Hno). simpl.
      rewrite !String.eqb_refl. reflexivity.
    + intros metric' rows _ Hne [_ [Hrows _]].
      eapply filter_none; [exact Hrows |].
      intros r [_ [_ Hm]]. rewrite Hm.
      apply String.eqb_neq in Hne. rewrite Hne. apply andb_false_r.
  - intros igw' rows _ Hne [rowss [-> HF]].
    eapply filter_concat_none; [exact HF |].
    intros metric' rows _ [_ [Hrows _]].
    eapply filter_none; [exact Hrows |].
    intros r [_ [Hid _]]. rewrite Hid.
    apply String.eqb_neq in Hne. rewrite Hne.
    rewrite andb_false_r. reflexivity.
Qed.

(** A chunked fetch that returned requested the windows of a [chunking]. *)
Lemma get_metric_data_loop_inr cw ns m d end_time chunk_start all out log :
  get_metric_data_loop cw ns m d end_time chunk_start all = (inr out, log) ->
  exists ws,
    chunking end_time chunk_start ws /\ log = map (chunk_call ns m d) ws.
Proof.
  revert out log.
  funelim (get_metric_data_loop cw ns m d end_time chunk_start all);
    intros out log Hrun.
  - apply bind_inr in Hrun.
    destruct Hrun as [dps [l1 [l2 [Hcall [Hrest ->]]]]].
    injection Hcall as _ <-.
    destruct (H dps _ _ Hrest) as [ws [Hch ->]].
    eexists (_ :: ws). split; [constructor; eassumption | reflexivity].
  - injection Hrun as _ <-. exists []. split; [constructor; lia | reflexivity].
Qed.

(** In a run that returned, every window of the range was requested for
    every metric of every NAT Gateway. *)
Lemma collect_metrics_nat_fetches cw ec2 region account_id now days df log
    nat metric :
  collect_metrics cw ec2 region account_id now days = (inr df, log) ->
  In nat (paginate_nat_gateways ec2) -> In metric NAT_METRICS ->
  exists ws,
    chunking now (now - timedelta_days days) ws /\
    forall w, In w ws ->
      In (chunk_call "AWS/NATGateway" metric
                     (nat_dimensions (gateway_id nat)) w) log.
Proof.
  unfold collect_metrics. cbv zeta. intros Hrun Hnat Hmetric.
  apply bind_inr in Hrun.
  destruct Hrun as [results [l1 [l2 [Hloop [_ ->]]]]].
  destruct (for_each_inr _ _ _ _ _ Hloop nat Hnat)
    as [s1 [s2 [lg [Hbody Hincl]]]].
  destruct (for_each_inr _ _ _ _ _ Hbody metric Hmetric)
    as [s3 [s4 [lg' [Hbody' Hincl']]]].
  unfold collect_nat_metric in Hbody'. apply bind_inr in Hbody'.
  destruct Hbody' as [dps [l3 [l4 [Hfetch [_ ->]]]]].
  unfold get_metric_data_chunked in Hfetch.
  apply get_metric_data_loop_inr in Hfetch.
  destruct Hfetch as [ws [Hch ->]].
  exists ws. split; [exact Hch |].
  intros w Hw. apply in_or_app. left. apply Hincl, Hincl'.
  apply in_or_app. left. apply in_map. assumption.
Qed.

(** C3. For an Internet Gateway metric whose probe finds nothing, the
    iteration makes the probe call only and appends one placeholder row,
    timestamped at the start of the range, with [Sum], [Average],
    [Maximum] and [Minimum] zero; the whole run makes no
    [get_metric_statistics] call for that gateway and metric, and in its
    table the rows of that pair are the placeholder alone.  For a NAT
    Gateway metric the calls are those of the chunked fetch, one per
    window of the range, and no [list_metrics] call of the run is for a
    NAT Gateway. *)
Theorem igw_probe_and_nat_fetch cw ec2 region account_id now days :
  let start_time := now - timedelta_days days in
  let run := collect_metrics cw ec2 region account_id now days in
  (forall igw metric,
      In igw (paginate_internet_gateways ec2) -> In metric IGW_METRICS ->
      list_metrics cw "AWS/IGW" metric (igw_dimensions (gateway_id igw))
      = inr [] ->
      let placeholder :=
        placeholder_row account_id region igw metric start_time in
      (forall results,
          collect_igw_metric cw account_id region start_time now igw metric
                             results
          = (inr (results ++ [placeholder]),
             [ListMetrics "AWS/IGW" metric
                          (igw_dimensions (gateway_id igw))])) /\
      (forall s e p,
          ~ In (GetMetricStatistics "AWS/IGW" metric
                  (igw_dimensions (gateway_id igw)) s e p) (snd run)) /\
      (Row.Timestamp placeholder = start_time /\
       Row.Sum placeholder = 0%Q /\ Row.Average placeholder = 0%Q /\
       Row.Maximum placeholder = 0%Q /\ Row.Minimum placeholder = 0%Q) /\
      (forall df,
          fst run = inr df ->
          NoDup (map gateway_id (paginate_internet_gateways ec2)) ->
          rows_of_metric df "IGW" (gateway_id igw) metric = [placeholder]))
  /\
  (forall nat metric,
      In nat (paginate_nat_gateways ec2) -> In metric NAT_METRICS ->
      (forall results,
          snd (collect_nat_metric cw account_id region start_time now nat
                                  metric results)
          = snd (get_metric_data_chunked cw "AWS/NATGateway" metric
                   (nat_dimensions (gateway_id nat)) start_time now)) /\
      (forall df,
          fst run = inr df ->
          exists ws,
            chunking now start_time ws /\
            forall w, In w ws ->
              In (chunk_call "AWS/NATGateway" metric
                             (nat_dimensions (gateway_id nat)) w) (snd run)))
  /\
  (forall ns m d,
      In (ListMetrics ns m d) (snd run) ->
      ns = "AWS/IGW" /\ exists id, d = igw_dimensions id).
Proof.
  intros start_time run.
  pose proof (collect_metrics_calls cw ec2 region account_id now days)
    as Hcalls.
  fold run in Hcalls. rewrite Forall_forall in Hcalls.
  split; [| split].
  - intros igw metric Higw Hmetric Hprobe placeholder.
    split; [| split; [| split]].
    + intros results. apply collect_igw_metric_absent. exact Hprobe.
    + intros s e p Hin. apply Hcalls in Hin. simpl in Hin.
      destruct Hin as [Hns | [_ Hne]]; [discriminate | contradiction].
    + repeat split.
    + intros df Hdf Hnd. destruct run as [r log] eqn:Hrun.
      simpl in Hdf. subst r.
      eapply collect_metrics_placeholder; eauto.
  - intros nat metric Hnat Hmetric. split.
    + intros results. unfold collect_nat_metric. rewrite bind_log.
      destruct (fst _); simpl; apply app_nil_r.
    + intros df Hdf. destruct run as [r log] eqn:Hrun.
      simpl in Hdf. subst r.
      eapply collect_metrics_nat_fetches; eauto.
  - intros ns m d Hin. apply Hcalls in Hin. exact Hin.
Qed.

Lemma igw_probe_and_nat_fetch_witness :
  collect_igw_metric quiet_cloudwatch "123456789012" "us-east-1"
    (0 - timedelta_days 90) 0 igw_1 "BytesInFromDestination" []
  = (inr [placeholder_row "123456789012" "us-east-1" igw_1
                          "BytesInFromDestination" (0 - timedelta_days 90)],
     [ListMetrics "AWS/IGW" "BytesInFromDestination"
                  (igw_dimensions "igw-1")]).
Proof.
  apply (proj1 (igw_probe_and_nat_fetch quiet_cloudwatch example_ec2
                  "us-east-1" "123456789012" 0 90)
               igw_1 "BytesInFromDestination").
  - simpl. left. reflexivity.
  - simpl. left. reflexivity.
  - reflexivity.
Defined.

(** ** Results on the helpers of the analysis *)

Section Unique.

Context {A : Type} (eqb : A -> A -> bool).
Hypothesis eqb_spec : forall x y, eqb x y = true <-> x = y.

Lemma unique_In x l : In x (unique eqb l) <-> In x l.
Proof.
  induction l as [| a l IH]; simpl; [tauto |].
  rewrite filter_In, IH. split.
  - intros [H | [H _]]; auto.
  - intros [H | H]; [auto |].
    destruct (eqb a x) eqn:E; [left; apply eqb_spec; assumption |].
    right. auto.
Qed.

Lemma unique_NoDup l : NoDup (unique eqb l).
Proof.
  induction l as [| a l IH]; simpl; constructor.
  - rewrite filter_In. intros [_ H].
    rewrite (proj2 (eqb_spec a a) eq_refl) in H. discriminate.
  - apply NoDup_filter. assumption.
Qed.

(** Two duplicate-free lists of the same elements have the same length. *)
Lemma NoDup_same_length (l1 l2 : list A) :
  NoDup l1 -> NoDup l2 -> (forall x, In x l1 <-> In x l2) ->
  List.length l1 = List.length l2.
Proof.
  intros H1 H2 H. apply Nat.le_antisymm; apply NoDup_incl_length; auto;
    intros x Hx; apply H; assumption.
Qed.

End Unique.

Lemma Qeq_bool_inject_Z_nonzero z :
  z <> 0 -> Qeq_bool (inject_Z z) 0 = false.
Proof.
  intros Hz. unfold Qeq_bool. simpl. apply Z.eqb_neq. lia.
Qed.

(** The denominator of the two per-second rates. *)
Lemma secs_positive total_periods :
  0 < (if 0 <? total_periods then total_periods * PERIOD_SECONDS else 1).
Proof.
  destruct (0 <? total_periods) eqn:E; [| lia].
  apply Z.ltb_lt in E. unfold PERIOD_SECONDS. lia.
Qed.

Section Summarize.

Variables account_id region gateway_type : string.
Variable traffic_metrics : list string.
Variable gateway_id : string.
Variable gw : DataFrame.
Variable row0 : Row.t.

(** [summarize] never raises; this is the record it returns. *)
Lemma summarize_eq :
  summarize account_id region gateway_type traffic_metrics gateway_id gw row0
  = let total_periods := len (unique Z.eqb (map Row.Timestamp gw)) in
    let idle_periods :=
      len (unique Z.eqb
             (map Row.Timestamp (idle_rows traffic_metrics gw))) in
    let of_kind :=
      if String.eqb gateway_type "NAT" then _nat_summary gw
      else _igw_summary gw in
    let secs :=
      if 0 <? total_periods then total_periods * PERIOD_SECONDS else 1 in
    inr
      {| Summary.Account_ID := account_id;
         Summary.Region := region;
         Summary.VPC_ID := Row.VPC_ID row0;
         Summary.VPC_Name := Row.VPC_Name row0;
         Summary.Gateway_Type := gateway_type;
         Summary.Gateway_ID := gateway_id;
         Summary.Gateway_Name := Row.Gateway_Name row0;
         Summary.Total_Periods := total_periods;
         Summary.Idle_Periods := idle_periods;
         Summary.Idle_Percentage :=
           round2 (if 0 <? total_periods
                   then inject_Z idle_periods / inject_Z total_periods * 100
                   else 0)%Q;
         Summary.of_kind := of_kind;
         Summary.Total_Bytes :=
           (Summary.Total_Bytes_In of_kind
            + Summary.Total_Bytes_Out of_kind)%Q;
         Summary.Total_Packets :=
           (Summary.Total_Packets_In of_kind
            + Summary.Total_Packets_Out of_kind)%Q;
         Summary.Bytes_Per_Second_Avg :=
           round2 ((Summary.Total_Bytes_In of_kind
                    + Summary.Total_Bytes_Out of_kind) / inject_Z secs)%Q;
         Summary.Packets_Per_Second_Avg :=
           round2 ((Summary.Total_Packets_In of_kind
                    + Summary.Total_Packets_Out of_kind) / inject_Z secs)%Q
      |}.
Proof.
  unfold summarize. cbv zeta.
  set (total_periods := len (unique Z.eqb (map Row.Timestamp gw))).
  set (secs := if 0 <? total_periods then total_periods * PERIOD_SECONDS
               else 1).
  assert (Hsecs : Qeq_bool (inject_Z secs) 0 = false).
  { apply Qeq_bool_inject_Z_nonzero.
    pose proof (secs_positive total_periods) as H. fold secs in H. lia. }
  unfold div. rewrite Hsecs.
  destruct (0 <? total_periods) eqn:E; [| reflexivity].
  rewrite Qeq_bool_inject_Z_nonzero; [reflexivity |].
  apply Z.ltb_lt in E. lia.
Qed.

End Summarize.

(** ** Results on the analysis loop *)

(** A loop that appends one record per element and whose iterations do not
    raise returns the records in order. *)
Lemma py_for_each_appends {A R} (g : A -> Py R) (l : list A) :
  (forall a, In a l -> exists r, g a = inr r) ->
  forall s,
  exists rs,
    py_for_each l (fun a s => r <-- g a ;; inr (s ++ [r])) s = inr (s ++ rs) /\
    Forall2 (fun a r => g a = inr r) l rs.
Proof.
  induction l as [| a l IH]; intros Hg s.
  - exists []. simpl. rewrite app_nil_r. auto.
  - destruct (Hg a (or_introl eq_refl)) as [r Hr].
    destruct (IH (fun a' Ha' => Hg a' (or_intror Ha')) (s ++ [r]))
      as [rs [Hrun HF]].
    exists (r :: rs). simpl. rewrite Hr. simpl. rewrite Hrun.
    rewrite <- app_assoc. auto.
Qed.

Lemma Forall2_In_r {A B} (P : A -> B -> Prop) l1 l2 b :
  Forall2 P l1 l2 -> In b l2 -> exists a, In a l1 /\ P a b.
Proof.
  induction 1 as [| a b' l1 l2 HP HF IH]; intros Hin; [destruct Hin |].
  destruct Hin as [-> | Hin].
  - exists a. split; [left; reflexivity | assumption].
  - destruct (IH Hin) as [a' [Ha' HP']]. exists a'. split; [right |]; auto.
Qed.

Lemma Forall2_In_l {A B} (P : A -> B -> Prop) l1 l2 a :
  Forall2 P l1 l2 -> In a l1 -> exists b, In b l2 /\ P a b.
Proof.
  induction 1 as [| a' b l1 l2 HP HF IH]; intros Hin; [destruct Hin |].
  destruct Hin as [-> | Hin].
  - exists b. split; [left; reflexivity | assumption].
  - destruct (IH Hin) as [b' [Hb' HP']]. exists b'. split; [right |]; auto.
Qed.

(** The gateways of the table are those of its rows. *)
Lemma gateways_of_In df gateway_type gateway_id :
  In gateway_id (gateways_of df gateway_type) <->
  exists r, In r df /\ Row.Gateway_Type r = gateway_type /\
            Row.Gateway_ID r = gateway_id.
Proof.
  unfold gateways_of. rewrite (unique_In String.eqb String.eqb_eq).
  rewrite in_map_iff. split.
  - intros [r [Hid Hr]]. apply filter_In in Hr. destruct Hr as [Hr Ht].
    apply String.eqb_eq in Ht. exists r. auto.
  - intros [r [Hr [Ht Hid]]]. exists r. split; [assumption |].
    apply filter_In. split; [assumption |]. apply String.eqb_eq. assumption.
Qed.

Lemma rows_of_In df gateway_type gateway_id r :
  In r (rows_of df gateway_type gateway_id) <->
  In r df /\ Row.Gateway_Type r = gateway_type /\
  Row.Gateway_ID r = gateway_id.
Proof.
  unfold rows_of. rewrite filter_In, andb_true_iff, !String.eqb_eq. tauto.
Qed.

(** A gateway of the table has a first row, and its summary is computed. *)
Lemma gateway_summary_inr df account_id region gateway_type traffic_metrics
    gateway_id :
  In gateway_id (gateways_of df gateway_type) ->
  exists row0 s,
    iloc0 (rows_of df gateway_type gateway_id) = inr row0 /\
    summarize account_id region gateway_type traffic_metrics gateway_id
              (rows_of df gateway_type gateway_id) row0 = inr s /\
    gateway_summary df account_id region gateway_type traffic_metrics
                    gateway_id = inr s.
Proof.
  intros Hin. apply gateways_of_In in Hin. destruct Hin as [r [Hr [Ht Hid]]].
  assert (Hrow : In r (rows_of df gateway_type gateway_id))
    by (apply rows_of_In; auto).
  unfold gateway_summary. cbv zeta.
  destruct (rows_of df gateway_type gateway_id) as [| row0 gw] eqn:Hgw;
    [destruct Hrow |].
  exists row0. eexists. split; [reflexivity |].
  simpl. split; apply summarize_eq.
Qed.

(** [analyze_idle_time] returns on every table that has a row: the
    summaries of the NAT Gateways of the table, then those of its Internet
    Gateways. *)
Lemma analyze_idle_time_inr df account_id region :
  df <> [] ->
  exists nat_summaries igw_summaries,
    analyze_idle_time df account_id region
    = inr (nat_summaries ++ igw_summaries) /\
    Forall2 (fun gateway_id s =>
               gateway_summary df account_id region "NAT"
                 (traffic_metrics_of NAT_METRICS) gateway_id = inr s)
            (gateways_of df "NAT") nat_summaries /\
    Forall2 (fun gateway_id s =>
               gateway_summary df account_id region "IGW"
                 (traffic_metrics_of IGW_METRICS) gateway_id = inr s)
            (gateways_of df "IGW") igw_summaries.
Proof.
  intros Hdf.
  assert (Hloop :
    analyze_idle_time df account_id region
    = s1 <-- py_for_each (gateways_of df "NAT")
               (fun gateway_id idle_analysis =>
                  summary <-- gateway_summary df account_id region "NAT"
                                (traffic_metrics_of NAT_METRICS) gateway_id ;;
                  inr (idle_analysis ++ [summary])) [] ;;
      s2 <-- py_for_each (gateways_of df "IGW")
               (fun gateway_id idle_analysis =>
                  summary <-- gateway_summary df account_id region "IGW"
                                (traffic_metrics_of IGW_METRICS) gateway_id ;;
                  inr (idle_analysis ++ [summary])) s1 ;;
      inr s2)
    by (destruct df; [contradiction | reflexivity]).
  rewrite Hloop. clear Hloop.
  destruct (py_for_each_appends
              (gateway_summary df account_id region "NAT"
                               (traffic_metrics_of NAT_METRICS))
              (gateways_of df "NAT")) with (s := @nil Summary.t)
    as [nat_summaries [Hnat HFnat]].
  { intros id Hid.
    destruct (gateway_summary_inr df account_id region "NAT"
                (traffic_metrics_of NAT_METRICS) id Hid) as [_ [s [_ [_ Hs]]]].
    exists s. exact Hs. }
  destruct (py_for_each_appends
              (gateway_summary df account_id region "IGW"
                               (traffic_metrics_of IGW_METRICS))
              (gateways_of df "IGW")) with (s := nat_summaries)
    as [igw_summaries [Higw HFigw]].
  { intros id Hid.
    destruct (gateway_summary_inr df account_id region "IGW"
                (traffic_metrics_of IGW_METRICS) id Hid) as [_ [s [_ [_ Hs]]]].
    exists s. exact Hs. }
  exists nat_summaries, igw_summaries.
  split; [| split; assumption].
  rewrite Hnat. cbn [py_bind app]. rewrite Higw. reflexivity.
Qed.

(** Every summary of the analysis is that of a gateway of the table, of one
    of the two kinds, computed from the rows of that gateway. *)
Lemma analyze_idle_time_In df account_id region summaries s :
  analyze_idle_time df account_id region = inr summaries -> In s summaries ->
  exists gateway_type metrics_list gateway_id row0,
    In (gateway_type, metrics_list)
       [("NAT", NAT_METRICS); ("IGW", IGW_METRICS)] /\
    In gateway_id (gateways_of df gateway_type) /\
    iloc0 (rows_of df gateway_type gateway_id) = inr row0 /\
    summarize account_id region gateway_type
              (traffic_metrics_of metrics_list) gateway_id
              (rows_of df gateway_type gateway_id) row0 = inr s.
Proof.
  intros Hrun Hin.
  assert (Hdf : df <> []) by (intros ->; discriminate Hrun).
  destruct (analyze_idle_time_inr df account_id region Hdf)
    as [nss [iss [Hrun' [HFn HFi]]]].
  rewrite Hrun' in Hrun. injection Hrun as <-.
  apply in_app_or in Hin. destruct Hin as [Hin | Hin].
  - destruct (Forall2_In_r _ _ _ _ HFn Hin) as [id [Hid Hs]].
    destruct (gateway_summary_inr df account_id region "NAT"
                (traffic_metrics_of NAT_METRICS) id Hid)
      as [row0 [s' [Hrow0 [Hsum Hs']]]].
    exists "NAT", NAT_METRICS, id, row0.
    split; [left; reflexivity |]. split; [assumption |].
    split; [assumption |]. congruence.
  - destruct (Forall2_In_r _ _ _ _ HFi Hin) as [id [Hid Hs]].
    destruct (gateway_summary_inr df account_id region "IGW"
                (traffic_metrics_of IGW_METRICS) id Hid)
      as [row0 [s' [Hrow0 [Hsum Hs']]]].
    exists "IGW", IGW_METRICS, id, row0.
    split; [right; left; reflexivity |]. split; [assumption |].
    split; [assumption |]. congruence.
Qed.

(** Every gateway of the table has a summary. *)
Lemma analyze_idle_time_gateway df account_id region summaries
    gateway_type metrics_list gateway_id :
  analyze_idle_time df account_id region = inr summaries ->
  In (gateway_type, metrics_list)
     [("NAT", NAT_METRICS); ("IGW", IGW_METRICS)] ->
  In gateway_id (gateways_of df gateway_type) ->
  exists row0 s,
    In s summaries /\
    iloc0 (rows_of df gateway_type gateway_id) = inr row0 /\
    summarize account_id region gateway_type
              (traffic_metrics_of metrics_list) gateway_id
              (rows_of df gateway_type gateway_id) row0 = inr s.
Proof.
  intros Hrun Hkind Hid.
  assert (Hdf : df <> []) by (intros ->; discriminate Hrun).
  destruct (analyze_idle_time_inr df account_id region Hdf)
    as [nss [iss [Hrun' [HFn HFi]]]].
  rewrite Hrun' in Hrun. injection Hrun as <-.
  destruct (gateway_summary_inr df account_id region gateway_type
              (traffic_metrics_of metrics_list) gateway_id Hid)
    as [row0 [s' [Hrow0 [Hsum Hs']]]].
  exists row0.
  destruct Hkind as [E | [E | []]]; injection E as <- <-.
  - destruct (Forall2_In_l _ _ _ _ HFn Hid) as [s [Hs Hg]].
    exists s. split; [apply in_or_app; left; assumption |].
    split; [assumption | congruence].
  - destruct (Forall2_In_l _ _ _ _ HFi Hid) as [s [Hs Hg]].
    exists s. split; [apply in_or_app; right; assumption |].
    split; [assumption | congruence].
Qed.

(** ** Results on rounding *)

Lemma round_half_even_bounds (q : Q) (lo hi : Z) :
  (inject_Z lo <= q)%Q -> (q <= inject_Z hi)%Q ->
  lo <= round_half_even q <= hi.
Proof.
  intros Hlo Hhi. unfold round_half_even.
  pose proof (Qfloor_le q) as Hf1.
  assert (Hlof : lo <= Qfloor q).
  { rewrite <- (Qfloor_Z lo). apply Qfloor_resp_le. assumption. }
  assert (Hfhi : Qfloor q <= hi).
  { rewrite <- (Qfloor_Z hi). apply Qfloor_resp_le. assumption. }
  assert (Hstrict : (1 # 2 <= q - inject_Z (Qfloor q))%Q -> Qfloor q + 1 <= hi).
  { intros Hhalf.
    assert (H : (inject_Z (Qfloor q) < inject_Z hi)%Q) by lra.
    rewrite <- Zlt_Qlt in H. lia. }
  destruct (q - inject_Z (Qfloor q) ?= 1 # 2)%Q eqn:E.
  - apply Qeq_alt in E. destruct (Z.even (Qfloor q)); [lia |].
    split; [lia |]. apply Hstrict. lra.
  - lia.
  - apply Qgt_alt in E. split; [lia |]. apply Hstrict. lra.
Qed.

(** Rounding to the hundredth keeps a value between 0 and 100 there. *)
Lemma round2_percentage (q : Q) :
  (0 <= q)%Q -> (q <= 100)%Q -> (0 <= round2 q)%Q /\ (round2 q <= 100)%Q.
Proof.
  intros H0 H100. unfold round2.
  destruct (round_half_even_bounds (q * 100) 0 10000) as [Hlo Hhi].
  - unfold inject_Z. lra.
  - unfold inject_Z. lra.
  - rewrite Zle_Qle in Hlo, Hhi. split.
    + apply Qle_shift_div_l; [reflexivity |]. unfold inject_Z at 1 in Hlo. lra.
    + apply Qle_shift_div_r; [reflexivity |].
      unfold inject_Z at 2 in Hhi. lra.
Qed.

(** [idle_periods / total_periods * 100] is a percentage. *)
Lemma idle_pct_percentage idle_periods total_periods :
  0 <= idle_periods <= total_periods -> 0 < total_periods ->
  (0 <= inject_Z idle_periods / inject_Z total_periods * 100)%Q /\
  (inject_Z idle_periods / inject_Z total_periods * 100 <= 100)%Q.
Proof.
  intros [H0 Hle] Hpos.
  rewrite Zle_Qle in H0, Hle. rewrite Zlt_Qlt in Hpos.
  change (inject_Z 0) with 0%Q in *.
  assert (Hq0 : (0 <= inject_Z idle_periods / inject_Z total_periods)%Q).
  { apply Qle_shift_div_l; [assumption | lra]. }
  assert (Hq1 : (inject_Z idle_periods / inject_Z total_periods <= 1)%Q).
  { apply Qle_shift_div_r; [assumption | lra]. }
  split; lra.
Qed.

(** ** Results on the summaries *)

Lemma len_nonneg {A} (l : list A) : 0 <= len l.
Proof. unfold len. lia. Qed.

Lemma idle_periods_le_total traffic_metrics gw :
  len (unique Z.eqb (map Row.Timestamp (idle_rows traffic_metrics gw)))
  <= len (unique Z.eqb (map Row.Timestamp gw)).
Proof.
  unfold len. apply inj_le. apply NoDup_incl_length.
  - apply (unique_NoDup Z.eqb Z.eqb_eq).
  - intros t Ht. apply (proj1 (unique_In Z.eqb Z.eqb_eq _ _)) in Ht.
    apply (proj2 (unique_In Z.eqb Z.eqb_eq _ _)).
    apply in_map_iff in Ht. destruct Ht as [r [<- Hr]].
    apply in_map. unfold idle_rows in Hr. apply filter_In in Hr. tauto.
Qed.

(** C9. In every summary of the analysis, [Idle_Periods] is at most
    [Total_Periods] and [Idle_Percentage] is between 0 and 100. *)
Theorem idle_periods_and_percentage_bounds df account_id region summaries s :
  analyze_idle_time df account_id region = inr summaries ->
  In s summaries ->
  0 <= Summary.Idle_Periods s <= Summary.Total_Periods s /\
  (0 <= Summary.Idle_Percentage s)%Q /\
  (Summary.Idle_Percentage s <= 100)%Q.
Proof.
  intros Hrun Hin.
  destruct (analyze_idle_time_In _ _ _ _ _ Hrun Hin)
    as [ty [metrics [id [row0 [_ [_ [_ Hs]]]]]]].
  rewrite summarize_eq in Hs. injection Hs as <-. cbn.
  pose proof (idle_periods_le_total (traffic_metrics_of metrics)
                                    (rows_of df ty id)) as Hle.
  pose proof (len_nonneg
                (unique Z.eqb
                   (map Row.Timestamp
                      (idle_rows (traffic_metrics_of metrics)
                                 (rows_of df ty id))))) as H0.
  split; [lia |].
  apply round2_percentage.
  - destruct (0 <? _) eqn:E; [| lra].
    apply Z.ltb_lt in E. apply idle_pct_percentage; [lia | assumption].
  - destruct (0 <? _) eqn:E; [| lra].
    apply Z.ltb_lt in E. apply idle_pct_percentage; [lia | assumption].
Qed.

Lemma idle_periods_and_percentage_bounds_witness :
  exists summaries s,
    analyze_idle_time example_table "123456789012" "us-east-1"
    = inr summaries /\
    In s summaries /\
    0 <= Summary.Idle_Periods s <= Summary.Total_Periods s /\
    (0 <= Summary.Idle_Percentage s)%Q /\
    (Summary.Idle_Percentage s <= 100)%Q.
Proof.
  destruct (analyze_idle_time example_table "123456789012" "us-east-1")
    as [e | [| s rest]] eqn:Hrun;
    [vm_compute in Hrun; discriminate | vm_compute in Hrun; discriminate |].
  exists (s :: rest), s. split; [reflexivity |].
  split; [left; reflexivity |].
  apply (idle_periods_and_percentage_bounds example_table "123456789012"
           "us-east-1" (s :: rest) s Hrun).
  left. reflexivity.
Defined.

(** Rounding to the nearest integer moves a value by at most one half. *)
Lemma round_half_even_near (q : Q) :
  (Qabs (inject_Z (round_half_even q) - q) <= 1 # 2)%Q.
Proof.
  unfold round_half_even.
  pose proof (Qfloor_le q) as Hlo. pose proof (Qlt_floor q) as Hhi.
  rewrite inject_Z_plus in Hhi. change (inject_Z 1) with 1%Q in Hhi.
  apply Qabs_Qle_condition.
  destruct (q - inject_Z (Qfloor q) ?= 1 # 2)%Q eqn:E.
  - apply Qeq_alt in E. destruct (Z.even (Qfloor q)).
    + split; lra.
    + rewrite inject_Z_plus. change (inject_Z 1) with 1%Q. split; lra.
  - apply Qlt_alt in E. split; lra.
  - apply Qgt_alt in E. rewrite inject_Z_plus.
    change (inject_Z 1) with 1%Q. split; lra.
Qed.

(** [round2] rounds to two decimals. *)
Lemma round2_rounded (q : Q) : rounded_to_2_decimals q (round2 q).
Proof.
  unfold rounded_to_2_decimals, round2. split.
  - exists (round_half_even (q * 100)). reflexivity.
  - pose proof (round_half_even_near (q * 100)) as H.
    apply Qabs_Qle_condition in H. apply Qabs_Qle_condition.
    set (n := inject_Z (round_half_even (q * 100))) in *.
    assert (E : (n / 100 - q == (n - q * 100) / 100)%Q) by field.
    rewrite E. destruct H as [H1 H2]. split.
    + apply Qle_shift_div_l; [reflexivity | lra].
    + apply Qle_shift_div_r; [reflexivity | lra].
Qed.

(** C8. In every summary, [Total_Bytes] and [Total_Packets] are the sums
    of their "in" and "out" parts, and each per-second rate is the total
    divided by [max(Total_Periods * 21600, 1)] seconds, rounded to two
    decimals: a whole number of hundredths at most half a hundredth away
    from that quotient. *)
Theorem totals_and_rates df account_id region summaries s :
  analyze_idle_time df account_id region = inr summaries ->
  In s summaries ->
  let seconds := Z.max (Summary.Total_Periods s * 21600) 1 in
  Summary.Total_Bytes s
  = (Summary.Total_Bytes_In (Summary.of_kind s)
     + Summary.Total_Bytes_Out (Summary.of_kind s))%Q /\
  Summary.Total_Packets s
  = (Summary.Total_Packets_In (Summary.of_kind s)
     + Summary.Total_Packets_Out (Summary.of_kind s))%Q /\
  rounded_to_2_decimals (Summary.Total_Bytes s / inject_Z seconds)
                        (Summary.Bytes_Per_Second_Avg s) /\
  rounded_to_2_decimals (Summary.Total_Packets s / inject_Z seconds)
                        (Summary.Packets_Per_Second_Avg s).
Proof.
  intros Hrun Hin.
  destruct (analyze_idle_time_In _ _ _ _ _ Hrun Hin)
    as [ty [metrics [id [row0 [_ [_ [_ Hs]]]]]]].
  rewrite summarize_eq in Hs. injection Hs as <-. cbn.
  set (total_periods := len (unique Z.eqb (map Row.Timestamp (rows_of df ty id)))).
  assert (Hsecs : (if 0 <? total_periods
                   then total_periods * PERIOD_SECONDS else 1)
                  = Z.max (total_periods * 21600) 1).
  { unfold PERIOD_SECONDS. destruct (0 <? total_periods) eqn:E.
    - apply Z.ltb_lt in E. lia.
    - apply Z.ltb_ge in E. lia. }
  rewrite Hsecs.
  split; [reflexivity |]. split; [reflexivity |].
  split; apply round2_rounded.
Qed.

Lemma totals_and_rates_witness :
  exists summaries s,
    analyze_idle_time example_table "123456789012" "us-east-1"
    = inr summaries /\
    In s summaries /\
    Summary.Total_Bytes s
    = (Summary.Total_Bytes_In (Summary.of_kind s)
       + Summary.Total_Bytes_Out (Summary.of_kind s))%Q /\
    rounded_to_2_decimals
      (Summary.Total_Bytes s
       / inject_Z (Z.max (Summary.Total_Periods s * 21600) 1))
      (Summary.Bytes_Per_Second_Avg s).
Proof.
  destruct (analyze_idle_time example_table "123456789012" "us-east-1")
    as [e | [| s rest]] eqn:Hrun;
    [vm_compute in Hrun; discriminate | vm_compute in Hrun; discriminate |].
  exists (s :: rest), s. split; [reflexivity |].
  split; [left; reflexivity |].
  destruct (totals_and_rates example_table "123456789012" "us-east-1"
              (s :: rest) s Hrun (or_introl eq_refl))
    as [Hb [_ [Hr _]]].
  split; assumption.
Defined.

Lemma unique_nil_inv {A} (eqb : A -> A -> bool) (l : list A) :
  len (unique eqb l) = 0 -> l = [].
Proof.
  destruct l as [| a l]; [reflexivity |]. unfold len. simpl. lia.
Qed.

(** A gateway of the table has at least one period. *)
Lemma total_periods_positive df account_id region summaries s :
  analyze_idle_time df account_id region = inr summaries ->
  In s summaries -> 0 < Summary.Total_Periods s.
Proof.
  intros Hrun Hin.
  destruct (analyze_idle_time_In _ _ _ _ _ Hrun Hin)
    as [ty [metrics [id [row0 [_ [_ [Hrow0 Hs]]]]]]].
  rewrite summarize_eq in Hs. injection Hs as <-. cbn.
  destruct (rows_of df ty id) as [| r gw]; [discriminate |].
  unfold len. simpl. lia.
Qed.

(** C7. The body of the loop never raises, so no division by zero
    occurs; and when [Total_Periods] is 0 the idle percentage and the two
    per-second rates are 0.  The analysis of a whole table never raises
    [ZeroDivisionError] either. *)
Theorem zero_periods_no_division
    account_id region gateway_type traffic_metrics gateway_id gw row0 :
  exists s,
    summarize account_id region gateway_type traffic_metrics gateway_id
              gw row0 = inr s /\
    (Summary.Total_Periods s = 0 ->
     (Summary.Idle_Percentage s == 0)%Q /\
     (Summary.Bytes_Per_Second_Avg s == 0)%Q /\
     (Summary.Packets_Per_Second_Avg s == 0)%Q) /\
    (forall df,
        analyze_idle_time df account_id region <> inl ZeroDivisionError).
Proof.
  eexists. split; [apply summarize_eq |]. split.
  - cbn. intros Hzero. apply unique_nil_inv in Hzero.
    apply map_eq_nil in Hzero. rewrite Hzero.
    destruct (String.eqb gateway_type "NAT");
      repeat split; vm_compute; reflexivity.
  - intros df. destruct df as [| r df]; [discriminate |].
    destruct (analyze_idle_time_inr (r :: df) account_id region)
      as [nss [iss [Hrun _]]]; [discriminate |].
    rewrite Hrun. discriminate.
Qed.

Lemma zero_periods_no_division_witness :
  exists s,
    summarize "123456789012" "us-east-1" "NAT"
              (traffic_metrics_of NAT_METRICS) "nat-1" []
              (sample "NAT" "nat-1" "BytesInFromSource" 0 0) = inr s /\
    Summary.Total_Periods s = 0 /\
    (Summary.Idle_Percentage s == 0)%Q /\
    (Summary.Bytes_Per_Second_Avg s == 0)%Q /\
    (Summary.Packets_Per_Second_Avg s == 0)%Q.
Proof.
  destruct (zero_periods_no_division "123456789012" "us-east-1" "NAT"
              (traffic_metrics_of NAT_METRICS) "nat-1" []
              (sample "NAT" "nat-1" "BytesInFromSource" 0 0))
    as [s [Hs [Hzero _]]].
  exists s. split; [exact Hs |].
  assert (Htotal : Summary.Total_Periods s = 0).
  { rewrite summarize_eq in Hs. injection Hs as <-. reflexivity. }
  split; [exact Htotal | exact (Hzero Htotal)].
Defined.

Lemma forallb_false_exists {A} (f : A -> bool) (l : list A) :
  forallb f l = false -> exists x, In x l /\ f x = false.
Proof.
  induction l as [| a l IH]; simpl; [discriminate |].
  destruct (f a) eqn:E; simpl.
  - intros H. destruct (IH H) as [x [Hx Hf]]. exists x. auto.
  - intros _. exists a. auto.
Qed.

(** C4. The summary of an Internet Gateway has a status, ["Inactive"] or
    ["Active"]; it is ["Inactive"] exactly when every row of that gateway
    in the table, whatever its metric, has [Sum == 0], so that one row
    with a nonzero [Sum] makes it ["Active"]. *)
Theorem igw_status_inactive_iff df account_id region summaries s :
  analyze_idle_time df account_id region = inr summaries ->
  In s summaries ->
  Summary.Gateway_Type s = "IGW" ->
  (Summary.status s = Some "Inactive" \/ Summary.status s = Some "Active") /\
  (Summary.status s = Some "Inactive" <->
   forall r, In r df -> Row.Gateway_Type r = "IGW" ->
             Row.Gateway_ID r = Summary.Gateway_ID s ->
             (Row.Sum r == 0)%Q) /\
  ((exists r, In r df /\ Row.Gateway_Type r = "IGW" /\
              Row.Gateway_ID r = Summary.Gateway_ID s /\
              ~ (Row.Sum r == 0)%Q) ->
   Summary.status s = Some "Active").
Proof.
  intros Hrun Hin Htype.
  destruct (analyze_idle_time_In _ _ _ _ _ Hrun Hin)
    as [ty [metrics [id [row0 [Hkind [_ [_ Hs]]]]]]].
  rewrite summarize_eq in Hs. injection Hs as <-. cbn in Htype. subst ty.
  unfold Summary.status. cbn.
  destruct (forallb (fun r => Qeq_bool (Row.Sum r) 0) (rows_of df "IGW" id))
    eqn:Hall.
  - rewrite forallb_forall in Hall.
    assert (Hzero : forall r, In r df -> Row.Gateway_Type r = "IGW" ->
                              Row.Gateway_ID r = id -> (Row.Sum r == 0)%Q).
    { intros r Hr Ht Hid. apply Qeq_bool_iff. apply Hall.
      apply rows_of_In. auto. }
    split; [left; reflexivity |]. split; [tauto |].
    intros [r [Hr [Ht [Hid Hne]]]]. exfalso. apply Hne. apply Hzero; auto.
  - assert (Hne : exists r, In r df /\ Row.Gateway_Type r = "IGW" /\
                            Row.Gateway_ID r = id /\ ~ (Row.Sum r == 0)%Q).
    { destruct (forallb_false_exists _ _ Hall) as [r [Hr Hf]].
      apply rows_of_In in Hr. destruct Hr as [Hr [Ht Hid]].
      exists r. repeat split; auto.
      intros Hz. apply Qeq_bool_iff in Hz. congruence. }
    split; [right; reflexivity |]. split; [| reflexivity].
    split; [discriminate |].
    intros Hzero. exfalso. destruct Hne as [r [Hr [Ht [Hid Hne]]]].
    apply Hne. apply Hzero; auto.
Qed.

Lemma igw_status_inactive_iff_witness :
  exists summaries s,
    analyze_idle_time example_table "123456789012" "us-east-1"
    = inr summaries /\
    In s summaries /\
    Summary.Gateway_Type s = "IGW" /\
    Summary.status s = Some "Active".
Proof.
  destruct (analyze_idle_time example_table "123456789012" "us-east-1")
    as [e | [| s1 [| s rest]]] eqn:Hrun;
    try (vm_compute in Hrun; discriminate).
  assert (Hs : Summary.Gateway_Type s = "IGW" /\
               Summary.Gateway_ID s = "igw-1").
  { pose proof Hrun as H. vm_compute in H. injection H as _ H _.
    rewrite <- H. split; reflexivity. }
  destruct Hs as [Htype Hid].
  exists (s1 :: s :: rest), s. split; [reflexivity |].
  split; [right; left; reflexivity |]. split; [exact Htype |].
  destruct (igw_status_inactive_iff example_table "123456789012" "us-east-1"
              (s1 :: s :: rest) s Hrun (or_intror (or_introl eq_refl)) Htype)
    as [_ [_ Hactive]].
  apply Hactive.
  exists (sample "IGW" "igw-1" "BytesOutToDestination" 21600000000 7).
  split; [simpl; tauto |]. split; [reflexivity |].
  split; [rewrite Hid; reflexivity |].
  intros Hz. vm_compute in Hz. discriminate Hz.
Defined.

(** In [example_table] the NAT Gateway receives 1000 bytes in its first
    period, yet that period is counted as idle: the summary has two idle
    periods where the specification's words give one. *)
Lemma idle_periods_counts_mixed_timestamp :
  exists summaries s,
    analyze_idle_time example_table "123456789012" "us-east-1"
    = inr summaries /\
    In s summaries /\
    Summary.Gateway_Type s = "NAT" /\
    Summary.Gateway_ID s = "nat-1" /\
    Summary.Idle_Periods s = 2 /\
    claimed_idle_periods (traffic_metrics_of NAT_METRICS)
                         (rows_of example_table "NAT" "nat-1") = 1 /\
    Summary.Idle_Periods s
    <> claimed_idle_periods (traffic_metrics_of NAT_METRICS)
                            (rows_of example_table "NAT" "nat-1").
Proof.
  eexists. eexists.
  split; [vm_compute; reflexivity |].
  split; [left; reflexivity |].
  repeat split; vm_compute; discriminate.
Qed.

Lemma isin_In x values : isin x values = true <-> In x values.
Proof.
  unfold isin. rewrite existsb_exists. split.
  - intros [y [Hy E]]. apply String.eqb_eq in E. subst. assumption.
  - intros H. exists x. split; [assumption | apply String.eqb_refl].
Qed.

Lemma traffic_metrics_of_In m metrics_list :
  In m (traffic_metrics_of metrics_list) <->
  In m metrics_list /\
  (contains "Bytes" m = true \/ contains "Packets" m = true).
Proof.
  unfold traffic_metrics_of. rewrite filter_In, orb_true_iff. tauto.
Qed.

(** What the code counts.  [Idle_Periods] is the number of distinct
    timestamps at which at least one sample of a traffic metric of the
    gateway (a metric of its kind whose name contains ["Bytes"] or
    ["Packets"]) has [Sum == 0]: it is the length of every
    duplicate-free list holding exactly these timestamps, and there is
    one. *)
Theorem idle_periods_counts_zero_samples df account_id region summaries s :
  analyze_idle_time df account_id region = inr summaries ->
  In s summaries ->
  exists metrics_list ts,
    In (Summary.Gateway_Type s, metrics_list)
       [("NAT", NAT_METRICS); ("IGW", IGW_METRICS)] /\
    NoDup ts /\
    (forall t, In t ts <->
               idle_at df (Summary.Gateway_Type s) metrics_list
                       (Summary.Gateway_ID s) t) /\
    Summary.Idle_Periods s = len ts /\
    (forall ts',
        NoDup ts' ->
        (forall t, In t ts' <->
                   idle_at df (Summary.Gateway_Type s) metrics_list
                           (Summary.Gateway_ID s) t) ->
        Summary.Idle_Periods s = len ts').
Proof.
  intros Hrun Hin.
  destruct (analyze_idle_time_In _ _ _ _ _ Hrun Hin)
    as [ty [metrics [id [row0 [Hkind [_ [_ Hs]]]]]]].
  rewrite summarize_eq in Hs. injection Hs as <-. cbn.
  exists metrics.
  exists (unique Z.eqb
            (map Row.Timestamp
                 (idle_rows (traffic_metrics_of metrics) (rows_of df ty id)))).
  split; [exact Hkind |].
  split; [apply (unique_NoDup Z.eqb Z.eqb_eq) |].
  assert (Hts : forall t,
    In t (unique Z.eqb
            (map Row.Timestamp
                 (idle_rows (traffic_metrics_of metrics) (rows_of df ty id))))
    <-> idle_at df ty metrics id t);
    [| split; [exact Hts |]; split; [reflexivity |];
       intros ts' Hnd Hts'; unfold len; f_equal;
       apply NoDup_same_length;
       [apply (unique_NoDup Z.eqb Z.eqb_eq) | exact Hnd |];
       intros t; rewrite Hts, Hts'; reflexivity].
  intros t. rewrite (unique_In Z.eqb Z.eqb_eq), in_map_iff.
  unfold idle_at, idle_rows. split.
  - intros [r [Ht Hr]]. apply filter_In in Hr. destruct Hr as [Hr Hf].
    apply andb_true_iff in Hf. destruct Hf as [Hm Hz].
    apply rows_of_In in Hr. apply isin_In, traffic_metrics_of_In in Hm.
    apply Qeq_bool_iff in Hz. exists r. tauto.
  - intros [r [Hr [Hty [Hid [Hm [Hc [Hz Ht]]]]]]].
    exists r. split; [assumption |]. apply filter_In. split.
    + apply rows_of_In. auto.
    + apply andb_true_iff. split.
      * apply isin_In, traffic_metrics_of_In. auto.
      * apply Qeq_bool_iff. assumption.
Qed.

Lemma idle_periods_counts_zero_samples_witness :
  exists summaries s,
    analyze_idle_time example_table "123456789012" "us-east-1"
    = inr summaries /\
    In s summaries /\
    exists metrics_list ts,
      In (Summary.Gateway_Type s, metrics_list)
         [("NAT", NAT_METRICS); ("IGW", IGW_METRICS)] /\
      NoDup ts /\
      (forall t, In t ts <->
                 idle_at example_table (Summary.Gateway_Type s) metrics_list
                         (Summary.Gateway_ID s) t) /\
      Summary.Idle_Periods s = len ts.
Proof.
  destruct (analyze_idle_time example_table "123456789012" "us-east-1")
    as [e | [| s rest]] eqn:Hrun;
    [vm_compute in Hrun; discriminate | vm_compute in Hrun; discriminate |].
  exists (s :: rest), s. split; [reflexivity |].
  split; [left; reflexivity |].
  destruct (idle_periods_counts_zero_samples example_table "123456789012"
              "us-east-1" (s :: rest) s Hrun (or_introl eq_refl))
    as [metrics_list [ts [Hkind [Hnd [Hts [Hlen _]]]]]].
  exists metrics_list, ts. auto.
Defined.

(** C1. On the scenario of the specification the code counts the period
    in which [nat-1] receives 1000 bytes as idle: the summary has three
    idle periods out of three and is 100 percent idle with 1000 bytes of
    traffic, where the claim counts two.  For [igw-1], which has traffic
    in every period, the same count gives 100 percent idle in the very
    summary whose [Status] is ["Active"]. *)
Lemma idle_periods_count_period_with_traffic :
  exists nat igw,
    analyze_idle_time scenario_table "123456789012" "us-east-1"
    = inr [nat; igw] /\
    (Summary.Gateway_ID nat = "nat-1" /\
     Summary.Total_Periods nat = 3 /\
     Summary.Idle_Periods nat = 3 /\
     claimed_idle_periods (traffic_metrics_of NAT_METRICS)
                          (rows_of scenario_table "NAT" "nat-1") = 2 /\
     (Summary.Idle_Percentage nat == 100)%Q /\
     (Summary.Total_Bytes nat == 1000)%Q) /\
    (Summary.Gateway_ID igw = "igw-1" /\
     Summary.Total_Periods igw = 3 /\
     Summary.Idle_Periods igw = 3 /\
     (Summary.Idle_Percentage igw == 100)%Q /\
     Summary.status igw = Some "Active" /\
     (Summary.Total_Bytes igw == 15000)%Q).
Proof.
  eexists. eexists.
  split; [vm_compute; reflexivity |].
  split; repeat split; vm_compute; reflexivity.
Qed.

(** ** Results on whole runs of the collector *)

Lemma for_each_total {A S} (l : list A) (body : A -> S -> Traced S) :
  (forall a s, exists s' lg, body a s = (inr s', lg)) ->
  forall s, exists out log, for_each l body s = (inr out, log).
Proof.
  intros Hbody. induction l as [| a l IH]; intros s; simpl.
  - eexists _, _. reflexivity.
  - destruct (Hbody a s) as [s' [lg Hb]]. destruct (IH s') as [out [log Hl]].
    rewrite Hb. simpl. rewrite Hl. eexists _, _. reflexivity.
Qed.

Lemma get_metric_data_chunked_total cw ns m d start_time end_time :
  never_raises cw ->
  exists dps log,
    get_metric_data_chunked cw ns m d start_time end_time = (inr dps, log).
Proof.
  intros [Hfetch _]. unfold get_metric_data_chunked.
  destruct (get_metric_data_loop_run cw ns m d end_time start_time [])
    as [ws [_ Hrun]].
  - intros s e. apply Hfetch.
  - rewrite Hrun. eexists _, _. reflexivity.
Qed.

(** With a client that never raises, the collector returns a table. *)
Lemma collect_metrics_total cw ec2 region account_id now days :
  never_raises cw ->
  exists df log,
    collect_metrics cw ec2 region account_id now days = (inr df, log).
Proof.
  intros Hcw. unfold collect_metrics. cbv zeta.
  destruct (for_each_total (paginate_nat_gateways ec2)
              (fun nat results =>
                 for_each NAT_METRICS
                   (collect_nat_metric cw account_id region
                      (now - timedelta_days days) now nat) results))
    with (s := @nil Row.t) as [results [l1 Hnat]].
  { intros nat results. apply for_each_total. intros metric results'.
    unfold collect_nat_metric.
    destruct (get_metric_data_chunked_total cw "AWS/NATGateway" metric
                (nat_dimensions (gateway_id nat))
                (now - timedelta_days days) now Hcw) as [dps [lg Hf]].
    rewrite Hf. simpl. eexists _, _. reflexivity. }
  rewrite Hnat. cbn [bind].
  destruct (for_each_total (paginate_internet_gateways ec2)
              (fun igw results =>
                 for_each IGW_METRICS
                   (collect_igw_metric cw account_id region
                      (now - timedelta_days days) now igw) results))
    with (s := results) as [df [l2 Higw]].
  { intros igw results'. apply for_each_total. intros metric results''.
    unfold collect_igw_metric, call.
    destruct (proj2 Hcw "AWS/IGW" metric (igw_dimensions (gateway_id igw)))
      as [mds Hmds].
    rewrite Hmds. cbn [bind].
    destruct mds as [| md mds].
    - simpl. eexists _, _. reflexivity.
    - destruct (get_metric_data_chunked_total cw "AWS/IGW" metric
                  (igw_dimensions (gateway_id igw))
                  (now - timedelta_days days) now Hcw) as [dps [lg Hf]].
      rewrite Hf. simpl. eexists _, _. reflexivity. }
  rewrite Higw. eexists _, _. reflexivity.
Qed.

Lemma quiet_cloudwatch_never_raises : never_raises quiet_cloudwatch.
Proof. split; intros; eexists; reflexivity. Qed.

(** Every row of the table for an Internet Gateway was appended by the
    iteration of one of the listed gateways for one of the metrics. *)
Lemma collect_metrics_igw_row cw ec2 region account_id now days df log r :
  collect_metrics cw ec2 region account_id now days = (inr df, log) ->
  In r df -> Row.Gateway_Type r = "IGW" ->
  exists igw metric rows,
    In igw (paginate_internet_gateways ec2) /\ In metric IGW_METRICS /\
    igw_metric_rows cw account_id region (now - timedelta_days days)
                    igw metric rows /\
    In r rows.
Proof.
  intros Hrun Hr Htype.
  destruct (collect_metrics_rows _ _ _ _ _ _ _ _ Hrun)
    as [nat_rowss [igw_rowss [-> [HFnat HFigw]]]].
  apply in_app_or in Hr. destruct Hr as [Hr | Hr].
  - exfalso. apply in_concat in Hr. destruct Hr as [rows [Hrows Hr]].
    destruct (Forall2_In_r _ _ _ _ HFnat Hrows) as [nat [_ Hnat]].
    apply nat_rows_type in Hnat. rewrite Forall_forall in Hnat.
    specialize (Hnat r Hr). congruence.
  - apply in_concat in Hr. destruct Hr as [rows [Hrows Hr]].
    destruct (Forall2_In_r _ _ _ _ HFigw Hrows)
      as [igw [Higw [rowss [-> HF]]]].
    apply in_concat in Hr. destruct Hr as [rows' [Hrows' Hr]].
    destruct (Forall2_In_r _ _ _ _ HF Hrows') as [metric [Hmetric Hm]].
    exists igw, metric, rows'. auto.
Qed.

(** The rows appended for a metric of a listed Internet Gateway are in the
    table. *)
Lemma collect_metrics_igw_rows cw ec2 region account_id now days df log
    igw metric :
  collect_metrics cw ec2 region account_id now days = (inr df, log) ->
  In igw (paginate_internet_gateways ec2) -> In metric IGW_METRICS ->
  exists rows,
    igw_metric_rows cw account_id region (now - timedelta_days days)
                    igw metric rows /\
    incl rows df.
Proof.
  intros Hrun Higw Hmetric.
  destruct (collect_metrics_rows _ _ _ _ _ _ _ _ Hrun)
    as [nat_rowss [igw_rowss [-> [_ HFigw]]]].
  destruct (Forall2_In_l _ _ _ _ HFigw Higw)
    as [rows [Hrows [rowss [-> HF]]]].
  destruct (Forall2_In_l _ _ _ _ HF Hmetric) as [rows' [Hrows' Hm]].
  exists rows'. split; [exact Hm |].
  intros r Hr. apply in_or_app. right.
  apply in_concat. eexists. split; [exact Hrows |].
  apply in_concat. eexists. split; [exact Hrows' | exact Hr].
Qed.

(** A NAT metric for which no fetch returns a datapoint has no row in the
    table. *)
Lemma collect_metrics_nat_no_rows cw ec2 region account_id now days df log
    nat_id metric :
  collect_metrics cw ec2 region account_id now days = (inr df, log) ->
  no_datapoints cw "AWS/NATGateway" metric (nat_dimensions nat_id) ->
  rows_of_metric df "NAT" nat_id metric = [].
Proof.
  intros Hrun Hno.
  destruct (collect_metrics_rows _ _ _ _ _ _ _ _ Hrun)
    as [nat_rowss [igw_rowss [-> [HFnat HFigw]]]].
  unfold rows_of_metric. rewrite filter_app.
  rewrite (filter_concat_none _ _ _ _ HFnat).
  - eapply filter_concat_none; [exact HFigw |].
    intros igw rows _ Hrows. eapply filter_none;
      [exact (igw_rows_type _ _ _ _ _ _ Hrows) |].
    intros r [Ht _]. rewrite Ht. reflexivity.
  - intros nat rows _ [rowss [-> HF]].
    eapply filter_concat_none; [exact HF |].
    intros metric' rows _ [Hrows Hempty].
    destruct (String.eqb (gateway_id nat) nat_id) eqn:Eid.
    + destruct (String.eqb metric' metric) eqn:Em.
      * apply String.eqb_eq in Eid, Em. subst.
        rewrite (Hempty Hno). reflexivity.
      * eapply filter_none; [exact Hrows |].
        intros r [_ [_ Hm]]. rewrite Hm, Em. apply andb_false_r.
    + eapply filter_none; [exact Hrows |].
      intros r [_ [Hid _]]. rewrite Hid, Eid.
      rewrite andb_false_r. reflexivity.
Qed.

Lemma summarize_gateway account_id region gateway_type traffic_metrics
    gateway_id gw row0 s :
  summarize account_id region gateway_type traffic_metrics gateway_id gw row0
  = inr s ->
  Summary.Gateway_Type s = gateway_type /\ Summary.Gateway_ID s = gateway_id.
Proof.
  intros Hs. rewrite summarize_eq in Hs. injection Hs as <-. auto.
Qed.

(** With a client that has no datapoint for any metric, the NAT Gateway of
    [example_ec2] has no row in the table, and no summary. *)
Lemma nat_gateway_without_data_is_dropped :
  (forall metric,
      no_datapoints quiet_cloudwatch "AWS/NATGateway" metric
                    (nat_dimensions (gateway_id nat_1))) /\
  exists df log,
    collect_metrics quiet_cloudwatch example_ec2 "us-east-1" "123456789012"
                    example_now 90 = (inr df, log) /\
    (forall r, In r df -> Row.Gateway_ID r <> "nat-1") /\
    exists summaries,
      analyze_idle_time df "123456789012" "us-east-1" = inr summaries /\
      forall s, In s summaries -> Summary.Gateway_ID s <> "nat-1".
Proof.
  split; [intros metric; apply quiet_cloudwatch_no_datapoints |].
  destruct (collect_metrics_total quiet_cloudwatch example_ec2 "us-east-1"
              "123456789012" example_now 90 quiet_cloudwatch_never_raises)
    as [df [log Hrun]].
  exists df, log. split; [exact Hrun |].
  assert (Hrows : forall r, In r df -> Row.Gateway_ID r <> "nat-1").
  { intros r Hr Hid.
    destruct (collect_metrics_rows _ _ _ _ _ _ _ _ Hrun)
      as [nat_rowss [igw_rowss [-> [HFnat HFigw]]]].
    apply in_app_or in Hr. destruct Hr as [Hr | Hr].
    - apply in_concat in Hr. destruct Hr as [rows [Hrows Hr]].
      destruct (Forall2_In_r _ _ _ _ HFnat Hrows)
        as [nat [_ [rowss [-> HF]]]].
      apply in_concat in Hr. destruct Hr as [rows' [Hrows' Hr]].
      destruct (Forall2_In_r _ _ _ _ HF Hrows') as [metric [_ [_ Hempty]]].
      rewrite Hempty in Hr; [destruct Hr |].
      apply quiet_cloudwatch_no_datapoints.
    - apply in_concat in Hr. destruct Hr as [rows [Hrows Hr]].
      destruct (Forall2_In_r _ _ _ _ HFigw Hrows) as [igw [Higw Hig]].
      apply igw_rows_type in Hig. rewrite Forall_forall in Hig.
      destruct (Hig r Hr) as [_ Hid'].
      destruct Higw as [<- | []]. simpl in Hid'. congruence. }
  split; [exact Hrows |].
  destruct (collect_metrics_igw_rows _ _ _ _ _ _ _ _ igw_1
              "BytesInFromDestination" Hrun)
    as [rows [[Hne _] Hincl]];
    [left; reflexivity | left; reflexivity |].
  assert (Hdf : df <> []).
  { intros ->. destruct rows as [| r rows]; [contradiction |].
    exact (Hincl r (or_introl eq_refl)). }
  destruct (analyze_idle_time_inr df "123456789012" "us-east-1" Hdf)
    as [nss [iss [Han _]]].
  eexists. split; [exact Han |].
  intros s Hs Hid.
  destruct (analyze_idle_time_In _ _ _ _ _ Han Hs)
    as [ty [metrics [id [row0 [_ [Hgw [_ Hsum]]]]]]].
  apply summarize_gateway in Hsum. destruct Hsum as [_ Hid'].
  apply gateways_of_In in Hgw. destruct Hgw as [r [Hr [_ Hrid]]].
  apply (Hrows r Hr). congruence.
Qed.

(** C5, as the code has it.  For a listed Internet Gateway and a metric of
    the catalog that has no data (its probe finds nothing, or no fetch of
    it returns a datapoint), the table of a run holds the zero-valued
    placeholder of the pair, and nothing else for the pair when the
    gateway is listed once; the gateway is among the gateways of the table
    and the analysis gives it a summary.  For a NAT Gateway metric for
    which no fetch returns a datapoint the table holds no row. *)
Theorem igw_placeholder_keeps_gateway
    cw ec2 region account_id now days df log igw metric :
  collect_metrics cw ec2 region account_id now days = (inr df, log) ->
  In igw (paginate_internet_gateways ec2) -> In metric IGW_METRICS ->
  list_metrics cw "AWS/IGW" metric (igw_dimensions (gateway_id igw)) = inr []
  \/ no_datapoints cw "AWS/IGW" metric (igw_dimensions (gateway_id igw)) ->
  let placeholder :=
    placeholder_row account_id region igw metric
                    (now - timedelta_days days) in
  In placeholder df /\
  (Row.Sum placeholder = 0%Q /\ Row.Average placeholder = 0%Q /\
   Row.Maximum placeholder = 0%Q /\ Row.Minimum placeholder = 0%Q) /\
  (NoDup (map gateway_id (paginate_internet_gateways ec2)) ->
   rows_of_metric df "IGW" (gateway_id igw) metric = [placeholder]) /\
  In (gateway_id igw) (gateways_of df "IGW") /\
  (exists summaries s,
      analyze_idle_time df account_id region = inr summaries /\
      In s summaries /\
      Summary.Gateway_Type s = "IGW" /\
      Summary.Gateway_ID s = gateway_id igw) /\
  (forall nat_id nat_metric,
      no_datapoints cw "AWS/NATGateway" nat_metric (nat_dimensions nat_id) ->
      rows_of_metric df "NAT" nat_id nat_metric = []).
Proof.
  intros Hrun Higw Hmetric Hno placeholder.
  destruct (collect_metrics_igw_rows _ _ _ _ _ _ _ _ igw metric Hrun
              Higw Hmetric) as [rows [[_ [_ Hph]] Hincl]].
  rewrite (Hph Hno) in Hincl.
  assert (Hin : In placeholder df) by (apply Hincl; left; reflexivity).
  assert (Hgw : In (gateway_id igw) (gateways_of df "IGW")).
  { apply gateways_of_In. exists placeholder. auto. }
  split; [exact Hin |]. split; [repeat split |].
  split; [intros Hnd; eapply collect_metrics_placeholder; eauto |].
  split; [exact Hgw |]. split.
  - assert (Hdf : df <> []) by (intros ->; destruct Hin).
    destruct (analyze_idle_time_inr df account_id region Hdf)
      as [nss [iss [Han _]]].
    destruct (analyze_idle_time_gateway df account_id region _ "IGW"
                IGW_METRICS (gateway_id igw) Han)
      as [row0 [s [Hs [_ Hsum]]]];
      [right; left; reflexivity | exact Hgw |].
    apply summarize_gateway in Hsum.
    eexists _, s. split; [exact Han |]. tauto.
  - intros nat_id nat_metric Hnat.
    eapply collect_metrics_nat_no_rows; eassumption.
Qed.

Lemma igw_placeholder_keeps_gateway_witness :
  exists df log,
    collect_metrics quiet_cloudwatch example_ec2 "us-east-1" "123456789012"
                    example_now 90 = (inr df, log) /\
    In (placeholder_row "123456789012" "us-east-1" igw_1
                        "BytesInFromDestination"
                        (example_now - timedelta_days 90)) df /\
    In "igw-1" (gateways_of df "IGW").
Proof.
  destruct (collect_metrics_total quiet_cloudwatch example_ec2 "us-east-1"
              "123456789012" example_now 90 quiet_cloudwatch_never_raises)
    as [df [log Hrun]].
  exists df, log. split; [exact Hrun |].
  destruct (igw_placeholder_keeps_gateway quiet_cloudwatch example_ec2
              "us-east-1" "123456789012" example_now 90 df log igw_1
              "BytesInFromDestination" Hrun
              (or_introl eq_refl) (or_introl eq_refl)
              (or_intror (quiet_cloudwatch_no_datapoints _ _ _)))
    as [Hin [_ [_ [Hgw _]]]].
  split; [exact Hin | exact Hgw].
Defined.

(** ** An Internet Gateway without any datapoint *)

Lemma unique_constant {A} (eqb : A -> A -> bool) (c : A) (l : list A) :
  (forall x, eqb x x = true) ->
  l <> [] -> Forall (fun x => x = c) l -> unique eqb l = [c].
Proof.
  intros Hrefl Hne Hall. induction Hall as [| a l -> Hall IH];
    [contradiction |].
  simpl. f_equal. destruct l as [| b l]; [reflexivity |].
  rewrite IH by discriminate. simpl. rewrite Hrefl. reflexivity.
Qed.

Lemma series_sum_zeros (l : list Q) :
  Forall (fun q => q = 0%Q) l -> series_sum l = 0%Q.
Proof.
  unfold series_sum. induction 1 as [| q l -> Hall IH]; [reflexivity |].
  simpl. exact IH.
Qed.

Section Placeholders.

Variable start_time : datetime.
Variable gw : DataFrame.

(** Every row is a placeholder: a metric of the catalog, at the start of
    the range, with a zero [Sum]. *)
Hypothesis gw_placeholders :
  Forall (fun r => In (Row.Metric r) IGW_METRICS /\
                   Row.Timestamp r = start_time /\
                   Row.Sum r = 0%Q) gw.
Hypothesis gw_nonempty : gw <> [].

Lemma placeholders_timestamps :
  unique Z.eqb (map Row.Timestamp gw) = [start_time].
Proof.
  apply unique_constant; [apply Z.eqb_refl | |].
  - destruct gw; [contradiction | discriminate].
  - apply Forall_map. eapply Forall_impl; [| exact gw_placeholders].
    intros r [_ [Ht _]]. exact Ht.
Qed.

Lemma placeholders_idle_rows :
  idle_rows (traffic_metrics_of IGW_METRICS) gw = gw.
Proof.
  unfold idle_rows. eapply filter_all; [exact gw_placeholders |].
  intros r [Hm [_ Hz]]. rewrite Hz. apply andb_true_iff. split.
  - apply isin_In. exact Hm.
  - reflexivity.
Qed.

Lemma placeholders_sum_of_metric metric : sum_of_metric gw metric = 0%Q.
Proof.
  unfold sum_of_metric. apply series_sum_zeros. apply Forall_map.
  apply Forall_forall. intros r Hr. apply filter_In in Hr.
  destruct Hr as [Hr _]. rewrite Forall_forall in gw_placeholders.
  apply gw_placeholders in Hr. tauto.
Qed.

Lemma placeholders_all_zero :
  forallb (fun r => Qeq_bool (Row.Sum r) 0) gw = true.
Proof.
  apply forallb_forall. intros r Hr.
  rewrite Forall_forall in gw_placeholders.
  destruct (gw_placeholders r Hr) as [_ [_ Hz]]. rewrite Hz. reflexivity.
Qed.

End Placeholders.

Lemma Forall2_concat_singletons {A R} (P : A -> list R -> Prop) (f : A -> R)
    (l : list A) (rowss : list (list R)) :
  Forall2 P l rowss ->
  (forall a rows, In a l -> P a rows -> rows = [f a]) ->
  List.concat rowss = map f l.
Proof.
  intros HF. induction HF as [| a rows l rowss HP HF IH]; intros Hone.
  - reflexivity.
  - simpl. rewrite (Hone a rows (or_introl eq_refl) HP). simpl. f_equal.
    apply IH. intros a' rows' Ha'. apply Hone. right. assumption.
Qed.

Section NoDatapoints.

Variable cw : CloudWatch.
Variable ec2 : EC2.
Variables region account_id : string.
Variable now : datetime.
Variable days : Z.
Variable df : DataFrame.
Variable log : list Call.
Variable igw : Gateway.

Hypothesis run :
  collect_metrics cw ec2 region account_id now days = (inr df, log).
Hypothesis listed : In igw (paginate_internet_gateways ec2).
Hypothesis no_data :
  forall metric, In metric IGW_METRICS ->
    no_datapoints cw "AWS/IGW" metric (igw_dimensions (gateway_id igw)).

(** The rows of the gateway are placeholders, and there is one. *)
Lemma no_datapoints_rows_placeholders :
  Forall (fun r => In (Row.Metric r) IGW_METRICS /\
                   Row.Timestamp r = (now - timedelta_days days) /\
                   Row.Sum r = 0%Q)
         (rows_of df "IGW" (gateway_id igw)).
Proof.
  apply Forall_forall. intros r Hr. apply rows_of_In in Hr.
  destruct Hr as [Hr [Htype Hid]].
  destruct (collect_metrics_igw_row _ _ _ _ _ _ _ _ r run Hr Htype)
    as [igw' [metric [rows [_ [Hmetric [[_ [Hrows Hph]] Hin]]]]]].
  rewrite Forall_forall in Hrows. destruct (Hrows r Hin) as [_ [Hid' _]].
  rewrite Hph in Hin.
  - destruct Hin as [<- | []]. simpl. auto.
  - right. replace (gateway_id igw') with (gateway_id igw) by congruence.
    apply no_data. exact Hmetric.
Qed.

Lemma no_datapoints_rows_nonempty : rows_of df "IGW" (gateway_id igw) <> [].
Proof.
  destruct (collect_metrics_igw_rows _ _ _ _ _ _ _ _ igw
              "BytesInFromDestination" run listed (or_introl eq_refl))
    as [rows [[_ [_ Hph]] Hincl]].
  rewrite Hph in Hincl.
  - intros Hnil.
    assert (Hin : In (placeholder_row account_id region igw
                        "BytesInFromDestination" (now - timedelta_days days))
                     (rows_of df "IGW" (gateway_id igw))).
    { apply rows_of_In. split; [apply Hincl; left; reflexivity |].
      split; reflexivity. }
    rewrite Hnil in Hin. destruct Hin.
  - right. apply no_data. left. reflexivity.
Qed.

(** When the gateway is listed once, its rows are the eight placeholders,
    in the order of the catalog. *)
Lemma no_datapoints_rows_eight :
  NoDup (map gateway_id (paginate_internet_gateways ec2)) ->
  rows_of df "IGW" (gateway_id igw)
  = map (fun metric =>
           placeholder_row account_id region igw metric (now - timedelta_days days))
        IGW_METRICS.
Proof.
  intros Hnd.
  destruct (collect_metrics_rows _ _ _ _ _ _ _ _ run)
    as [nat_rowss [igw_rowss [Hdf [HFnat HFigw]]]].
  rewrite Hdf. unfold rows_of. rewrite filter_app.
  rewrite (filter_concat_none _ _ _ _ HFnat).
  2:{ intros nat rows _ Hrows. eapply filter_none;
        [exact (nat_rows_type _ _ _ Hrows) |].
      intros r Ht. rewrite Ht. reflexivity. }
  simpl.
  apply (filter_concat_one gateway_id _ _ igw _ _ _ HFigw Hnd listed).
  - intros rows [rowss [-> HF]].
    rewrite (Forall2_concat_singletons _
               (fun metric =>
                  placeholder_row account_id region igw metric (now - timedelta_days days))
               _ _ HF).
    + eapply filter_all with (Q := fun r =>
        Row.Gateway_Type r = "IGW" /\ Row.Gateway_ID r = gateway_id igw).
      * repeat constructor.
      * intros r [Ht Hid]. rewrite Ht, Hid, !String.eqb_refl. reflexivity.
    + intros metric rows Hmetric [_ [_ Hph]]. apply Hph. right.
      apply no_data. exact Hmetric.
  - intros igw' rows _ Hne Hrows.
    eapply filter_none; [exact (igw_rows_type _ _ _ _ _ _ Hrows) |].
    intros r [_ Hid]. rewrite Hid.
    apply String.eqb_neq in Hne. rewrite Hne. apply andb_false_r.
Qed.

End NoDatapoints.

(** The summary computed from a table of placeholders. *)
Lemma summarize_placeholders account_id region gateway_id start_time gw
    row0 s :
  Forall (fun r => In (Row.Metric r) IGW_METRICS /\
                   Row.Timestamp r = start_time /\
                   Row.Sum r = 0%Q) gw ->
  gw <> [] ->
  summarize account_id region "IGW" (traffic_metrics_of IGW_METRICS)
            gateway_id gw row0 = inr s ->
  idle_igw_summary s.
Proof.
  intros Hall Hne Hs. rewrite summarize_eq in Hs. injection Hs as <-.
  unfold idle_igw_summary, Summary.status.
  cbn [Summary.Total_Periods Summary.Idle_Periods Summary.Idle_Percentage
       Summary.of_kind Summary.Total_Bytes Summary.Total_Packets
       Summary.Bytes_Per_Second_Avg Summary.Packets_Per_Second_Avg].
  pose proof (placeholders_idle_rows start_time gw Hall) as Hidle.
  change (traffic_metrics_of IGW_METRICS) with IGW_METRICS in Hidle.
  unfold IGW_METRICS in Hidle. rewrite Hidle.
  rewrite (placeholders_timestamps start_time gw Hall Hne).
  unfold _igw_summary.
  cbn [Summary.Total_Bytes_In Summary.Total_Bytes_Out
       Summary.Total_Packets_In Summary.Total_Packets_Out
       Summary.specific].
  rewrite !(placeholders_sum_of_metric start_time gw Hall).
  rewrite (placeholders_all_zero start_time gw Hall).
  repeat split; try reflexivity.
  eexists. split; [reflexivity |]. repeat split; reflexivity.
Qed.

(** C10. An Internet Gateway none of whose metrics has a datapoint has a
    summary, and every summary of it has one period, that period idle,
    an idle percentage of 100, every grouped sum 0, both per-second rates
    0 and the status ["Inactive"].  When the gateway is listed once its
    rows are the eight placeholders, all at the start of the range. *)
Theorem igw_without_datapoints_summary
    cw ec2 region account_id now days df log igw :
  collect_metrics cw ec2 region account_id now days = (inr df, log) ->
  In igw (paginate_internet_gateways ec2) ->
  (forall metric, In metric IGW_METRICS ->
     no_datapoints cw "AWS/IGW" metric (igw_dimensions (gateway_id igw))) ->
  (NoDup (map gateway_id (paginate_internet_gateways ec2)) ->
   rows_of df "IGW" (gateway_id igw)
   = map (fun metric =>
            placeholder_row account_id region igw metric
                            (now - timedelta_days days))
         IGW_METRICS) /\
  exists summaries,
    analyze_idle_time df account_id region = inr summaries /\
    (exists s, In s summaries /\ Summary.Gateway_Type s = "IGW" /\
               Summary.Gateway_ID s = gateway_id igw) /\
    (forall s, In s summaries -> Summary.Gateway_Type s = "IGW" ->
               Summary.Gateway_ID s = gateway_id igw ->
               idle_igw_summary s).
Proof.
  intros Hrun Higw Hno.
  pose proof (no_datapoints_rows_placeholders _ _ _ _ _ _ _ _ _ Hrun Hno)
    as Hall.
  pose proof (no_datapoints_rows_nonempty _ _ _ _ _ _ _ _ _ Hrun Higw Hno)
    as Hne.
  split; [apply (no_datapoints_rows_eight _ _ _ _ _ _ _ _ _ Hrun Higw Hno) |].
  assert (Hdf : df <> []).
  { intros ->. apply Hne. reflexivity. }
  destruct (analyze_idle_time_inr df account_id region Hdf)
    as [nss [iss [Han _]]].
  eexists. split; [exact Han |]. split.
  - assert (Hgw : In (gateway_id igw) (gateways_of df "IGW")).
    { destruct (rows_of df "IGW" (gateway_id igw)) as [| r gw] eqn:Hrows;
        [contradiction |].
      assert (Hr : In r (rows_of df "IGW" (gateway_id igw)))
        by (rewrite Hrows; left; reflexivity).
      apply rows_of_In in Hr. apply gateways_of_In. exists r. exact Hr. }
    destruct (analyze_idle_time_gateway df account_id region _ "IGW"
                IGW_METRICS (gateway_id igw) Han)
      as [row0 [s [Hs [_ Hsum]]]];
      [right; left; reflexivity | exact Hgw |].
    apply summarize_gateway in Hsum. exists s. tauto.
  - intros s Hs Htype Hid.
    destruct (analyze_idle_time_In _ _ _ _ _ Han Hs)
      as [ty [metrics [id [row0 [Hkind [_ [_ Hsum]]]]]]].
    destruct (summarize_gateway _ _ _ _ _ _ _ _ Hsum) as [Hty Hid'].
    assert (Ety : ty = "IGW") by congruence.
    assert (Eid : id = gateway_id igw) by congruence.
    clear Hty Hid'. subst ty id.
    destruct Hkind as [E | [E | []]]; [discriminate E |].
    injection E as <-.
    eapply summarize_placeholders; eassumption.
Qed.

Lemma igw_without_datapoints_summary_witness :
  exists df log summaries s,
    collect_metrics quiet_cloudwatch example_ec2 "us-east-1" "123456789012"
                    example_now 90 = (inr df, log) /\
    analyze_idle_time df "123456789012" "us-east-1" = inr summaries /\
    In s summaries /\
    Summary.Gateway_ID s = "igw-1" /\
    idle_igw_summary s.
Proof.
  destruct (collect_metrics_total quiet_cloudwatch example_ec2 "us-east-1"
              "123456789012" example_now 90 quiet_cloudwatch_never_raises)
    as [df [log Hrun]].
  destruct (igw_without_datapoints_summary quiet_cloudwatch example_ec2
              "us-east-1" "123456789012" example_now 90 df log igw_1 Hrun
              (or_introl eq_refl)
              (fun metric _ => quiet_cloudwatch_no_datapoints _ _ _))
    as [_ [summaries [Han [[s [Hs [Htype Hid]]] Hidle]]]].
  exists df, log, summaries, s.
  split; [exact Hrun |]. split; [exact Han |]. split; [exact Hs |].
  split; [exact Hid |]. exact (Hidle s Hs Htype Hid).
Defined.

(** ** More on the chunked fetch *)

Lemma chunking_full_but_last end_time chunk_start ws :
  chunking end_time chunk_start ws -> full_but_last ws.
Proof.
  induction 1 as [cs Hle | cs ws Hlt Hch IH]; intros i w Hw Hi.
  - destruct i; discriminate.
  - destruct i as [| i].
    + simpl in Hw. injection Hw as <-. simpl in *.
      inversion Hch; subst; [simpl in Hi; lia |]. lia.
    + simpl in Hw, Hi. apply (IH i w Hw). lia.
Qed.

Lemma chunking_count end_time chunk_start ws :
  chunking end_time chunk_start ws -> chunk_start < end_time ->
  (len ws - 1) * chunk_size < end_time - chunk_start <= len ws * chunk_size.
Proof.
  unfold len.
  induction 1 as [cs Hle | cs ws Hlt Hch IH]; intros Hlt'; [lia |].
  assert (HD : 0 < chunk_size) by (unfold chunk_size, timedelta_days; lia).
  destruct (Z_lt_dec (Z.min (cs + chunk_size) end_time) end_time) as [Hn | Hn].
  - specialize (IH Hn). simpl List.length. rewrite Nat2Z.inj_succ.
    replace (Z.min (cs + chunk_size) end_time) with (cs + chunk_size) in IH
      by lia.
    nia.
  - apply chunking_empty in Hch; [| lia]. subst ws. cbn [List.length]. lia.
Qed.

(** The number of requests of a chunked fetch is the length of the range
    in 30-day chunks, rounded up, and every request but the last is for
    exactly 30 days. *)
Theorem chunked_fetch_request_count cw ns m d start_time end_time :
  fetch_succeeds cw ns m d ->
  start_time < end_time ->
  exists datapoints log,
    get_metric_data_chunked cw ns m d start_time end_time
    = (inr datapoints, log) /\
    len log = (end_time - start_time + timedelta_days 30 - 1)
              / timedelta_days 30 /\
    full_but_last (windows log).
Proof.
  intros Hok Hlt. unfold get_metric_data_chunked.
  destruct (get_metric_data_loop_run cw ns m d end_time start_time [] Hok)
    as [ws [Hch Hrun]].
  eexists _, _. split; [exact Hrun |].
  rewrite windows_chunk_calls.
  split; [| eapply chunking_full_but_last; eassumption].
  pose proof (chunking_count _ _ _ Hch Hlt) as [Hlo Hhi].
  unfold len in *. rewrite length_map.
  fold chunk_size.
  apply Z.div_unique_pos
    with (r := end_time - start_time - 1
               - (Z.of_nat (List.length ws) - 1) * chunk_size);
    unfold chunk_size, timedelta_days in *; lia.
Qed.

Lemma chunked_fetch_request_count_witness :
  exists datapoints log,
    get_metric_data_chunked quiet_cloudwatch "AWS/NATGateway"
      "BytesInFromSource" (nat_dimensions "nat-1")
      (example_now - timedelta_days 90) example_now
    = (inr datapoints, log) /\
    len log = 3.
Proof.
  destruct (chunked_fetch_request_count quiet_cloudwatch "AWS/NATGateway"
              "BytesInFromSource" (nat_dimensions "nat-1")
              (example_now - timedelta_days 90) example_now)
    as [dps [log [Hrun [Hlen _]]]].
  - intros s e. exists []. reflexivity.
  - reflexivity.
  - exists dps, log. split; [exact Hrun |]. rewrite Hlen. reflexivity.
Defined.

(** A chunked fetch that returned gives the datapoints of each window in
    turn. *)
Lemma get_metric_data_loop_out cw ns m d end_time chunk_start all out log :
  get_metric_data_loop cw ns m d end_time chunk_start all = (inr out, log) ->
  exists ws,
    chunking end_time chunk_start ws /\
    out = all ++ flat_map (chunk_datapoints cw ns m d) ws.
Proof.
  revert out log.
  funelim (get_metric_data_loop cw ns m d end_time chunk_start all);
    intros out log Hrun.
  - apply bind_inr in Hrun.
    destruct Hrun as [dps [l1 [l2 [Hcall [Hrest ->]]]]].
    injection Hcall as Hdps _.
    destruct (H dps _ _ Hrest) as [ws [Hch ->]].
    eexists (_ :: ws). split; [constructor; eassumption |].
    cbn [flat_map]. unfold chunk_datapoints at 2. cbn [fst snd].
    rewrite Hdps, <- app_assoc. reflexivity.
  - injection Hrun as <- _. exists []. split; [constructor; lia |].
    simpl. rewrite app_nil_r. reflexivity.
Qed.

Lemma chunking_datapoints cw ns m d end_time chunk_start ws :
  answers_within_window cw ns m d ->
  chunking end_time chunk_start ws ->
  NoDup (map dp_Timestamp (flat_map (chunk_datapoints cw ns m d) ws)) /\
  Forall (fun dp => chunk_start <= dp_Timestamp dp < end_time)
         (flat_map (chunk_datapoints cw ns m d) ws).
Proof.
  intros Hapi. induction 1 as [cs Hle | cs ws Hlt Hch [IHnd IHin]].
  - split; constructor.
  - cbn [flat_map].
    assert (Hhead :
      NoDup (map dp_Timestamp
               (chunk_datapoints cw ns m d
                  (cs, Z.min (cs + chunk_size) end_time))) /\
      Forall (fun dp => cs <= dp_Timestamp dp
                        < Z.min (cs + chunk_size) end_time)
             (chunk_datapoints cw ns m d
                (cs, Z.min (cs + chunk_size) end_time))).
    { unfold chunk_datapoints. cbn [fst snd].
      destruct (get_metric_statistics cw ns m d cs _ PERIOD_SECONDS)
        as [e | dps] eqn:E; [split; constructor |].
      exact (Hapi _ _ _ E). }
    destruct Hhead as [Hnd Hin].
    assert (HD : 0 < chunk_size) by (unfold chunk_size, timedelta_days; lia).
    split.
    + rewrite map_app. apply NoDup_app; [assumption | assumption |].
      intros t Ht1 Ht2.
      apply in_map_iff in Ht1. destruct Ht1 as [dp1 [<- Hdp1]].
      apply in_map_iff in Ht2. destruct Ht2 as [dp2 [Heq Hdp2]].
      rewrite Forall_forall in Hin, IHin.
      specialize (Hin dp1 Hdp1). specialize (IHin dp2 Hdp2). lia.
    + apply Forall_app. split.
      * eapply Forall_impl; [| exact Hin]. simpl. intros dp Hdp. lia.
      * eapply Forall_impl; [| exact IHin]. simpl. intros dp Hdp. lia.
Qed.

(** When each response holds distinct timestamps of its own window, the
    chunked fetch returns no two datapoints with the same timestamp, and
    only datapoints of the range. *)
Theorem chunked_fetch_no_duplicate cw ns m d start_time end_time dps log :
  answers_within_window cw ns m d ->
  get_metric_data_chunked cw ns m d start_time end_time = (inr dps, log) ->
  NoDup (map dp_Timestamp dps) /\
  Forall (fun dp => start_time <= dp_Timestamp dp < end_time) dps.
Proof.
  intros Hapi Hrun. unfold get_metric_data_chunked in Hrun.
  apply get_metric_data_loop_out in Hrun. destruct Hrun as [ws [Hch ->]].
  simpl. eapply chunking_datapoints; eassumption.
Qed.

Lemma busy_cloudwatch_answers_within_window ns m d :
  answers_within_window busy_cloudwatch ns m d.
Proof.
  intros s e dps H. simpl in H. injection H as <-.
  destruct (s <? e) eqn:E.
  - apply Z.ltb_lt in E. split.
    + simpl. constructor; [intros [] | constructor].
    + constructor; [simpl; lia | constructor].
  - split; constructor.
Qed.

Lemma busy_cloudwatch_never_raises : never_raises busy_cloudwatch.
Proof. split; intros; eexists; reflexivity. Qed.

Lemma chunked_fetch_no_duplicate_witness :
  exists dps log,
    get_metric_data_chunked busy_cloudwatch "AWS/IGW"
      "BytesInFromDestination" (igw_dimensions "igw-1")
      (example_now - timedelta_days 90) example_now = (inr dps, log) /\
    NoDup (map dp_Timestamp dps).
Proof.
  destruct (get_metric_data_chunked_total busy_cloudwatch "AWS/IGW"
              "BytesInFromDestination" (igw_dimensions "igw-1")
              (example_now - timedelta_days 90) example_now
              busy_cloudwatch_never_raises) as [dps [log Hrun]].
  exists dps, log. split; [exact Hrun |].
  apply (chunked_fetch_no_duplicate busy_cloudwatch "AWS/IGW"
           "BytesInFromDestination" (igw_dimensions "igw-1")
           (example_now - timedelta_days 90) example_now dps log).
  - apply busy_cloudwatch_answers_within_window.
  - exact Hrun.
Defined.

(** ** What the collector asks, and how it fails *)

Lemma stops_at_failure_ret {A} cw (a : A) : stops_at_failure cw (ret a).
Proof. constructor. Qed.

Lemma stops_at_failure_bind {A B} cw (m : Traced A) (k : A -> Traced B) :
  stops_at_failure cw m -> (forall a, stops_at_failure cw (k a)) ->
  stops_at_failure cw (bind m k).
Proof.
  unfold stops_at_failure. destruct m as [[e | a] l1]; simpl; [auto |].
  intros Hm Hk. specialize (Hk a). destruct (k a) as [[e | b] l2]; simpl in *.
  - destruct Hk as [before [c [-> [Hbefore Hc]]]].
    exists (l1 ++ before), c. rewrite app_assoc.
    split; [reflexivity |]. split; [apply Forall_app; auto | assumption].
  - apply Forall_app. auto.
Qed.

Lemma stops_at_failure_call {A} cw (c : Call) (response : Py A) :
  (forall e, response = inl e -> raised cw c e) ->
  (forall a, response = inr a -> answered cw c) ->
  stops_at_failure cw (call c response).
Proof.
  unfold stops_at_failure, call. simpl. intros Hl Hr.
  destruct response as [e | a].
  - exists [], c. split; [reflexivity |]. split; [constructor | auto].
  - constructor; [eauto | constructor].
Qed.

Lemma stops_at_failure_for_each {A S} cw (l : list A)
    (body : A -> S -> Traced S) :
  (forall a s, stops_at_failure cw (body a s)) ->
  forall s, stops_at_failure cw (for_each l body s).
Proof.
  intros Hbody. induction l as [| a l IH]; intros s; simpl.
  - apply stops_at_failure_ret.
  - apply stops_at_failure_bind; auto.
Qed.

Lemma stops_at_failure_fetch cw ns m d s e p :
  stops_at_failure cw
    (call (GetMetricStatistics ns m d s e p)
          (get_metric_statistics cw ns m d s e p)).
Proof.
  apply stops_at_failure_call.
  - intros e' H. exact H.
  - intros a H e' H'. simpl in H'. congruence.
Qed.

Lemma stops_at_failure_loop cw ns m d end_time chunk_start all :
  stops_at_failure cw
    (get_metric_data_loop cw ns m d end_time chunk_start all).
Proof.
  funelim (get_metric_data_loop cw ns m d end_time chunk_start all).
  - apply stops_at_failure_bind; [apply stops_at_failure_fetch | exact H].
  - apply stops_at_failure_ret.
Qed.

Lemma collect_metrics_stops cw ec2 region account_id now days :
  stops_at_failure cw (collect_metrics cw ec2 region account_id now days).
Proof.
  unfold collect_metrics. cbv zeta. apply stops_at_failure_bind.
  - apply stops_at_failure_for_each. intros nat results.
    apply stops_at_failure_for_each. intros metric results'.
    unfold collect_nat_metric. apply stops_at_failure_bind.
    + apply stops_at_failure_loop.
    + intros dps. apply stops_at_failure_ret.
  - intros results. apply stops_at_failure_for_each. intros igw results'.
    apply stops_at_failure_for_each. intros metric results''.
    unfold collect_igw_metric. apply stops_at_failure_bind.
    + apply stops_at_failure_call.
      * intros e H. exact H.
      * intros a H e H'. simpl in H'. congruence.
    + intros probe. apply stops_at_failure_bind.
      * destruct probe; [apply stops_at_failure_ret |].
        apply stops_at_failure_loop.
      * intros dps. apply stops_at_failure_ret.
Qed.

Lemma get_metric_data_loop_scope cw ns m d end_time chunk_start all :
  Forall (fun c => exists s e,
              c = GetMetricStatistics ns m d s e PERIOD_SECONDS /\
              chunk_start <= s /\ s < e /\ e <= end_time /\
              e - s <= timedelta_days 30)
         (snd (get_metric_data_loop cw ns m d end_time chunk_start all)).
Proof.
  funelim (get_metric_data_loop cw ns m d end_time chunk_start all).
  - rewrite bind_log. apply Forall_app. split.
    + constructor; [| constructor]. eexists _, _. split; [reflexivity |].
      unfold chunk_size, timedelta_days in *. lia.
    + cbn [call fst].
      destruct (get_metric_statistics _ _ _ _ _ _ _); [constructor |].
      eapply Forall_impl; [| apply H].
      intros c [s [e [-> Hse]]]. eexists _, _. split; [reflexivity |].
      unfold chunk_size, timedelta_days in *. lia.
  - constructor.
Qed.

(** Every call of a run is for a listed gateway and a metric of the
    catalog of its kind; every fetch has [Period] 21600 and asks for a
    non-empty window of at most 30 days inside the range; only Internet
    Gateways are probed. *)
Theorem collect_metrics_requests_in_scope
    cw ec2 region account_id now days :
  Forall (request_in_scope ec2 (now - timedelta_days days) now)
         (snd (collect_metrics cw ec2 region account_id now days)).
Proof.
  unfold collect_metrics. cbv zeta. rewrite bind_log. apply Forall_app. split.
  - apply for_each_log. intros nat results Hnat.
    apply for_each_log. intros metric results' Hmetric.
    unfold collect_nat_metric. rewrite bind_log. apply Forall_app. split.
    + eapply Forall_impl; [| apply get_metric_data_loop_scope].
      intros c [s [e [-> Hse]]]. simpl.
      split; [reflexivity |]. repeat (split; [lia |]).
      left. split; [reflexivity |]. split; [assumption |].
      exists nat. auto.
    + destruct (fst _); constructor.
  - destruct (fst _); [constructor |].
    apply for_each_log. intros igw results Higw.
    apply for_each_log. intros metric results' Hmetric.
    unfold collect_igw_metric. rewrite bind_log. apply Forall_app. split.
    + constructor; [| constructor]. simpl.
      split; [reflexivity |]. split; [assumption |]. exists igw. auto.
    + cbn [call fst].
      destruct (list_metrics cw "AWS/IGW" metric _) as [e | probe];
        [constructor |].
      rewrite bind_log. apply Forall_app. split.
      * destruct probe; [constructor |].
        eapply Forall_impl; [| apply get_metric_data_loop_scope].
        intros c [s [e [-> Hse]]]. simpl.
        split; [reflexivity |]. repeat (split; [lia |]).
        right. split; [reflexivity |]. split; [assumption |].
        exists igw. auto.
      * destruct (fst _); constructor.
Qed.

(** ** Gateway discovery *)

(** The gateways of all pages, in page order; a page without the key gives
    none. *)
Lemma paginate_flat_map pages :
  paginate pages
  = flat_map (fun page => match page with Some l => l | None => [] end) pages.
Proof.
  unfold paginate.
  assert (H : forall acc,
    fold_left (fun gateways page =>
                 gateways ++ match page with Some l => l | None => [] end)
              pages acc
    = acc ++ flat_map (fun page => match page with
                                   | Some l => l
                                   | None => []
                                   end) pages).
  { induction pages as [| page pages IH]; intros acc; simpl.
    - rewrite app_nil_r. reflexivity.
    - rewrite IH, app_assoc. reflexivity. }
  apply H.
Qed.

(** A gateway whose identifiers are not empty gets a name that is not
    empty, whatever its tags are and whatever the lookup of its VPC does. *)
Theorem gateway_name_not_empty gateway ec2 :
  (forall id, NatGatewayId gateway = Some id -> id <> "") ->
  (forall id, InternetGatewayId gateway = Some id -> id <> "") ->
  fst (fst (get_gateway_info gateway ec2)) <> "".
Proof.
  intros Hnat Higw. unfold get_gateway_info. cbv zeta. cbn [fst].
  generalize (lookup_vpc_name ec2 (gateway_vpc_id gateway)).
  generalize (name_tag_of match Tags gateway with
                          | Some tags => tags
                          | None => []
                          end).
  intros name_tag vpc_name. unfold gateway_name_of.
  destruct name_tag as [[| c n] |]; try discriminate;
    (destruct vpc_name as [[| c' n'] |];
     [| destruct (InternetGatewayId gateway); discriminate |]);
    (destruct (NatGatewayId gateway) as [id |] eqn:En;
     [exact (Hnat id eq_refl) |];
     destruct (InternetGatewayId gateway) as [id |] eqn:Ei;
     [exact (Higw id eq_refl) | discriminate]).
Qed.

(** [vpc_name] is present exactly when [vpc_id] is a string that is not
    empty; it is [vpc_id] itself when the lookup raises, returns no VPC,
    or returns a VPC without ["Name"] tag, and that tag otherwise. *)
Theorem gateway_vpc_name gateway ec2 :
  let vpc_id := snd (fst (get_gateway_info gateway ec2)) in
  let vpc_name := snd (get_gateway_info gateway ec2) in
  (vpc_name = None <-> truthy vpc_id = false) /\
  (forall v, vpc_id = Some v -> truthy vpc_id = true ->
     match describe_vpcs ec2 v with
     | inr (vpc :: _) =>
         match name_tag_of (match vpc_Tags vpc with
                            | Some tags => tags
                            | None => []
                            end) with
         | Some n => vpc_name = Some n
         | None => vpc_name = Some v
         end
     | inr [] => vpc_name = Some v
     | inl _ => vpc_name = Some v
     end).
Proof.
  unfold get_gateway_info. cbv zeta. cbn [fst snd].
  generalize (gateway_vpc_id gateway). intros vpc_id.
  unfold lookup_vpc_name, truthy. split.
  - destruct vpc_id as [[| c v] |]; try tauto.
    destruct (describe_vpcs ec2 (String c v)) as [e | [| vpc vpcs]];
      try (split; discriminate).
    destruct (name_tag_of _); split; discriminate.
  - intros v -> Ht. destruct v as [| c v]; [discriminate |].
    destruct (describe_vpcs ec2 (String c v)) as [e | [| vpc vpcs]];
      try reflexivity.
    destruct (name_tag_of _); reflexivity.
Qed.

Lemma gateway_name_not_empty_witness :
  fst (fst (get_gateway_info
              {| NatGatewayId := Some "nat-1"; InternetGatewayId := None;
                 Tags := None; VpcId := Some "vpc-1"; Attachments := None |}
              {| describe_nat_gateways := []; describe_internet_gateways := [];
                 describe_vpcs := fun _ => inl (ClientError "AccessDenied") |}))
  <> "".
Proof.
  apply gateway_name_not_empty.
  - intros id H. injection H as <-. discriminate.
  - intros id H. discriminate H.
Defined.

(** ** Export *)

Lemma substring_prefix_length n s :
  String.length (substring 0 n s) = Nat.min n (String.length s) /\
  prefix (substring 0 n s) s = true.
Proof.
  revert s. induction n as [| n IH]; intros s.
  - destruct s; split; reflexivity.
  - destruct s as [| c s]; [split; reflexivity |].
    destruct (IH s) as [Hlen Hpre]. simpl. rewrite Hlen, Hpre.
    destruct (Ascii.ascii_dec c c); [| contradiction]. split; reflexivity.
Qed.

Section FilterSplit.

Context {A : Type} (f : A -> bool).




End FilterSplit.


(** Every gateway that has a row has a sheet. *)
Lemma sheets_exist df (gateway_ids : list string) :
  (forall id, In id gateway_ids ->
     filter (fun r => String.eqb (Row.Gateway_ID r) id) df <> []) ->
  exists sheets, Forall2 (sheet_of_gateway df) gateway_ids sheets.
Proof.
  induction gateway_ids as [| id ids IH]; intros Hne.
  - exists []. constructor.
  - destruct IH as [sheets HF]; [intros id' H; apply Hne; right; exact H |].
    pose proof (Hne id (or_introl eq_refl)) as Hid.
    destruct (filter (fun r => String.eqb (Row.Gateway_ID r) id) df)
      as [| row0 rest] eqn:Hf; [contradiction |].
    destruct (substring_prefix_length 31 (Row.Gateway_Name row0))
      as [Hlen Hpre].
    exists ((substring 0 31 (Row.Gateway_Name row0),
             GatewayData (row0 :: rest)) :: sheets).
    constructor; [| exact HF].
    exists row0, rest. rewrite Hf. auto.
Qed.

(** The calls of the per-gateway loop. *)
Lemma write_gateway_sheets_spec writer df (gateway_ids : list string) :
  forall written0 written raised,
    (forall id, In id gateway_ids ->
       filter (fun r => String.eqb (Row.Gateway_ID r) id) df <> []) ->
    write_gateway_sheets writer df gateway_ids written0 = (written, raised) ->
    exists sheets made not_made,
      Forall2 (sheet_of_gateway df) gateway_ids sheets /\
      sheets = made ++ not_made /\
      written = written0 ++ made /\
      match raised with
      | None => not_made = []
      | Some (inl _) => False
      | Some (inr e) =>
          exists before sheet,
            made = before ++ [sheet] /\
            to_excel writer (written0 ++ before) sheet = Some e
      end.
Proof.
  induction gateway_ids as [| id ids IH]; intros written0 written raised Hne Hrun.
  - simpl in Hrun. injection Hrun as <- <-.
    exists [], [], [].
    split; [constructor |]. split; [reflexivity |].
    split; [symmetry; apply app_nil_r | reflexivity].
  - cbn [write_gateway_sheets] in Hrun. cbv zeta in Hrun.
    pose proof (Hne id (or_introl eq_refl)) as Hid.
    destruct (filter (fun r => String.eqb (Row.Gateway_ID r) id) df)
      as [| row0 rest] eqn:Hf; [contradiction |].
    cbn [iloc0] in Hrun.
    set (sheet := (substring 0 31 (Row.Gateway_Name row0),
                   GatewayData (row0 :: rest))) in *.
    assert (Hsheet : sheet_of_gateway df id sheet).
    { destruct (substring_prefix_length 31 (Row.Gateway_Name row0))
        as [Hlen Hpre].
      exists row0, rest. rewrite Hf. auto. }
    assert (Hne' : forall id', In id' ids ->
      filter (fun r => String.eqb (Row.Gateway_ID r) id') df <> [])
      by (intros id' H; apply Hne; right; exact H).
    destruct (to_excel writer written0 sheet) as [e |] eqn:Hcall.
    + injection Hrun as <- <-.
      destruct (sheets_exist df ids Hne') as [sheets HF].
      exists (sheet :: sheets), [sheet], sheets.
      split; [constructor; assumption |]. split; [reflexivity |].
      split; [reflexivity |].
      exists [], sheet. rewrite app_nil_r. auto.
    + destruct (IH _ _ _ Hne' Hrun)
        as [sheets [made [not_made [HF [-> [-> Hend]]]]]].
      exists (sheet :: made ++ not_made), (sheet :: made), not_made.
      split; [constructor; assumption |]. split; [reflexivity |].
      split; [rewrite <- app_assoc; reflexivity |].
      destruct raised as [[e | e] |]; [exact Hend | | exact Hend].
      destruct Hend as [before [sheet' [-> Hcall']]].
      exists (sheet :: before), sheet'. split; [reflexivity |].
      rewrite <- app_assoc in Hcall'. exact Hcall'.
Qed.

Lemma gateway_rows_nonempty df id :
  In id (unique String.eqb (map Row.Gateway_ID df)) ->
  filter (fun r => String.eqb (Row.Gateway_ID r) id) df <> [].
Proof.
  intros Hid. apply (proj1 (unique_In String.eqb String.eqb_eq _ _)) in Hid.
  apply in_map_iff in Hid. destruct Hid as [r [Hr Hin]].
  assert (Hf : In r (filter (fun r0 => String.eqb (Row.Gateway_ID r0) id) df))
    by (apply filter_In; split; [assumption | apply String.eqb_eq; assumption]).
  intros E. rewrite E in Hf. destruct Hf.
Qed.

(** The calls of the export on a table that has a row. *)
Lemma export_excel_spec writer df idle_analysis written raised :
  df <> [] ->
  export_excel writer df idle_analysis = (written, raised) ->
  exists sheets not_made,
    Forall2 (sheet_of_gateway df)
            (unique String.eqb (map Row.Gateway_ID df)) sheets /\
    ("Summary", SummaryData idle_analysis) :: sheets = written ++ not_made /\
    export_ended writer written not_made raised.
Proof.
  intros Hdf Hrun. unfold export_excel in Hrun. cbv zeta in Hrun.
  pose proof (sheets_exist df _ (gateway_rows_nonempty df)) as [all HFall].
  destruct (open_workbook writer) as [e |] eqn:Hopen.
  { injection Hrun as <- <-. exists all, (("Summary", SummaryData idle_analysis) :: all).
    split; [exact HFall |]. split; [reflexivity |]. left. auto. }
  destruct (to_excel writer [] ("Summary", SummaryData idle_analysis))
    as [e |] eqn:Hsummary.
  { injection Hrun as <- <-. exists all, all.
    split; [exact HFall |]. split; [reflexivity |].
    right. left. exists [], ("Summary", SummaryData idle_analysis). auto. }
  destruct df as [| r df']; [contradiction |].
  destruct (write_gateway_sheets writer (r :: df')
              (unique String.eqb (map Row.Gateway_ID (r :: df')))
              [("Summary", SummaryData idle_analysis)])
    as [written' raised'] eqn:Hloop.
  destruct (write_gateway_sheets_spec _ _ _ _ _ _
              (gateway_rows_nonempty (r :: df')) Hloop)
    as [sheets [made [not_made [HF [-> [-> Hend]]]]]].
  exists (made ++ not_made).
  destruct raised' as [[e | e] |].
  - destruct Hend.
  - injection Hrun as <- <-. exists not_made.
    split; [exact HF |]. split; [reflexivity |].
    destruct Hend as [before [sheet [-> Hcall]]].
    right. left.
    exists (("Summary", SummaryData idle_analysis) :: before), sheet.
    split; [reflexivity | exact Hcall].
  - subst not_made.
    destruct (save_workbook writer _) as [e |] eqn:Hsave;
      injection Hrun as <- <-; exists [];
      (split; [exact HF |]); (split; [reflexivity |]).
    + right. right. auto.
    + reflexivity.
Qed.



(** Grouping rows by a key that takes each of the listed values once
    neither loses nor repeats a row. *)
Lemma group_by_key_Permutation {R} (key : R -> string) (keys : list string)
    (rows : list R) :
  NoDup keys -> (forall r, In r rows -> In (key r) keys) ->
  Permutation
    (flat_map (fun k => filter (fun r => String.eqb (key r) k) rows) keys)
    rows.
Proof.
  intros Hnd. induction rows as [| r rows IH]; intros Hkeys.
  - induction keys as [| k keys IHk]; [constructor |].
    simpl. inversion Hnd; subst. apply IHk; [assumption | intros r []].
  - assert (Hstep : forall ks, NoDup ks -> In (key r) ks ->
      Permutation
        (flat_map (fun k => filter (fun r0 => String.eqb (key r0) k)
                                   (r :: rows)) ks)
        (r :: flat_map (fun k => filter (fun r0 => String.eqb (key r0) k)
                                        rows) ks)).
    { clear IH Hkeys Hnd.
      induction ks as [| k ks IHk]; intros Hnd Hin; [destruct Hin |].
      inversion Hnd as [| k' ks' Hnotin Hnd']; subst.
      cbn [flat_map].
      assert (Hf : forall k0,
        filter (fun r0 => String.eqb (key r0) k0) (r :: rows)
        = if String.eqb (key r) k0
          then r :: filter (fun r0 => String.eqb (key r0) k0) rows
          else filter (fun r0 => String.eqb (key r0) k0) rows)
        by reflexivity.
      rewrite (Hf k). destruct (String.eqb (key r) k) eqn:E.
      - apply String.eqb_eq in E. subst k. cbn [app]. constructor.
        apply Permutation_app_head.
        assert (Hsame : forall ks0, ~ In (key r) ks0 ->
          flat_map (fun k => filter (fun r0 => String.eqb (key r0) k)
                                    (r :: rows)) ks0
          = flat_map (fun k => filter (fun r0 => String.eqb (key r0) k)
                                      rows) ks0).
        { induction ks0 as [| k0 ks0 IH0]; intros Hn; [reflexivity |].
          cbn [flat_map]. rewrite (Hf k0).
          destruct (String.eqb (key r) k0) eqn:E0.
          - apply String.eqb_eq in E0. exfalso. apply Hn. left. auto.
          - rewrite IH0; [reflexivity |]. intros H. apply Hn. right. auto. }
        rewrite Hsame by assumption. apply Permutation_refl.
      - destruct Hin as [-> | Hin];
          [rewrite String.eqb_refl in E; discriminate |].
        eapply Permutation_trans;
          [apply Permutation_app_head; apply IHk; assumption |].
        apply Permutation_sym, Permutation_middle. }
    eapply Permutation_trans;
      [apply Hstep; [assumption | apply Hkeys; left; reflexivity] |].
    constructor. apply IH. intros r0 Hr0. apply Hkeys. right. assumption.
Qed.

Lemma Forall2_flat_map {A B R} (P : A -> B -> Prop) (f : A -> list R)
    (g : B -> list R) l1 l2 :
  Forall2 P l1 l2 -> (forall a b, P a b -> g b = f a) ->
  flat_map g l2 = flat_map f l1.
Proof.
  intros HF Hfg. induction HF as [| a b l1 l2 HP HF IH]; [reflexivity |].
  simpl. rewrite (Hfg a b HP), IH. reflexivity.
Qed.

(** An export that raised nothing made all its calls. *)
Lemma export_excel_done writer df idle_analysis written :
  export_excel writer df idle_analysis = (written, None) ->
  df <> [] /\
  exists sheets,
    written = ("Summary", SummaryData idle_analysis) :: sheets /\
    Forall2 (sheet_of_gateway df)
            (unique String.eqb (map Row.Gateway_ID df)) sheets.
Proof.
  intros Hrun.
  assert (Hdf : df <> []).
  { intros ->. unfold export_excel in Hrun.
    destruct (open_workbook writer); [discriminate Hrun |].
    destruct (to_excel writer [] _); discriminate Hrun. }
  split; [exact Hdf |].
  destruct (export_excel_spec _ _ _ _ _ Hdf Hrun)
    as [sheets [not_made [HF [Hsplit Hend]]]].
  cbn [export_ended] in Hend. subst not_made. rewrite app_nil_r in Hsplit.
  exists sheets. auto.
Qed.

Lemma sheet_of_gateway_rows df id sheet :
  sheet_of_gateway df id sheet ->
  rows_written sheet
  = filter (fun r => String.eqb (Row.Gateway_ID r) id) df.
Proof.
  intros [row0 [rest [Hf [Hdata _]]]]. unfold rows_written.
  rewrite Hdata. symmetry. exact Hf.
Qed.

Lemma sheets_Permutation df sheets :
  Forall2 (sheet_of_gateway df)
          (unique String.eqb (map Row.Gateway_ID df)) sheets ->
  Permutation (flat_map rows_written sheets) df.
Proof.
  intros HF.
  rewrite (Forall2_flat_map _
             (fun id => filter (fun r => String.eqb (Row.Gateway_ID r) id) df)
             rows_written _ _ HF).
  - apply group_by_key_Permutation;
      [apply (unique_NoDup String.eqb String.eqb_eq) |].
    intros r Hr. apply (proj2 (unique_In String.eqb String.eqb_eq _ _)).
    apply in_map. assumption.
  - intros id sheet. apply sheet_of_gateway_rows.
Qed.

(** The rows passed to [to_excel] by an export that raised nothing
    partition the table: put end to end they are the rows of the table,
    each once; the rows of one call have one [Gateway_ID], and no two
    calls have rows of the same.  Nothing is said of the sheets they end
    in: two calls may bear the same name. *)
Theorem export_excel_partition writer df idle_analysis written :
  export_excel writer df idle_analysis = (written, None) ->
  Permutation (flat_map rows_written written) df /\
  Forall (fun sheet =>
            forall r1 r2,
              In r1 (rows_written sheet) -> In r2 (rows_written sheet) ->
              Row.Gateway_ID r1 = Row.Gateway_ID r2) written /\
  (forall i j sheet1 sheet2 r1 r2,
      nth_error written i = Some sheet1 ->
      nth_error written j = Some sheet2 ->
      In r1 (rows_written sheet1) -> In r2 (rows_written sheet2) ->
      Row.Gateway_ID r1 = Row.Gateway_ID r2 -> i = j).
Proof.
  intros Hrun.
  destruct (export_excel_done _ _ _ _ Hrun) as [Hdf [sheets [-> HF]]].
  pose proof (unique_NoDup String.eqb String.eqb_eq (map Row.Gateway_ID df))
    as Hnd.
  assert (Hid : forall id sheet r,
    sheet_of_gateway df id sheet -> In r (rows_written sheet) ->
    Row.Gateway_ID r = id).
  { intros id sheet r Hs Hr. rewrite (sheet_of_gateway_rows _ _ _ Hs) in Hr.
    apply filter_In in Hr. destruct Hr as [_ Hr].
    apply String.eqb_eq in Hr. exact Hr. }
  split; [| split].
  - cbn [flat_map rows_written snd app]. apply sheets_Permutation. exact HF.
  - constructor; [intros r1 r2 [] |].
    apply Forall_forall. intros sheet Hsheet r1 r2 H1 H2.
    destruct (Forall2_In_r _ _ _ _ HF Hsheet) as [id [_ Hs]].
    rewrite (Hid _ _ _ Hs H1), (Hid _ _ _ Hs H2). reflexivity.
  - assert (Hnth : forall k sheet r,
      nth_error sheets k = Some sheet -> In r (rows_written sheet) ->
      nth_error (unique String.eqb (map Row.Gateway_ID df)) k
      = Some (Row.Gateway_ID r)).
    { clear -HF Hid. induction HF as [| id sh ids shs HP HF IH];
        intros k sheet r Hk Hr; [destruct k; discriminate |].
      destruct k as [| k].
      - simpl in Hk. injection Hk as <-. simpl.
        rewrite (Hid _ _ _ HP Hr). reflexivity.
      - simpl in Hk. simpl. eapply IH; eassumption. }
    intros i j sheet1 sheet2 r1 r2 Hi Hj H1 H2 E.
    destruct i as [| i]; [injection Hi as <-; destruct H1 |].
    destruct j as [| j]; [injection Hj as <-; destruct H2 |].
    cbn [nth_error] in Hi, Hj. f_equal.
    pose proof (Hnth i sheet1 r1 Hi H1) as Ei.
    pose proof (Hnth j sheet2 r2 Hj H2) as Ej.
    rewrite E in Ei.
    eapply NoDup_nth_error; [exact Hnd | | congruence].
    apply nth_error_Some. rewrite Ei. discriminate.
Qed.

Lemma export_excel_partition_witness :
  exists written,
    export_excel plain_writer example_table [] = (written, None) /\
    Permutation (flat_map rows_written written) example_table.
Proof.
  destruct (export_excel plain_writer example_table [])
    as [written [e |]] eqn:Hrun;
    [vm_compute in Hrun; discriminate |].
  exists written. split; [reflexivity |].
  exact (proj1 (export_excel_partition plain_writer example_table []
                  written Hrun)).
Defined.

(** ** Column widths *)

Lemma max_len_fold col m0 :
  0 <= m0 ->
  let m := fold_left (fun m cell =>
                        match cell with
                        | Some text => Z.max m (Z.of_nat (String.length text))
                        | None => m
                        end) col m0 in
  m0 <= m /\
  (forall text, In (Some text) col -> Z.of_nat (String.length text) <= m) /\
  (m = m0 \/ exists text, In (Some text) col /\
                          m = Z.of_nat (String.length text)).
Proof.
  revert m0. induction col as [| cell col IH]; intros m0 H0; cbn zeta.
  - simpl. split; [lia |]. split; [intros text [] | left; reflexivity].
  - cbn [fold_left].
    set (m1 := match cell with
               | Some text => Z.max m0 (Z.of_nat (String.length text))
               | None => m0
               end).
    assert (H1 : m0 <= m1) by (subst m1; destruct cell; lia).
    destruct (IH m1) as [Hle [Hall Hmax]]; [lia |].
    split; [lia |]. split.
    + intros text [-> | Hin]; [subst m1; lia | auto].
    + destruct Hmax as [-> | [text [Hin ->]]].
      * subst m1. destruct cell as [text |]; [| left; reflexivity].
        destruct (Z.max_spec m0 (Z.of_nat (String.length text)))
          as [[_ ->] | [_ ->]]; [| left; reflexivity].
        right. exists text. split; [left; reflexivity | reflexivity].
      * right. exists text. split; [right; assumption | reflexivity].
Qed.

(** A column is given a width from 2 to 50: two more than its longest
    cell when that is at most 50, so that every cell of at most 48
    characters fits with two to spare; 2 for a column without text. *)
Theorem column_width_bounds col :
  2 <= column_width col <= 50 /\
  (forall text, In (Some text) col ->
     Z.min (Z.of_nat (String.length text) + 2) 50 <= column_width col) /\
  ((forall cell, In cell col -> cell = None) -> column_width col = 2) /\
  (column_width col = 2 \/
   exists text, In (Some text) col /\
     column_width col = Z.min (Z.of_nat (String.length text) + 2) 50).
Proof.
  unfold column_width, max_len.
  destruct (max_len_fold col 0 (Z.le_refl 0)) as [H0 [Hall Hmax]].
  cbv zeta in *. split; [lia |]. split; [| split].
  - intros text Hin. specialize (Hall text Hin). lia.
  - intros Hnone. destruct Hmax as [-> | [text [Hin _]]]; [reflexivity |].
    specialize (Hnone _ Hin). discriminate.
  - destruct Hmax as [-> | [text [Hin ->]]]; [left; reflexivity |].
    right. exists text. auto.
Qed.

(** ** The run *)

Lemma raised_det cw c e1 e2 : raised cw c e1 -> raised cw c e2 -> e1 = e2.
Proof. destruct c; simpl; congruence. Qed.

(** In a run that stops at its failure, a call that raises is the last. *)
Lemma stops_at_failure_last {A} cw (run : Traced A) :
  stops_at_failure cw run ->
  forall before c after,
    snd run = before ++ c :: after ->
    (after <> [] -> answered cw c) /\
    (forall e, raised cw c e -> after = [] /\ fst run = inl e).
Proof.
  unfold stops_at_failure. intros Hrun before c after Hlog.
  assert (Hlater : after <> [] ->
                   forall answered_calls last_call,
                     snd run = answered_calls ++ [last_call] ->
                     In c answered_calls).
  { intros Hafter answered_calls last_call Hlast.
    destruct (exists_last Hafter) as [after' [z ->]].
    rewrite Hlog in Hlast.
    change (before ++ c :: after' ++ [z])
      with (before ++ (c :: after') ++ [z]) in Hlast.
    rewrite app_assoc in Hlast. apply app_inj_tail in Hlast.
    destruct Hlast as [<- _]. apply in_or_app. right. left. reflexivity. }
  destruct (fst run) as [e0 | a].
  - destruct Hrun as [answered_calls [last_call [Hlast [Hall Hraised]]]].
    rewrite Forall_forall in Hall. split.
    + intros Hafter. apply Hall. eapply Hlater; eassumption.
    + intros e He. destruct after as [| c' after].
      * split; [reflexivity |]. rewrite Hlog in Hlast.
        apply app_inj_tail in Hlast. destruct Hlast as [_ ->].
        f_equal. eapply raised_det; eassumption.
      * exfalso. apply (Hall c) with (e := e); [| exact He].
        eapply Hlater; [discriminate | eassumption].
  - rewrite Forall_forall in Hrun.
    assert (Hc : answered cw c).
    { apply Hrun. rewrite Hlog. apply in_or_app. right. left. reflexivity. }
    split; [intros _; exact Hc |].
    intros e He. exfalso. exact (Hc e He).
Qed.

(** A CloudWatch call that raises is the last call of the collector,
    which then raises the exception of that call: every call that is
    followed by another was answered.  [main] makes the calls of the
    collector and no other, and raises what the collector raises. *)
Theorem cloudwatch_failure_ends_run
    cw ec2 writer region account_id now days :
  let collected := collect_metrics cw ec2 region account_id now days in
  let run := main cw ec2 writer region account_id now days in
  (forall before c after,
      snd collected = before ++ c :: after ->
      (after <> [] -> answered cw c) /\
      (forall e, raised cw c e -> after = [] /\ fst collected = inl e)) /\
  snd run = snd collected /\
  (forall e, fst collected = inl e -> fst run = inl (inl e)).
Proof.
  cbv zeta. split; [| split].
  - apply stops_at_failure_last. apply collect_metrics_stops.
  - unfold main.
    destruct (collect_metrics cw ec2 region account_id now days)
      as [[e | [| r df]] log]; [reflexivity | reflexivity |].
    destruct (analyze_idle_time (r :: df) account_id region);
      [reflexivity |].
    destruct (export_excel writer (r :: df) _) as [written [e |]];
      reflexivity.
  - intros e He. unfold main.
    destruct (collect_metrics cw ec2 region account_id now days)
      as [collected log].
    cbn [fst] in He. subst collected. reflexivity.
Qed.

(** With [failing_cloudwatch] and a NAT Gateway listed, the run raises at
    its first call. *)
Lemma cloudwatch_failure_ends_run_witness :
  exists e c,
    main failing_cloudwatch example_ec2 plain_writer "us-east-1"
         "123456789012" example_now 90 = (inl (inl e), [c]) /\
    raised failing_cloudwatch c e.
Proof.
  destruct (cloudwatch_failure_ends_run failing_cloudwatch example_ec2
              plain_writer "us-east-1" "123456789012" example_now 90)
    as [_ [Hlog Hexn]].
  assert (Hrun :
    collect_metrics failing_cloudwatch example_ec2 "us-east-1"
                    "123456789012" example_now 90
    = (inl (ClientError "Throttling"),
       [GetMetricStatistics "AWS/NATGateway" "BytesInFromDestination"
          (nat_dimensions "nat-1") (example_now - timedelta_days 90)
          (Z.min (example_now - timedelta_days 90 + chunk_size) example_now)
          PERIOD_SECONDS])).
  { unfold collect_metrics. cbv zeta. cbn [example_ec2
      paginate_nat_gateways for_each NAT_METRICS].
    unfold collect_nat_metric at 1. unfold get_metric_data_chunked.
    rewrite get_metric_data_loop_eq.
    destruct (Z_lt_dec (example_now - timedelta_days 90) example_now)
      as [_ | Hn]; [reflexivity | exfalso; apply Hn; reflexivity]. }
  rewrite Hrun in Hlog, Hexn. cbn [fst snd] in Hlog, Hexn.
  specialize (Hexn _ eq_refl).
  eexists _, _. split.
  - rewrite (surjective_pairing (main _ _ _ _ _ _ _)), Hlog, Hexn.
    reflexivity.
  - reflexivity.
Defined.

Lemma main_inr cw ec2 writer region account_id now days outcome log :
  main cw ec2 writer region account_id now days = (inr outcome, log) ->
  exists df,
    collect_metrics cw ec2 region account_id now days = (inr df, log) /\
    match outcome with
    | NoData => df = []
    | Report df' idle_analysis written =>
        df' = df /\ df <> [] /\
        analyze_idle_time df account_id region = inr idle_analysis /\
        export_excel writer df idle_analysis = (written, None)
    end.
Proof.
  unfold main.
  destruct (collect_metrics cw ec2 region account_id now days)
    as [[e | [| r df]] log'].
  - discriminate.
  - intros H. injection H as <- <-. exists []. auto.
  - destruct (analyze_idle_time (r :: df) account_id region)
      as [e | idle_analysis] eqn:Han; [discriminate |].
    destruct (export_excel writer (r :: df) idle_analysis)
      as [written [e |]] eqn:Hexport; [discriminate |].
    intros H. injection H as <- <-. exists (r :: df).
    split; [reflexivity |]. split; [reflexivity |].
    split; [discriminate |]. auto.
Qed.

(** [plain_writer] lets every export through. *)
Lemma plain_writer_exports df idle_analysis :
  df <> [] ->
  exists written,
    export_excel plain_writer df idle_analysis = (written, None).
Proof.
  intros Hdf.
  destruct (export_excel plain_writer df idle_analysis)
    as [written raised] eqn:Hrun.
  destruct (export_excel_spec _ _ _ _ _ Hdf Hrun)
    as [sheets [not_made [_ [_ Hend]]]].
  destruct raised as [[e | e] |]; [destruct Hend | | eauto].
  destruct Hend as [[_ H] | [[before [sheet [_ H]]] | [_ H]]];
    discriminate H.
Qed.

(** With a client and a writer that never raise, [main] returns. *)
Lemma main_total cw ec2 region account_id now days :
  never_raises cw ->
  exists outcome log,
    main cw ec2 plain_writer region account_id now days
    = (inr outcome, log).
Proof.
  intros Hcw. unfold main.
  destruct (collect_metrics_total cw ec2 region account_id now days Hcw)
    as [df [log Hcollect]].
  rewrite Hcollect. destruct df as [| r df].
  - eexists _, _. reflexivity.
  - destruct (analyze_idle_time_inr (r :: df) account_id region)
      as [nss [iss [Han _]]]; [discriminate |].
    destruct (plain_writer_exports (r :: df) (nss ++ iss))
      as [written Hexport]; [discriminate |].
    rewrite Han, Hexport. eexists _, _. reflexivity.
Qed.

(** [main] finds no data only when no Internet Gateway is listed.  When
    it makes a report, the analysis has a summary for every listed
    Internet Gateway, and the export has passed to [to_excel] the summary
    first and, for every gateway that has a summary, the rows of the
    table with its [Gateway_ID]. *)
Theorem main_report cw ec2 writer region account_id now days outcome log :
  main cw ec2 writer region account_id now days = (inr outcome, log) ->
  match outcome with
  | NoData => paginate_internet_gateways ec2 = []
  | Report df idle_analysis written =>
      (forall igw, In igw (paginate_internet_gateways ec2) ->
         exists s, In s idle_analysis /\
                   Summary.Gateway_Type s = "IGW" /\
                   Summary.Gateway_ID s = gateway_id igw) /\
      (exists sheets,
          written = ("Summary", SummaryData idle_analysis) :: sheets) /\
      (forall s, In s idle_analysis ->
         exists sheet,
           In sheet written /\
           rows_written sheet
           = filter (fun r => String.eqb (Row.Gateway_ID r)
                                         (Summary.Gateway_ID s)) df /\
           rows_written sheet <> [])
  end.
Proof.
  intros Hrun.
  destruct (main_inr _ _ _ _ _ _ _ _ _ Hrun) as [df [Hcollect Hout]].
  assert (Hrows : forall igw, In igw (paginate_internet_gateways ec2) ->
                    In (gateway_id igw) (gateways_of df "IGW")).
  { intros igw Higw.
    destruct (collect_metrics_igw_rows _ _ _ _ _ _ _ _ igw
                "BytesInFromDestination" Hcollect Higw (or_introl eq_refl))
      as [rows [[Hne [Hall _]] Hincl]].
    destruct rows as [| r rows]; [contradiction |].
    inversion Hall as [| r' rows' [Ht [Hid _]] _]; subst.
    apply gateways_of_In. exists r. split; [| auto].
    apply Hincl. left. reflexivity. }
  destruct outcome as [| df' idle written].
  - subst df. destruct (paginate_internet_gateways ec2) as [| igw igws];
      [reflexivity |].
    specialize (Hrows igw (or_introl eq_refl)).
    apply gateways_of_In in Hrows. destruct Hrows as [r [[] _]].
  - destruct Hout as [-> [Hdf [Han Hexport]]].
    destruct (export_excel_done _ _ _ _ Hexport) as [_ [sheets [-> HF]]].
    split; [| split].
    + intros igw Higw.
      destruct (analyze_idle_time_gateway df account_id region _ "IGW"
                  IGW_METRICS (gateway_id igw) Han)
        as [row0 [s [Hs [_ Hsum]]]];
        [right; left; reflexivity | apply Hrows; assumption |].
      apply summarize_gateway in Hsum. exists s. tauto.
    + exists sheets. reflexivity.
    + intros s Hs.
      destruct (analyze_idle_time_In _ _ _ _ _ Han Hs)
        as [ty [metrics [id [row0 [_ [Hgw [_ Hsum]]]]]]].
      apply summarize_gateway in Hsum. destruct Hsum as [_ ->].
      apply gateways_of_In in Hgw. destruct Hgw as [r [Hr [_ Hrid]]].
      assert (Hid : In id (unique String.eqb (map Row.Gateway_ID df))).
      { apply (proj2 (unique_In String.eqb String.eqb_eq _ _)).
        rewrite <- Hrid. apply in_map. exact Hr. }
      destruct (Forall2_In_l _ _ _ _ HF Hid) as [sheet [Hsheet Hof]].
      exists sheet. split; [right; exact Hsheet |].
      split; [apply sheet_of_gateway_rows; exact Hof |].
      destruct Hof as [r0 [rest [_ [Hdata _]]]].
      unfold rows_written. rewrite Hdata. discriminate.
Qed.

Lemma main_report_witness :
  exists df idle_analysis written log s,
    main quiet_cloudwatch example_ec2 plain_writer "us-east-1"
         "123456789012" example_now 90
    = (inr (Report df idle_analysis written), log) /\
    In s idle_analysis /\ Summary.Gateway_ID s = "igw-1".
Proof.
  destruct (main_total quiet_cloudwatch example_ec2 "us-east-1"
              "123456789012" example_now 90 quiet_cloudwatch_never_raises)
    as [outcome [log Hrun]].
  pose proof (main_report _ _ _ _ _ _ _ _ _ Hrun) as H.
  destruct outcome as [| df idle written]; [discriminate H |].
  destruct H as [Higw _].
  destruct (Higw igw_1 (or_introl eq_refl)) as [s [Hs [_ Hid]]].
  exists df, idle, written, log, s. auto.
Defined.

(** ** More on the summaries *)

(** [Total_Periods] is the number of distinct timestamps of the rows of
    the gateway, all metrics together: a timestamp that several metrics
    report counts once. *)
Theorem total_periods_counts_timestamps df account_id region summaries s :
  analyze_idle_time df account_id region = inr summaries ->
  In s summaries ->
  exists ts,
    NoDup ts /\
    (forall t, In t ts <->
               observed_at df (Summary.Gateway_Type s)
                           (Summary.Gateway_ID s) t) /\
    Summary.Total_Periods s = len ts /\
    (forall ts',
        NoDup ts' ->
        (forall t, In t ts' <->
                   observed_at df (Summary.Gateway_Type s)
                               (Summary.Gateway_ID s) t) ->
        Summary.Total_Periods s = len ts').
Proof.
  intros Hrun Hin.
  destruct (analyze_idle_time_In _ _ _ _ _ Hrun Hin)
    as [ty [metrics [id [row0 [_ [_ [_ Hs]]]]]]].
  rewrite summarize_eq in Hs. injection Hs as <-. cbn.
  exists (unique Z.eqb (map Row.Timestamp (rows_of df ty id))).
  split; [apply (unique_NoDup Z.eqb Z.eqb_eq) |].
  assert (Hts : forall t,
    In t (unique Z.eqb (map Row.Timestamp (rows_of df ty id)))
    <-> observed_at df ty id t).
  { intros t. rewrite (unique_In Z.eqb Z.eqb_eq), in_map_iff.
    unfold observed_at. split.
    - intros [r [Ht Hr]]. apply rows_of_In in Hr. exists r. tauto.
    - intros [r [Hr [Hty [Hid Ht]]]]. exists r. split; [assumption |].
      apply rows_of_In. auto. }
  split; [exact Hts |]. split; [reflexivity |].
  intros ts' Hnd Hts'. unfold len. f_equal. apply NoDup_same_length.
  - apply (unique_NoDup Z.eqb Z.eqb_eq).
  - exact Hnd.
  - intros t. rewrite Hts, Hts'. reflexivity.
Qed.

Lemma total_periods_counts_timestamps_witness :
  exists summaries s (ts : list datetime),
    analyze_idle_time example_table "123456789012" "us-east-1"
    = inr summaries /\
    In s summaries /\ NoDup ts /\ Summary.Total_Periods s = len ts.
Proof.
  destruct (analyze_idle_time example_table "123456789012" "us-east-1")
    as [e | [| s rest]] eqn:Hrun;
    [vm_compute in Hrun; discriminate | vm_compute in Hrun; discriminate |].
  destruct (total_periods_counts_timestamps example_table "123456789012"
              "us-east-1" (s :: rest) s Hrun (or_introl eq_refl))
    as [ts [Hnd [_ [Hlen _]]]].
  exists (s :: rest), s, ts. split; [reflexivity |].
  split; [left; reflexivity |]. auto.
Defined.

Lemma Forall2_map_eq {A B C} (P : A -> B -> Prop) (f : A -> C) (g : B -> C)
    l1 l2 :
  Forall2 P l1 l2 -> (forall a b, P a b -> g b = f a) ->
  map g l2 = map f l1.
Proof.
  intros HF Hfg. induction HF as [| a b l1 l2 HP HF IH]; [reflexivity |].
  simpl. rewrite (Hfg a b HP), IH. reflexivity.
Qed.

Lemma gateway_summary_key df account_id region gateway_type traffic_metrics
    gateway_id s :
  gateway_summary df account_id region gateway_type traffic_metrics
                  gateway_id = inr s ->
  summary_key s = (gateway_type, gateway_id).
Proof.
  unfold gateway_summary. cbv zeta. intros Hs.
  destruct (iloc0 _) as [e | row0]; [discriminate |]. simpl in Hs.
  apply summarize_gateway in Hs. destruct Hs as [Ht Hid].
  unfold summary_key. congruence.
Qed.

(** The analysis gives one summary per gateway of the table and kind: the
    NAT Gateways in order of first appearance, then the Internet
    Gateways; no gateway has two summaries. *)
Theorem one_summary_per_gateway df account_id region summaries :
  analyze_idle_time df account_id region = inr summaries ->
  map summary_key summaries
  = map (pair "NAT") (gateways_of df "NAT")
    ++ map (pair "IGW") (gateways_of df "IGW") /\
  NoDup (map summary_key summaries).
Proof.
  intros Hrun.
  assert (Hdf : df <> []) by (intros ->; discriminate Hrun).
  destruct (analyze_idle_time_inr df account_id region Hdf)
    as [nss [iss [Hrun' [HFn HFi]]]].
  rewrite Hrun' in Hrun. injection Hrun as <-.
  assert (Hkeys :
    map summary_key (nss ++ iss)
    = map (pair "NAT") (gateways_of df "NAT")
      ++ map (pair "IGW") (gateways_of df "IGW")).
  { rewrite map_app. f_equal.
    - eapply Forall2_map_eq; [exact HFn |].
      intros id s Hs. eapply gateway_summary_key. exact Hs.
    - eapply Forall2_map_eq; [exact HFi |].
      intros id s Hs. eapply gateway_summary_key. exact Hs. }
  split; [exact Hkeys |]. rewrite Hkeys.
  apply NoDup_app.
  - apply Finite.Injective_map_NoDup;
      [intros x y H; injection H; auto
      | apply (unique_NoDup String.eqb String.eqb_eq)].
  - apply Finite.Injective_map_NoDup;
      [intros x y H; injection H; auto
      | apply (unique_NoDup String.eqb String.eqb_eq)].
  - intros k Hn Hi. apply in_map_iff in Hn, Hi.
    destruct Hn as [x [<- _]]. destruct Hi as [y [Hy _]]. discriminate Hy.
Qed.

Lemma one_summary_per_gateway_witness :
  exists summaries,
    analyze_idle_time example_table "123456789012" "us-east-1"
    = inr summaries /\
    map summary_key summaries = [("NAT", "nat-1"); ("IGW", "igw-1")].
Proof.
  destruct (analyze_idle_time example_table "123456789012" "us-east-1")
    as [e | summaries] eqn:Hrun; [vm_compute in Hrun; discriminate |].
  exists summaries. split; [reflexivity |].
  rewrite (proj1 (one_summary_per_gateway example_table "123456789012"
                    "us-east-1" summaries Hrun)).
  reflexivity.
Defined.

Lemma fold_left_Qplus (l : list Q) (a : Q) :
  (fold_left Qplus l a == a + fold_left Qplus l 0)%Q.
Proof.
  revert a. induction l as [| y l IH]; intros a; simpl.
  - ring.
  - rewrite (IH (a + y)%Q), (IH (0 + y)%Q). ring.
Qed.

Lemma series_sum_cons (x : Q) (l : list Q) :
  (series_sum (x :: l) == x + series_sum l)%Q.
Proof.
  unfold series_sum. simpl. rewrite fold_left_Qplus. ring.
Qed.

Lemma series_sum_all_zero (l : list Q) :
  Forall (fun q => q == 0)%Q l -> (series_sum l == 0)%Q.
Proof.
  induction 1 as [| q l Hq Hall IH]; [reflexivity |].
  rewrite series_sum_cons, Hq, IH. ring.
Qed.

(** Rounding a value that is an integer gives that integer. *)
Lemma round_half_even_integer (q : Q) (z : Z) :
  (q == inject_Z z)%Q -> round_half_even q = z.
Proof.
  intros Hq. unfold round_half_even.
  rewrite (Qfloor_comp _ _ Hq), Qfloor_Z.
  destruct (Qcompare_spec (q - inject_Z z) (1 # 2)) as [H | H | H];
    [exfalso; lra | reflexivity | exfalso; lra].
Qed.

Lemma round2_hundredths (q : Q) (z : Z) :
  (q * 100 == inject_Z z)%Q -> (round2 q == inject_Z z / 100)%Q.
Proof.
  intros Hq. unfold round2. rewrite (round_half_even_integer _ _ Hq).
  reflexivity.
Qed.

Lemma round2_zero (q : Q) : (q == 0)%Q -> (round2 q == 0)%Q.
Proof.
  intros Hq. rewrite (round2_hundredths q 0).
  - reflexivity.
  - rewrite Hq. reflexivity.
Qed.

Lemma sum_of_metric_all_zero gw metric :
  forallb (fun r => Qeq_bool (Row.Sum r) 0) gw = true ->
  (sum_of_metric gw metric == 0)%Q.
Proof.
  intros Hall. rewrite forallb_forall in Hall.
  unfold sum_of_metric. apply series_sum_all_zero.
  apply Forall_map. apply Forall_forall. intros r Hr.
  apply filter_In in Hr. destruct Hr as [Hr _].
  apply Qeq_bool_iff. apply Hall. assumption.
Qed.

Lemma summarize_inactive account_id region ty traffic_metrics id gw row0 s :
  summarize account_id region ty traffic_metrics id gw row0 = inr s ->
  Summary.status s = Some "Inactive" ->
  String.eqb ty "NAT" = false /\
  forallb (fun r => Qeq_bool (Row.Sum r) 0) gw = true.
Proof.
  intros Hs Hstatus. rewrite summarize_eq in Hs. cbv zeta in Hs.
  injection Hs as <-. unfold Summary.status in Hstatus.
  cbn [Summary.of_kind] in Hstatus.
  destruct (String.eqb ty "NAT"); [discriminate Hstatus |].
  split; [reflexivity |]. cbn in Hstatus.
  destruct (forallb _ gw); [reflexivity | discriminate Hstatus].
Qed.

Lemma summarize_no_traffic account_id region ty traffic_metrics id gw row0 s :
  summarize account_id region ty traffic_metrics id gw row0 = inr s ->
  String.eqb ty "NAT" = false ->
  forallb (fun r => Qeq_bool (Row.Sum r) 0) gw = true ->
  no_traffic s.
Proof.
  intros Hs Hty Hall. rewrite summarize_eq in Hs. cbv zeta in Hs.
  injection Hs as <-. rewrite Hty.
  assert (Hz : forall m, (sum_of_metric gw m == 0)%Q)
    by (intros m; apply sum_of_metric_all_zero; exact Hall).
  unfold no_traffic. cbn.
  repeat match goal with
         | |- _ /\ _ => split
         end; try apply Hz.
  - intros i Hi. injection Hi as <-. cbn. repeat split; apply Hz.
  - rewrite !Hz. reflexivity.
  - rewrite !Hz. reflexivity.
  - apply round2_zero. rewrite !Hz. unfold Qdiv. ring.
  - apply round2_zero. rewrite !Hz. unfold Qdiv. ring.
Qed.

Lemma summarize_status account_id region ty traffic_metrics id gw row0 s :
  summarize account_id region ty traffic_metrics id gw row0 = inr s ->
  if String.eqb ty "NAT" then Summary.status s = None
  else Summary.status s = Some "Active" \/
       Summary.status s = Some "Inactive".
Proof.
  intros Hs. rewrite summarize_eq in Hs. cbv zeta in Hs.
  injection Hs as <-. unfold Summary.status. cbn [Summary.of_kind].
  destruct (String.eqb ty "NAT"); [reflexivity |]. cbn.
  destruct (forallb _ gw); [right | left]; reflexivity.
Qed.

(** Only the summary of an Internet Gateway has a [Status]: that of a NAT
    Gateway has none, and that of an Internet Gateway is ["Active"] or
    ["Inactive"].  An Internet Gateway that is ["Inactive"] shows no
    traffic: its grouped sums, its totals and its per-second rates are
    all zero. *)
Theorem inactive_igw_no_traffic df account_id region summaries s :
  analyze_idle_time df account_id region = inr summaries ->
  In s summaries ->
  ((Summary.Gateway_Type s = "NAT" /\ Summary.status s = None) \/
   (Summary.Gateway_Type s = "IGW" /\
    (Summary.status s = Some "Active" \/
     Summary.status s = Some "Inactive"))) /\
  (Summary.status s = Some "Inactive" ->
   Summary.Gateway_Type s = "IGW" /\ no_traffic s).
Proof.
  intros Hrun Hin.
  destruct (analyze_idle_time_In _ _ _ _ _ Hrun Hin)
    as [ty [metrics [id [row0 [Hkind [_ [_ Hs]]]]]]].
  pose proof (summarize_status _ _ _ _ _ _ _ _ Hs) as Hst.
  destruct (summarize_gateway _ _ _ _ _ _ _ _ Hs) as [Hty _].
  split.
  - rewrite Hty.
    destruct Hkind as [E | [E | []]]; injection E as <- _;
      [left | right]; split; [reflexivity | exact Hst | reflexivity
                             | exact Hst].
  - intros Hstatus.
    destruct (summarize_inactive _ _ _ _ _ _ _ _ Hs Hstatus) as [Hnat Hall].
    split.
    + rewrite Hty.
      destruct Hkind as [E | [E | []]]; injection E as <- _;
        [discriminate Hnat | reflexivity].
    + eapply summarize_no_traffic; eassumption.
Qed.

Lemma inactive_igw_no_traffic_witness :
  exists summaries s,
    analyze_idle_time idle_table "123456789012" "us-east-1" = inr summaries /\
    In s summaries /\
    Summary.status s = Some "Inactive" /\ no_traffic s.
Proof.
  destruct (analyze_idle_time idle_table "123456789012" "us-east-1")
    as [e | [| s rest]] eqn:Hrun;
    [vm_compute in Hrun; discriminate | vm_compute in Hrun; discriminate |].
  assert (Hstatus : Summary.status s = Some "Inactive").
  { pose proof Hrun as H. vm_compute in H. injection H as H _.
    rewrite <- H. reflexivity. }
  exists (s :: rest), s. split; [reflexivity |].
  split; [left; reflexivity |]. split; [exact Hstatus |].
  exact (proj2 (proj2 (inactive_igw_no_traffic idle_table "123456789012"
                         "us-east-1" (s :: rest) s Hrun (or_introl eq_refl))
                      Hstatus)).
Defined.

(** The sum over two metrics is the sum of the sums over each. *)
Lemma sum_of_metrics_pair gw a b :
  a <> b ->
  (sum_of_metrics gw [a; b] == sum_of_metric gw a + sum_of_metric gw b)%Q.
Proof.
  intros Hab. unfold sum_of_metrics, sum_of_metric.
  induction gw as [| r gw IH]; [reflexivity |].
  cbn [filter isin existsb].
  destruct (String.eqb (Row.Metric r) a) eqn:Ea;
    destruct (String.eqb (Row.Metric r) b) eqn:Eb; cbn [orb map].
  - apply String.eqb_eq in Ea, Eb. congruence.
  - rewrite !series_sum_cons, IH. ring.
  - rewrite !series_sum_cons, IH. ring.
  - exact IH.
Qed.

(** For a NAT Gateway each grouped sum is the sum of the "source" metric
    and of the "destination" metric, and [Total_Bytes] and
    [Total_Packets] are the sums of their four metrics. *)
Theorem nat_sums_merge_source_and_destination
    df account_id region summaries s :
  analyze_idle_time df account_id region = inr summaries ->
  In s summaries ->
  Summary.Gateway_Type s = "NAT" ->
  let gw := rows_of df "NAT" (Summary.Gateway_ID s) in
  let k := Summary.of_kind s in
  (Summary.Total_Bytes_In k
   == sum_of_metric gw "BytesInFromSource"
      + sum_of_metric gw "BytesInFromDestination")%Q /\
  (Summary.Total_Bytes_Out k
   == sum_of_metric gw "BytesOutToSource"
      + sum_of_metric gw "BytesOutToDestination")%Q /\
  (Summary.Total_Packets_In k
   == sum_of_metric gw "PacketsInFromSource"
      + sum_of_metric gw "PacketsInFromDestination")%Q /\
  (Summary.Total_Packets_Out k
   == sum_of_metric gw "PacketsOutToSource"
      + sum_of_metric gw "PacketsOutToDestination")%Q /\
  (Summary.Total_Bytes s
   == sum_of_metric gw "BytesInFromSource"
      + sum_of_metric gw "BytesInFromDestination"
      + sum_of_metric gw "BytesOutToSource"
      + sum_of_metric gw "BytesOutToDestination")%Q /\
  (Summary.Total_Packets s
   == sum_of_metric gw "PacketsInFromSource"
      + sum_of_metric gw "PacketsInFromDestination"
      + sum_of_metric gw "PacketsOutToSource"
      + sum_of_metric gw "PacketsOutToDestination")%Q.
Proof.
  intros Hrun Hin Htype.
  destruct (analyze_idle_time_In _ _ _ _ _ Hrun Hin)
    as [ty [metrics [id [row0 [_ [_ [_ Hs]]]]]]].
  rewrite summarize_eq in Hs. injection Hs as <-. cbn in Htype. subst ty.
  cbn.
  pose proof (sum_of_metrics_pair (rows_of df "NAT" id)
                "BytesInFromSource" "BytesInFromDestination") as H1.
  pose proof (sum_of_metrics_pair (rows_of df "NAT" id)
                "BytesOutToSource" "BytesOutToDestination") as H2.
  pose proof (sum_of_metrics_pair (rows_of df "NAT" id)
                "PacketsInFromSource" "PacketsInFromDestination") as H3.
  pose proof (sum_of_metrics_pair (rows_of df "NAT" id)
                "PacketsOutToSource" "PacketsOutToDestination") as H4.
  rewrite H1, H2, H3, H4 by discriminate.
  repeat split; ring.
Qed.

Lemma nat_sums_merge_source_and_destination_witness :
  exists summaries s,
    analyze_idle_time example_table "123456789012" "us-east-1"
    = inr summaries /\
    In s summaries /\
    Summary.Gateway_Type s = "NAT" /\
    (Summary.Total_Bytes_In (Summary.of_kind s)
     == sum_of_metric (rows_of example_table "NAT" (Summary.Gateway_ID s))
                      "BytesInFromSource"
        + sum_of_metric (rows_of example_table "NAT" (Summary.Gateway_ID s))
                        "BytesInFromDestination")%Q.
Proof.
  destruct (analyze_idle_time example_table "123456789012" "us-east-1")
    as [e | [| s rest]] eqn:Hrun;
    [vm_compute in Hrun; discriminate | vm_compute in Hrun; discriminate |].
  assert (Htype : Summary.Gateway_Type s = "NAT").
  { pose proof Hrun as H. vm_compute in H. injection H as H _.
    rewrite <- H. reflexivity. }
  exists (s :: rest), s. split; [reflexivity |].
  split; [left; reflexivity |]. split; [exact Htype |].
  exact (proj1 (nat_sums_merge_source_and_destination example_table
                  "123456789012" "us-east-1" (s :: rest) s Hrun
                  (or_introl eq_refl) Htype)).
Defined.

Lemma series_max_fold (l : list Q) (x : Q) :
  let m := fold_left (fun a b => if Qle_bool a b then b else a) l x in
  (x <= m)%Q /\ (forall y, In y l -> (y <= m)%Q) /\ (m = x \/ In m l).
Proof.
  revert x. induction l as [| b l IH]; intros x; cbn zeta.
  - simpl. split; [lra |]. split; [intros y [] | left; reflexivity].
  - cbn [fold_left]. destruct (Qle_bool x b) eqn:E.
    + apply Qle_bool_iff in E. destruct (IH b) as [Hb [Hall Hin]].
      split; [lra |]. split.
      * intros y [<- | Hy]; [assumption | auto].
      * right. destruct Hin as [-> | Hin]; [left; reflexivity | right; auto].
    + assert (Hlt : (b < x)%Q).
      { apply Qnot_le_lt. intros H. apply Qle_bool_iff in H. congruence. }
      destruct (IH x) as [Hx [Hall Hin]].
      split; [assumption |]. split.
      * intros y [<- | Hy]; [lra | auto].
      * destruct Hin as [-> | Hin]; [left; reflexivity | right; right; auto].
Qed.

Lemma series_sum_ge (l : list Q) (b : Q) :
  (forall y, In y l -> (b <= y)%Q) ->
  (inject_Z (len l) * b <= series_sum l)%Q.
Proof.
  induction l as [| y l IH]; intros Hall.
  - unfold series_sum, len. cbn [fold_left List.length].
    change (inject_Z (Z.of_nat 0)) with 0%Q. lra.
  - rewrite series_sum_cons. unfold len in *. cbn [List.length].
    rewrite Nat2Z.inj_succ. unfold Z.succ. rewrite inject_Z_plus.
    specialize (IH (fun y0 Hy0 => Hall y0 (or_intror Hy0))).
    specialize (Hall y (or_introl eq_refl)).
    change (inject_Z 1) with 1%Q. lra.
Qed.

(** For a NAT Gateway without [ActiveConnectionCount] sample the two
    active-connection figures are 0.  Otherwise the maximum is the
    [Maximum] of one of these samples and at least that of each; the
    average is not negative when no [Average] of them is, and it is the
    [Average] of the sample when there is only one. *)
Theorem nat_active_connections df account_id region summaries s :
  analyze_idle_time df account_id region = inr summaries ->
  In s summaries ->
  Summary.Gateway_Type s = "NAT" ->
  let active :=
    filter (fun r => String.eqb (Row.Metric r) "ActiveConnectionCount")
           (rows_of df "NAT" (Summary.Gateway_ID s)) in
  exists n,
    Summary.specific (Summary.of_kind s) = inl n /\
    (active = [] ->
     Summary.Max_Active_Connections n = 0%Q /\
     Summary.Avg_Active_Connections n = 0%Q) /\
    (active <> [] ->
     (forall r, In r active ->
        (Row.Maximum r <= Summary.Max_Active_Connections n)%Q) /\
     (exists r, In r active /\
        Summary.Max_Active_Connections n = Row.Maximum r) /\
     ((forall r, In r active -> (0 <= Row.Average r)%Q) ->
      (0 <= Summary.Avg_Active_Connections n)%Q) /\
     (forall r, active = [r] ->
        (Summary.Avg_Active_Connections n == Row.Average r)%Q)).
Proof.
  intros Hrun Hin Htype.
  destruct (analyze_idle_time_In _ _ _ _ _ Hrun Hin)
    as [ty [metrics [id [row0 [_ [_ [_ Hs]]]]]]].
  rewrite summarize_eq in Hs. cbv zeta in Hs. injection Hs as <-.
  cbn [Summary.Gateway_Type] in Htype. subst ty.
  cbn [Summary.of_kind Summary.Gateway_ID].
  change (String.eqb "NAT" "NAT") with true. cbv iota.
  unfold _nat_summary. cbv zeta. cbn [Summary.specific].
  eexists. split; [reflexivity |].
  cbn [Summary.Max_Active_Connections Summary.Avg_Active_Connections].
  set (gw := rows_of df "NAT" id).
  set (active := filter (fun r => String.eqb (Row.Metric r)
                                             "ActiveConnectionCount") gw).
  assert (Hhas :
    existsb (String.eqb "ActiveConnectionCount") (map Row.Metric gw)
    = match active with [] => false | _ :: _ => true end).
  { subst active. induction gw as [| r gw IH]; [reflexivity |].
    cbn [map existsb filter]. rewrite String.eqb_sym.
    destruct (String.eqb (Row.Metric r) "ActiveConnectionCount");
      [reflexivity | exact IH]. }
  rewrite Hhas. split.
  - intros ->. split; reflexivity.
  - intros Hne. destruct active as [| r0 rest] eqn:Hactive; [contradiction |].
    split; [| split; [| split]].
    + unfold series_max. cbn [map].
      destruct (series_max_fold (map Row.Maximum rest) (Row.Maximum r0))
        as [H0 [Hall _]].
      intros r [<- | Hr]; [exact H0 |]. apply Hall. apply in_map. exact Hr.
    + unfold series_max. cbn [map].
      destruct (series_max_fold (map Row.Maximum rest) (Row.Maximum r0))
        as [_ [_ [Hm | Hm]]].
      * exists r0. split; [left; reflexivity | exact Hm].
      * apply in_map_iff in Hm. destruct Hm as [r [Hr Hin']].
        exists r. split; [right; exact Hin' | symmetry; exact Hr].
    + intros Hb. unfold series_mean.
      apply Qle_shift_div_l.
      * unfold len. change 0%Q with (inject_Z 0). rewrite <- Zlt_Qlt.
        cbn [map List.length]. lia.
      * rewrite Qmult_comm. apply series_sum_ge.
        intros y Hy. apply in_map_iff in Hy. destruct Hy as [r [<- Hr]].
        apply Hb. exact Hr.
    + intros r E. injection E as -> ->.
      unfold series_mean, series_sum, len. cbn [map fold_left List.length].
      change (inject_Z (Z.of_nat 1)) with 1%Q. field.
Qed.

Lemma nat_active_connections_witness :
  exists summaries s n,
    analyze_idle_time example_table "123456789012" "us-east-1"
    = inr summaries /\
    In s summaries /\
    Summary.specific (Summary.of_kind s) = inl n /\
    (Summary.Max_Active_Connections n == 5)%Q.
Proof.
  destruct (analyze_idle_time example_table "123456789012" "us-east-1")
    as [e | [| s rest]] eqn:Hrun;
    [vm_compute in Hrun; discriminate | vm_compute in Hrun; discriminate |].
  assert (Hs : Summary.Gateway_Type s = "NAT" /\
               Summary.Gateway_ID s = "nat-1").
  { pose proof Hrun as H. vm_compute in H. injection H as H _.
    rewrite <- H. split; reflexivity. }
  destruct Hs as [Htype Hid].
  destruct (nat_active_connections example_table "123456789012" "us-east-1"
              (s :: rest) s Hrun (or_introl eq_refl) Htype)
    as [n [Hn [_ Hactive]]].
  exists (s :: rest), s, n. split; [reflexivity |].
  split; [left; reflexivity |]. split; [exact Hn |].
  rewrite Hid in Hactive.
  destruct Hactive as [_ [[r [Hr ->]] _]]; [discriminate |].
  simpl in Hr. destruct Hr as [<- | []]. reflexivity.
Defined.

Lemma idle_rows_timestamps df ty metrics id t :
  In t (unique Z.eqb
          (map Row.Timestamp
               (idle_rows (traffic_metrics_of metrics) (rows_of df ty id))))
  <-> idle_at df ty metrics id t.
Proof.
  rewrite (unique_In Z.eqb Z.eqb_eq), in_map_iff.
  unfold idle_at, idle_rows. split.
  - intros [r [Ht Hr]]. apply filter_In in Hr. destruct Hr as [Hr Hf].
    apply andb_true_iff in Hf. destruct Hf as [Hm Hz].
    apply rows_of_In in Hr. apply isin_In, traffic_metrics_of_In in Hm.
    apply Qeq_bool_iff in Hz. exists r. tauto.
  - intros [r [Hr [Hty [Hid [Hm [Hc [Hz Ht]]]]]]].
    exists r. split; [assumption |]. apply filter_In. split.
    + apply rows_of_In. auto.
    + apply andb_true_iff. split.
      * apply isin_In, traffic_metrics_of_In. auto.
      * apply Qeq_bool_iff. assumption.
Qed.

Lemma rows_timestamps df ty id t :
  In t (unique Z.eqb (map Row.Timestamp (rows_of df ty id)))
  <-> observed_at df ty id t.
Proof.
  rewrite (unique_In Z.eqb Z.eqb_eq), in_map_iff.
  unfold observed_at. split.
  - intros [r [Ht Hr]]. apply rows_of_In in Hr. exists r. tauto.
  - intros [r [Hr [Hty [Hid Ht]]]]. exists r. split; [assumption |].
    apply rows_of_In. auto.
Qed.

Lemma round2_all_idle total_periods :
  0 < total_periods ->
  (round2 (inject_Z total_periods / inject_Z total_periods * 100) == 100)%Q.
Proof.
  intros Hpos. rewrite (round2_hundredths _ 10000).
  - reflexivity.
  - assert (Hne : ~ (inject_Z total_periods == 0)%Q).
    { intros H. rewrite Zlt_Qlt in Hpos.
      change (inject_Z 0) with 0%Q in Hpos. lra. }
    change (inject_Z 10000) with 10000%Q. field. exact Hne.
Qed.

(** When every timestamp of [gw] is that of one of its idle rows, all
    periods are idle. *)
Lemma summarize_all_idle account_id region ty traffic_metrics id gw row0 s :
  summarize account_id region ty traffic_metrics id gw row0 = inr s ->
  gw <> [] ->
  (forall t, In t (map Row.Timestamp gw) ->
             In t (map Row.Timestamp (idle_rows traffic_metrics gw))) ->
  Summary.Idle_Periods s = Summary.Total_Periods s /\
  (Summary.Idle_Percentage s == 100)%Q.
Proof.
  intros Hs Hne Hall. rewrite summarize_eq in Hs. cbv zeta in Hs.
  injection Hs as <-.
  cbn [Summary.Total_Periods Summary.Idle_Periods Summary.Idle_Percentage].
  assert (Heq :
    len (unique Z.eqb (map Row.Timestamp (idle_rows traffic_metrics gw)))
    = len (unique Z.eqb (map Row.Timestamp gw))).
  { unfold len. f_equal. apply NoDup_same_length;
      try apply (unique_NoDup Z.eqb Z.eqb_eq).
    intros t. rewrite !(unique_In Z.eqb Z.eqb_eq). split.
    - intros Ht. apply in_map_iff in Ht. destruct Ht as [r [<- Hr]].
      apply in_map. unfold idle_rows in Hr. apply filter_In in Hr. tauto.
    - apply Hall. }
  split; [exact Heq |]. rewrite Heq.
  assert (Hpos : 0 < len (unique Z.eqb (map Row.Timestamp gw))).
  { destruct gw as [| r gw]; [contradiction |]. unfold len. simpl. lia. }
  pose proof Hpos as Hpos'. apply Z.ltb_lt in Hpos'. rewrite Hpos'.
  apply round2_all_idle. exact Hpos.
Qed.

(** When [gw] has no idle row, no period is idle. *)
Lemma summarize_none_idle account_id region ty traffic_metrics id gw row0 s :
  summarize account_id region ty traffic_metrics id gw row0 = inr s ->
  idle_rows traffic_metrics gw = [] ->
  Summary.Idle_Periods s = 0 /\ (Summary.Idle_Percentage s == 0)%Q.
Proof.
  intros Hs Hnone. rewrite summarize_eq in Hs. cbv zeta in Hs.
  injection Hs as <-.
  cbn [Summary.Idle_Periods Summary.Idle_Percentage].
  rewrite Hnone. split; [reflexivity |].
  apply round2_zero. destruct (0 <? _); [| reflexivity].
  change (inject_Z (len (unique Z.eqb (map Row.Timestamp [])))) with 0%Q.
  unfold Qdiv. ring.
Qed.

(** A gateway every observed timestamp of which has a traffic sample with
    [Sum == 0] is 100 percent idle; a gateway without any such sample has
    no idle period and is 0 percent idle. *)
Theorem idle_percentage_extremes df account_id region summaries s :
  analyze_idle_time df account_id region = inr summaries ->
  In s summaries ->
  exists metrics_list,
    In (Summary.Gateway_Type s, metrics_list)
       [("NAT", NAT_METRICS); ("IGW", IGW_METRICS)] /\
    ((forall t, observed_at df (Summary.Gateway_Type s)
                            (Summary.Gateway_ID s) t ->
                idle_at df (Summary.Gateway_Type s) metrics_list
                        (Summary.Gateway_ID s) t) ->
     Summary.Idle_Periods s = Summary.Total_Periods s /\
     (Summary.Idle_Percentage s == 100)%Q) /\
    ((forall t, ~ idle_at df (Summary.Gateway_Type s) metrics_list
                          (Summary.Gateway_ID s) t) ->
     Summary.Idle_Periods s = 0 /\
     (Summary.Idle_Percentage s == 0)%Q).
Proof.
  intros Hrun Hin.
  destruct (analyze_idle_time_In _ _ _ _ _ Hrun Hin)
    as [ty [metrics [id [row0 [Hkind [_ [Hrow0 Hs]]]]]]].
  destruct (summarize_gateway _ _ _ _ _ _ _ _ Hs) as [-> ->].
  exists metrics. split; [exact Hkind |]. split.
  - intros Hall. eapply summarize_all_idle; [exact Hs | |].
    + intros Hnil. rewrite Hnil in Hrow0. discriminate Hrow0.
    + intros t Ht.
      apply (proj1 (unique_In Z.eqb Z.eqb_eq _ _)).
      apply idle_rows_timestamps. apply Hall.
      apply rows_timestamps.
      apply (proj2 (unique_In Z.eqb Z.eqb_eq _ _)). exact Ht.
  - intros Hnone. eapply summarize_none_idle; [exact Hs |].
    destruct (idle_rows (traffic_metrics_of metrics) (rows_of df ty id))
      as [| r rows] eqn:E; [reflexivity |].
    exfalso. apply (Hnone (Row.Timestamp r)).
    apply idle_rows_timestamps.
    apply (proj2 (unique_In Z.eqb Z.eqb_eq _ _)).
    rewrite E. left. reflexivity.
Qed.

Lemma idle_percentage_extremes_witness :
  exists summaries s,
    analyze_idle_time idle_table "123456789012" "us-east-1" = inr summaries /\
    In s summaries /\
    Summary.Idle_Periods s = Summary.Total_Periods s /\
    (Summary.Idle_Percentage s == 100)%Q.
Proof.
  destruct (analyze_idle_time idle_table "123456789012" "us-east-1")
    as [e | [| s rest]] eqn:Hrun;
    [vm_compute in Hrun; discriminate | vm_compute in Hrun; discriminate |].
  assert (Hs : Summary.Gateway_Type s = "IGW" /\
               Summary.Gateway_ID s = "igw-2").
  { pose proof Hrun as H. vm_compute in H. injection H as H _.
    rewrite <- H. split; reflexivity. }
  destruct Hs as [Htype Hid].
  destruct (idle_percentage_extremes idle_table "123456789012" "us-east-1"
              (s :: rest) s Hrun (or_introl eq_refl))
    as [metrics [Hkind [Hall _]]].
  exists (s :: rest), s. split; [reflexivity |].
  split; [left; reflexivity |]. apply Hall.
  rewrite Htype, Hid in *.
  destruct Hkind as [E | [E | []]]; [discriminate E |]. injection E as <-.
  intros t [r [Hr [Hty [Hrid Ht]]]].
  exists r. split; [exact Hr |]. split; [exact Hty |]. split; [exact Hrid |].
  simpl in Hr.
  destruct Hr as [<- | [<- | []]];
    (split; [simpl; tauto |]; split; [left; reflexivity |];
     split; [reflexivity | exact Ht]).
Defined.

(** ** The collector and the analysis together *)

(** In a report of [main], an Internet Gateway that is ["Inactive"] has
    all its periods idle, an idle percentage of 100 and no traffic: every
    row the collector makes for an Internet Gateway is of a traffic
    metric. *)
Theorem main_inactive_is_idle
    cw ec2 writer region account_id now days df idle_analysis written log s :
  main cw ec2 writer region account_id now days
  = (inr (Report df idle_analysis written), log) ->
  In s idle_analysis ->
  Summary.status s = Some "Inactive" ->
  Summary.Idle_Periods s = Summary.Total_Periods s /\
  (Summary.Idle_Percentage s == 100)%Q /\
  no_traffic s.
Proof.
  intros Hrun Hin Hstatus.
  destruct (main_inr _ _ _ _ _ _ _ _ _ Hrun)
    as [df' [Hcollect [<- [Hdf [Han Hsh]]]]].
  destruct (analyze_idle_time_In _ _ _ _ _ Han Hin)
    as [ty [metrics [id [row0 [Hkind [_ [Hrow0 Hs]]]]]]].
  destruct (summarize_inactive _ _ _ _ _ _ _ _ Hs Hstatus) as [Hty Hzero].
  destruct Hkind as [E | [E | []]]; injection E as <- <-;
    [discriminate Hty |].
  assert (Hidle : idle_rows (traffic_metrics_of IGW_METRICS)
                            (rows_of df "IGW" id)
                  = rows_of df "IGW" id).
  { unfold idle_rows.
    apply filter_all with (Q := fun r => In r (rows_of df "IGW" id)).
    - apply Forall_forall. auto.
    - intros r Hr. rewrite forallb_forall in Hzero. rewrite (Hzero r Hr).
      rewrite andb_true_r. apply isin_In.
      apply rows_of_In in Hr. destruct Hr as [Hr [Htype _]].
      destruct (collect_metrics_igw_row _ _ _ _ _ _ _ _ r Hcollect Hr Htype)
        as [igw [metric [rows [_ [Hmetric [[_ [Hrows _]] Hin']]]]]].
      rewrite Forall_forall in Hrows. destruct (Hrows r Hin') as [_ [_ Hm]].
      rewrite Hm. exact Hmetric. }
  assert (Hall : Summary.Idle_Periods s = Summary.Total_Periods s /\
                 (Summary.Idle_Percentage s == 100)%Q).
  { eapply summarize_all_idle; [exact Hs | |].
    - intros Hnil. rewrite Hnil in Hrow0. discriminate Hrow0.
    - rewrite Hidle. auto. }
  split; [apply Hall |]. split; [apply Hall |].
  eapply summarize_no_traffic; eassumption.
Qed.

Lemma main_inactive_is_idle_witness :
  exists df idle_analysis written log s,
    main quiet_cloudwatch example_ec2 plain_writer "us-east-1"
         "123456789012" example_now 90
    = (inr (Report df idle_analysis written), log) /\
    In s idle_analysis /\
    Summary.status s = Some "Inactive" /\
    (Summary.Idle_Percentage s == 100)%Q.
Proof.
  destruct (main_total quiet_cloudwatch example_ec2 "us-east-1"
              "123456789012" example_now 90 quiet_cloudwatch_never_raises)
    as [outcome [log Hrun]].
  destruct (main_inr _ _ _ _ _ _ _ _ _ Hrun) as [df [Hcollect Hout]].
  pose proof (no_datapoints_rows_placeholders quiet_cloudwatch example_ec2
                "us-east-1" "123456789012" example_now 90 df log igw_1
                Hcollect
                (fun metric _ => quiet_cloudwatch_no_datapoints _ _ _))
    as Hall.
  pose proof (no_datapoints_rows_nonempty quiet_cloudwatch example_ec2
                "us-east-1" "123456789012" example_now 90 df log igw_1
                Hcollect (or_introl eq_refl)
                (fun metric _ => quiet_cloudwatch_no_datapoints _ _ _))
    as Hne.
  destruct outcome as [| df' idle sheets];
    [subst df; exfalso; apply Hne; reflexivity |].
  destruct Hout as [-> [Hdf [Han Hsh]]].
  assert (Hgw : In "igw-1" (gateways_of df "IGW")).
  { destruct (rows_of df "IGW" (gateway_id igw_1)) as [| r gw] eqn:Hrows;
      [contradiction |].
    assert (Hr : In r (rows_of df "IGW" (gateway_id igw_1)))
      by (rewrite Hrows; left; reflexivity).
    apply rows_of_In in Hr. apply gateways_of_In. exists r. exact Hr. }
  destruct (analyze_idle_time_gateway df "123456789012" "us-east-1" _
              "IGW" IGW_METRICS "igw-1" Han)
    as [row0 [s [Hs [_ Hsum]]]];
    [right; left; reflexivity | exact Hgw |].
  assert (Hstatus : Summary.status s = Some "Inactive").
  { pose proof (summarize_placeholders _ _ _ _ _ _ _ Hall Hne Hsum) as H.
    unfold idle_igw_summary in H. do 12 (destruct H as [_ H]). exact H. }
  exists df, idle, sheets, log, s.
  split; [exact Hrun |]. split; [exact Hs |]. split; [exact Hstatus |].
  exact (proj1 (proj2 (main_inactive_is_idle _ _ _ _ _ _ _ _ _ _ _ s
                         Hrun Hs Hstatus))).
Defined.

(** ** The table of the collector *)

Lemma NAT_METRICS_NoDup : NoDup NAT_METRICS.
Proof.
  unfold NAT_METRICS.
  repeat (constructor;
          [simpl; intros H;
           repeat (destruct H as [H | H]; [discriminate H |]); exact H |]).
  constructor.
Qed.

Lemma datapoint_rows_block cw account_id region gateway_type ns d g metric
    start_time end_time dps log :
  get_metric_data_chunked cw ns metric d start_time end_time
  = (inr dps, log) ->
  metric_block cw account_id region gateway_type ns d g metric
    (map (datapoint_row account_id region gateway_type g metric) dps).
Proof.
  intros Hfetch. split.
  - apply Forall_forall. intros r Hr. apply in_map_iff in Hr.
    destruct Hr as [dp [<- _]]. repeat split.
  - intros Hapi. rewrite map_map. cbn [datapoint_row Row.Timestamp].
    unfold get_metric_data_chunked in Hfetch.
    apply get_metric_data_loop_out in Hfetch.
    destruct Hfetch as [ws [Hch ->]]. cbn [app].
    exact (proj1 (chunking_datapoints _ _ _ _ _ _ _ Hapi Hch)).
Qed.

Lemma collect_nat_metric_block cw account_id region start_time end_time
    nat metric results results' log :
  collect_nat_metric cw account_id region start_time end_time nat metric
                     results = (inr results', log) ->
  exists rows,
    results' = results ++ rows /\
    metric_block cw account_id region "NAT" "AWS/NATGateway"
                 (nat_dimensions (gateway_id nat)) nat metric rows.
Proof.
  unfold collect_nat_metric. intros Hrun. apply bind_inr in Hrun.
  destruct Hrun as [dps [l1 [l2 [Hfetch [Hret _]]]]]. injection Hret as <- _.
  eexists. split; [reflexivity |].
  eapply datapoint_rows_block. exact Hfetch.
Qed.

Lemma collect_igw_metric_block cw account_id region start_time end_time
    igw metric results results' log :
  collect_igw_metric cw account_id region start_time end_time igw metric
                     results = (inr results', log) ->
  exists rows,
    results' = results ++ rows /\
    metric_block cw account_id region "IGW" "AWS/IGW"
                 (igw_dimensions (gateway_id igw)) igw metric rows.
Proof.
  unfold collect_igw_metric. intros Hrun. apply bind_inr in Hrun.
  destruct Hrun as [probe [l1 [l2 [_ [Hrun _]]]]].
  apply bind_inr in Hrun.
  destruct Hrun as [dps [l3 [l4 [Hfetch [Hret _]]]]].
  injection Hret as <- _.
  destruct dps as [| dp dps].
  - exists [placeholder_row account_id region igw metric start_time].
    simpl. rewrite app_nil_r. split; [reflexivity |]. split.
    + constructor; [| constructor]. repeat split.
    + intros _. simpl. constructor; [intros [] | constructor].
  - eexists. split; [reflexivity |].
    destruct probe as [| md probe]; [discriminate Hfetch |].
    eapply datapoint_rows_block. exact Hfetch.
Qed.

(** The table of a run that returned, block by block. *)
Lemma collect_metrics_blocks cw ec2 region account_id now days df log :
  collect_metrics cw ec2 region account_id now days = (inr df, log) ->
  exists nat_rowss igw_rowss,
    df = List.concat nat_rowss ++ List.concat igw_rowss /\
    Forall2 (gateway_blocks cw account_id region "NAT" "AWS/NATGateway"
                            nat_dimensions NAT_METRICS)
            (paginate_nat_gateways ec2) nat_rowss /\
    Forall2 (gateway_blocks cw account_id region "IGW" "AWS/IGW"
                            igw_dimensions IGW_METRICS)
            (paginate_internet_gateways ec2) igw_rowss.
Proof.
  unfold collect_metrics. cbv zeta. intros Hrun. apply bind_inr in Hrun.
  destruct Hrun as [results [l1 [l2 [Hnat [Higw _]]]]].
  apply (for_each_appends
           (gateway_blocks cw account_id region "NAT" "AWS/NATGateway"
                           nat_dimensions NAT_METRICS)) in Hnat.
  - destruct Hnat as [nat_rowss [-> HFnat]]. cbn [app] in Higw.
    apply (for_each_appends
             (gateway_blocks cw account_id region "IGW" "AWS/IGW"
                             igw_dimensions IGW_METRICS)) in Higw.
    + destruct Higw as [igw_rowss [-> HFigw]].
      exists nat_rowss, igw_rowss. auto.
    + intros igw s s' lg _ Hbody.
      apply (for_each_appends
               (metric_block cw account_id region "IGW" "AWS/IGW"
                             (igw_dimensions (gateway_id igw)) igw))
        in Hbody.
      * destruct Hbody as [rowss [-> HF]].
        eexists. split; [reflexivity |]. exists rowss. auto.
      * intros metric s0 s0' lg0 _ Hb.
        eapply collect_igw_metric_block. eassumption.
  - intros nat s s' lg _ Hbody.
    apply (for_each_appends
             (metric_block cw account_id region "NAT" "AWS/NATGateway"
                           (nat_dimensions (gateway_id nat)) nat))
      in Hbody.
    + destruct Hbody as [rowss [-> HF]].
      eexists. split; [reflexivity |]. exists rowss. auto.
    + intros metric s0 s0' lg0 _ Hb.
      eapply collect_nat_metric_block. eassumption.
Qed.

Lemma gateway_blocks_rows cw account_id region ty ns dims catalog g rows :
  gateway_blocks cw account_id region ty ns dims catalog g rows ->
  Forall (fun r => row_of_gateway account_id region ty g r /\
                   In (Row.Metric r) catalog) rows.
Proof.
  intros [rowss [-> HF]]. apply Forall_forall. intros r Hr.
  apply in_concat in Hr. destruct Hr as [rows [Hrows Hr]].
  destruct (Forall2_In_r _ _ _ _ HF Hrows) as [metric [Hmetric [Hall _]]].
  rewrite Forall_forall in Hall. destruct (Hall r Hr) as [Hg Hm].
  split; [exact Hg |]. rewrite Hm. exact Hmetric.
Qed.

(** The table of a run holds the rows of the NAT Gateways, then those of
    the Internet Gateways.  Every row carries the account and region of
    the run, the name and VPC of a listed gateway of its kind, and a
    metric of the catalog of that kind. *)
Theorem collect_metrics_rows_of_listed_gateways
    cw ec2 region account_id now days df log :
  collect_metrics cw ec2 region account_id now days = (inr df, log) ->
  exists nat_part igw_part,
    df = nat_part ++ igw_part /\
    Forall (fun r =>
              In (Row.Metric r) NAT_METRICS /\
              exists nat, In nat (paginate_nat_gateways ec2) /\
                          row_of_gateway account_id region "NAT" nat r)
           nat_part /\
    Forall (fun r =>
              In (Row.Metric r) IGW_METRICS /\
              exists igw, In igw (paginate_internet_gateways ec2) /\
                          row_of_gateway account_id region "IGW" igw r)
           igw_part.
Proof.
  intros Hrun.
  destruct (collect_metrics_blocks _ _ _ _ _ _ _ _ Hrun)
    as [nat_rowss [igw_rowss [-> [HFnat HFigw]]]].
  eexists _, _. split; [reflexivity |]. split.
  - apply Forall_forall. intros r Hr.
    apply in_concat in Hr. destruct Hr as [rows [Hrows Hr]].
    destruct (Forall2_In_r _ _ _ _ HFnat Hrows) as [nat [Hnat Hblocks]].
    apply gateway_blocks_rows in Hblocks. rewrite Forall_forall in Hblocks.
    destruct (Hblocks r Hr) as [Hg Hm]. split; [exact Hm |].
    exists nat. auto.
  - apply Forall_forall. intros r Hr.
    apply in_concat in Hr. destruct Hr as [rows [Hrows Hr]].
    destruct (Forall2_In_r _ _ _ _ HFigw Hrows) as [igw [Higw Hblocks]].
    apply gateway_blocks_rows in Hblocks. rewrite Forall_forall in Hblocks.
    destruct (Hblocks r Hr) as [Hg Hm]. split; [exact Hm |].
    exists igw. auto.
Qed.

Lemma collect_metrics_rows_of_listed_gateways_witness :
  exists df log nat_part igw_part,
    collect_metrics busy_cloudwatch example_ec2 "us-east-1" "123456789012"
                    example_now 90 = (inr df, log) /\
    df = nat_part ++ igw_part /\
    Forall (fun r => In (Row.Metric r) NAT_METRICS) nat_part /\
    Forall (fun r => In (Row.Metric r) IGW_METRICS) igw_part.
Proof.
  destruct (collect_metrics_total busy_cloudwatch example_ec2 "us-east-1"
              "123456789012" example_now 90 busy_cloudwatch_never_raises)
    as [df [log Hrun]].
  destruct (collect_metrics_rows_of_listed_gateways _ _ _ _ _ _ _ _ Hrun)
    as [nat_part [igw_part [Hdf [Hnat Higw]]]].
  exists df, log, nat_part, igw_part.
  split; [exact Hrun |]. split; [exact Hdf |]. split.
  - eapply Forall_impl; [| exact Hnat]. intros r [H _]. exact H.
  - eapply Forall_impl; [| exact Higw]. intros r [H _]. exact H.
Defined.

(** Blocks whose keys carry distinct tags have distinct keys together when
    each has distinct keys. *)
Lemma NoDup_concat_tagged {A R K T} (P : A -> list R -> Prop)
    (key : R -> K) (proj : K -> T) (tag : A -> T)
    (l : list A) (rowss : list (list R)) :
  Forall2 P l rowss -> NoDup (map tag l) ->
  (forall a rows, In a l -> P a rows ->
     NoDup (map key rows) /\
     Forall (fun r => proj (key r) = tag a) rows) ->
  NoDup (map key (List.concat rowss)).
Proof.
  intros HF. induction HF as [| a rows l rowss HP HF IH]; intros Hnd Hblock.
  - constructor.
  - simpl in Hnd. inversion Hnd as [| t ts Hnotin Hnd']; subst.
    destruct (Hblock a rows (or_introl eq_refl) HP) as [Hrows Htag].
    simpl. rewrite map_app. apply NoDup_app.
    + exact Hrows.
    + apply IH; [exact Hnd' |].
      intros a' rows' Ha'. apply Hblock. right. exact Ha'.
    + intros k Hk1 Hk2.
      apply in_map_iff in Hk1. destruct Hk1 as [r1 [<- Hr1]].
      apply in_map_iff in Hk2. destruct Hk2 as [r2 [Hk Hr2]].
      apply in_concat in Hr2. destruct Hr2 as [rows' [Hrows' Hr2]].
      destruct (Forall2_In_r _ _ _ _ HF Hrows') as [a' [Ha' HP']].
      destruct (Hblock a' rows' (or_intror Ha') HP') as [_ Htag'].
      rewrite Forall_forall in Htag, Htag'.
      apply Hnotin. rewrite <- (Htag r1 Hr1), <- Hk, (Htag' r2 Hr2).
      apply in_map. exact Ha'.
Qed.

Lemma gateway_blocks_NoDup cw account_id region ty ns dims catalog g rows :
  NoDup catalog ->
  (forall metric, In metric catalog ->
     answers_within_window cw ns metric (dims (gateway_id g))) ->
  gateway_blocks cw account_id region ty ns dims catalog g rows ->
  NoDup (map sample_key rows).
Proof.
  intros Hnd Hapi [rowss [-> HF]].
  apply (NoDup_concat_tagged _ sample_key (fun k => snd (fst k))
           (fun metric : string => metric) _ _ HF).
  - rewrite map_id. exact Hnd.
  - intros metric rows Hmetric [Hall Hts]. split.
    + specialize (Hts (Hapi metric Hmetric)).
      apply (NoDup_map_inv snd). rewrite map_map. exact Hts.
    + eapply Forall_impl; [| exact Hall]. intros r [_ Hm]. exact Hm.
Qed.

(** When the client answers each fetch with distinct timestamps of the
    window asked for, and no gateway is listed twice, no two rows of the
    table are for the same gateway, metric and timestamp. *)
Theorem collect_metrics_no_duplicate_sample
    cw ec2 region account_id now days df log :
  collect_metrics cw ec2 region account_id now days = (inr df, log) ->
  NoDup (map gateway_id (paginate_nat_gateways ec2)) ->
  NoDup (map gateway_id (paginate_internet_gateways ec2)) ->
  (forall nat metric,
     In nat (paginate_nat_gateways ec2) -> In metric NAT_METRICS ->
     answers_within_window cw "AWS/NATGateway" metric
                           (nat_dimensions (gateway_id nat))) ->
  (forall igw metric,
     In igw (paginate_internet_gateways ec2) -> In metric IGW_METRICS ->
     answers_within_window cw "AWS/IGW" metric
                           (igw_dimensions (gateway_id igw))) ->
  NoDup (map sample_key df).
Proof.
  intros Hrun Hnats Higws Hapi_nat Hapi_igw.
  destruct (collect_metrics_blocks _ _ _ _ _ _ _ _ Hrun)
    as [nat_rowss [igw_rowss [-> [HFnat HFigw]]]].
  rewrite map_app. apply NoDup_app.
  - apply (NoDup_concat_tagged _ sample_key (fun k => snd (fst (fst k)))
             gateway_id _ _ HFnat Hnats).
    intros nat rows Hnat Hblocks. split.
    + eapply gateway_blocks_NoDup; [apply NAT_METRICS_NoDup | | exact Hblocks].
      intros metric Hmetric. apply Hapi_nat; assumption.
    + apply gateway_blocks_rows in Hblocks.
      eapply Forall_impl; [| exact Hblocks].
      intros r [[_ [_ [_ [Hid _]]]] _]. exact Hid.
  - apply (NoDup_concat_tagged _ sample_key (fun k => snd (fst (fst k)))
             gateway_id _ _ HFigw Higws).
    intros igw rows Higw Hblocks. split.
    + eapply gateway_blocks_NoDup; [apply IGW_METRICS_NoDup | | exact Hblocks].
      intros metric Hmetric. apply Hapi_igw; assumption.
    + apply gateway_blocks_rows in Hblocks.
      eapply Forall_impl; [| exact Hblocks].
      intros r [[_ [_ [_ [Hid _]]]] _]. exact Hid.
  - intros k Hk1 Hk2.
    apply in_map_iff in Hk1. destruct Hk1 as [r1 [<- Hr1]].
    apply in_map_iff in Hk2. destruct Hk2 as [r2 [Hk Hr2]].
    apply in_concat in Hr1. destruct Hr1 as [rows1 [Hrows1 Hr1]].
    apply in_concat in Hr2. destruct Hr2 as [rows2 [Hrows2 Hr2]].
    destruct (Forall2_In_r _ _ _ _ HFnat Hrows1) as [nat [_ Hb1]].
    destruct (Forall2_In_r _ _ _ _ HFigw Hrows2) as [igw [_ Hb2]].
    apply gateway_blocks_rows in Hb1, Hb2. rewrite Forall_forall in Hb1, Hb2.
    destruct (Hb1 r1 Hr1) as [[_ [_ [Ht1 _]]] _].
    destruct (Hb2 r2 Hr2) as [[_ [_ [Ht2 _]]] _].
    unfold sample_key in Hk. injection Hk as Hty _ _ _. congruence.
Qed.

Lemma collect_metrics_no_duplicate_sample_witness :
  exists df log,
    collect_metrics busy_cloudwatch example_ec2 "us-east-1" "123456789012"
                    example_now 90 = (inr df, log) /\
    NoDup (map sample_key df).
Proof.
  destruct (collect_metrics_total busy_cloudwatch example_ec2 "us-east-1"
              "123456789012" example_now 90 busy_cloudwatch_never_raises)
    as [df [log Hrun]].
  exists df, log. split; [exact Hrun |].
  apply (collect_metrics_no_duplicate_sample _ _ _ _ _ _ _ _ Hrun).
  - simpl. constructor; [intros [] | constructor].
  - simpl. constructor; [intros [] | constructor].
  - intros. apply busy_cloudwatch_answers_within_window.
  - intros. apply busy_cloudwatch_answers_within_window.
Defined.

(** Every summary of a report of [main] is for a listed gateway of its
    kind: it carries the account and region of the run and the
    identifier, name and VPC of that gateway. *)
Theorem main_summaries_of_listed_gateways
    cw ec2 writer region account_id now days df idle_analysis written log s :
  main cw ec2 writer region account_id now days
  = (inr (Report df idle_analysis written), log) ->
  In s idle_analysis ->
  Summary.Account_ID s = account_id /\
  Summary.Region s = region /\
  exists g,
    ((Summary.Gateway_Type s = "NAT" /\ In g (paginate_nat_gateways ec2)) \/
     (Summary.Gateway_Type s = "IGW" /\
      In g (paginate_internet_gateways ec2))) /\
    Summary.Gateway_ID s = gateway_id g /\
    Summary.Gateway_Name s = gateway_name g /\
    Summary.VPC_ID s = vpc_id g /\
    Summary.VPC_Name s = vpc_name g.
Proof.
  intros Hrun Hin.
  destruct (main_inr _ _ _ _ _ _ _ _ _ Hrun)
    as [df' [Hcollect [<- [Hdf [Han Hsh]]]]].
  destruct (analyze_idle_time_In _ _ _ _ _ Han Hin)
    as [ty [metrics [id [row0 [_ [_ [Hrow0 Hs]]]]]]].
  assert (Hrow : In row0 (rows_of df ty id)).
  { destruct (rows_of df ty id) as [| r gw]; [discriminate Hrow0 |].
    injection Hrow0 as ->. left. reflexivity. }
  apply rows_of_In in Hrow. destruct Hrow as [Hrow [Hty Hid]].
  rewrite summarize_eq in Hs. cbv zeta in Hs. injection Hs as <-.
  cbn [Summary.Account_ID Summary.Region Summary.Gateway_Type
       Summary.Gateway_ID Summary.Gateway_Name Summary.VPC_ID
       Summary.VPC_Name].
  split; [reflexivity |]. split; [reflexivity |].
  destruct (collect_metrics_blocks _ _ _ _ _ _ _ _ Hcollect)
    as [nat_rowss [igw_rowss [Edf [HFnat HFigw]]]].
  rewrite Edf in Hrow. apply in_app_or in Hrow.
  destruct Hrow as [Hrow | Hrow];
    apply in_concat in Hrow; destruct Hrow as [rows [Hrows Hrow]].
  - destruct (Forall2_In_r _ _ _ _ HFnat Hrows) as [g [Hg Hblocks]].
    apply gateway_blocks_rows in Hblocks. rewrite Forall_forall in Hblocks.
    destruct (Hblocks row0 Hrow) as [[_ [_ [Ht [Hi [Hn [Hv Hvn]]]]]] _].
    exists g. split; [left; split; [congruence | exact Hg] |].
    repeat split; congruence.
  - destruct (Forall2_In_r _ _ _ _ HFigw Hrows) as [g [Hg Hblocks]].
    apply gateway_blocks_rows in Hblocks. rewrite Forall_forall in Hblocks.
    destruct (Hblocks row0 Hrow) as [[_ [_ [Ht [Hi [Hn [Hv Hvn]]]]]] _].
    exists g. split; [right; split; [congruence | exact Hg] |].
    repeat split; congruence.
Qed.

Lemma main_summaries_of_listed_gateways_witness :
  exists df idle_analysis written log s,
    main busy_cloudwatch example_ec2 plain_writer "us-east-1"
         "123456789012" example_now 90
    = (inr (Report df idle_analysis written), log) /\
    In s idle_analysis /\
    Summary.Account_ID s = "123456789012".
Proof.
  destruct (main_total busy_cloudwatch example_ec2 "us-east-1"
              "123456789012" example_now 90 busy_cloudwatch_never_raises)
    as [outcome [log Hrun]].
  destruct (main_inr _ _ _ _ _ _ _ _ _ Hrun) as [df [Hcollect Hout]].
  destruct (collect_metrics_igw_rows _ _ _ _ _ _ _ _ igw_1
              "BytesInFromDestination" Hcollect (or_introl eq_refl)
              (or_introl eq_refl)) as [rows [[Hne [Hall _]] Hincl]].
  destruct rows as [| r rows]; [contradiction |].
  assert (Hr : In r df) by (apply Hincl; left; reflexivity).
  destruct outcome as [| df' idle sheets]; [subst df; destruct Hr |].
  destruct Hout as [-> [Hdf [Han Hsh]]].
  inversion Hall as [| r' rows' [Ht [Hid _]] _]; subst.
  destruct (analyze_idle_time_gateway df "123456789012" "us-east-1" _
              "IGW" IGW_METRICS (gateway_id igw_1) Han)
    as [row0 [s [Hs _]]];
    [right; left; reflexivity
    | apply gateways_of_In; exists r; auto |].
  exists df, idle, sheets, log, s.
  split; [exact Hrun |]. split; [exact Hs |].
  exact (proj1 (main_summaries_of_listed_gateways _ _ _ _ _ _ _ _ _ _ _ s
                  Hrun Hs)).
Defined.
